(** * gfw-toolkit: token statistics, token revocation, backoff and the
      resumable user iterator

    A shallow embedding of the Python 2 sources

      - [toolkit/utils/http_utils.py]            (Backoff),
      - [toolkit/utils/token_report_utils.py]    (StatKey packing, TokenStats),
      - [toolkit/utils/token_revoker.py]         (TokenRevoker),
      - [toolkit/admin_sdk_directory_api/tokens_api.py] and [users_api.py]
        (the request loops), and
      - [toolkit/utils/user_iterator.py]         (CheckResumable,
        StartUserIterator),

    followed by the properties of these functions.

    Conventions.  Python integers are [Z]; Python strings are [string]
    (a sequence of 8-bit characters); a Python [set] of strings is a
    [gset string]; a [dict] with string keys is a [gmap string _], or an
    association list in iteration order where the code iterates over it.
    Code that logs, sleeps, talks to the remote API or raises runs in the
    monad [M]: state passing over a world and an event trace, with a
    [result] that is a value or a raised exception. *)

From Stdlib Require Import ZArith Ascii String List Bool Lia.
From stdpp Require Import base decidable option list gmap strings sorting.

Local Open Scope Z_scope.

(** ** Python string primitives *)

(** [s.rstrip(c)] for a one-character argument: every trailing [c] goes. *)
Fixpoint rstrip (c : ascii) (s : string) : string :=
  match s with
  | EmptyString => EmptyString
  | String a s' =>
      match rstrip c s' with
      | EmptyString => if Ascii.eqb a c then EmptyString else String a EmptyString
      | r => String a r
      end
  end.

(** The white space of Python 2's [str]: space, tab, line feed, vertical
    tab, form feed, carriage return.  A [unicode] object has a larger class
    (it adds the separators 0x1c to 0x1f, 0x85 and 0xa0 among the 8-bit
    characters), which is why the functions below take the class as an
    argument. *)
Definition str_isspace (a : ascii) : bool :=
  let n := N_of_ascii a in
  (N.eqb n 32 || (N.leb 9 n && N.leb n 13))%bool.

Definition unicode_isspace (a : ascii) : bool :=
  let n := N_of_ascii a in
  (str_isspace a || (N.leb 28 n && N.leb n 31) || N.eqb n 133 || N.eqb n 160)%bool.

Section Split.
(** The white-space class of the string type at hand. *)
Variable isspace : ascii -> bool.

Fixpoint lstrip_space (s : string) : string :=
  match s with
  | EmptyString => EmptyString
  | String a s' => if isspace a then lstrip_space s' else s
  end.

(** The first run of non-space characters of [s], and what follows it. *)
Fixpoint span_word (s : string) : string * string :=
  match s with
  | EmptyString => (EmptyString, EmptyString)
  | String a s' =>
      if isspace a then (EmptyString, s)
      else let '(w, r) := span_word s' in (String a w, r)
  end.

(** [s.split(None, 1)]: leading white space is skipped; the first word
    ends at the next white space; the white space after it is skipped and
    what remains, if anything, is the second item, kept as it is. *)
Definition split_None_1 (s : string) : list string :=
  match lstrip_space s with
  | EmptyString => []
  | s1 =>
      let '(w, r) := span_word s1 in
      match lstrip_space r with
      | EmptyString => [w]
      | r' => [w; r']
      end
  end.

(** [true] when no character of [s] is white space. *)
Fixpoint no_whitespace (s : string) : bool :=
  match s with
  | EmptyString => true
  | String a s' => negb (isspace a) && no_whitespace s'
  end.

(** [s] is not empty and its first character is not white space. *)
Definition starts_with_word (s : string) : bool :=
  match s with
  | EmptyString => false
  | String a _ => negb (isspace a)
  end.

(** *** token_report_utils: the StatKey *)

(** [PackStatKey]: ['%s %s' % (scope, client_id)]. *)
Definition PackStatKey (client_id scope : string) : string :=
  scope +:+ " " +:+ client_id.

(** [UnpackStatKey]: [stat_key.split(None, 1)]. *)
Definition UnpackStatKey (stat_key : string) : list string :=
  split_None_1 stat_key.

End Split.

(** ** Python lists: indexing and slicing with integers *)

Definition len {A} (l : list A) : Z := Z.of_nat (length l).

(** [l[i]] is [Some] of the item, or [None] where Python raises IndexError;
    a negative index counts from the end. *)
Definition py_index {A} (l : list A) (i : Z) : option A :=
  let j := if i <? 0 then i + len l else i in
  if j <? 0 then None else l !! Z.to_nat j.

(** A slice bound, brought into [0, len]. *)
Definition slice_bound (n i : Z) : Z :=
  if i <? 0 then Z.max 0 (i + n) else Z.min i n.

(** [l[lo:hi]] *)
Definition py_slice {A} (l : list A) (lo hi : Z) : list A :=
  let lo' := slice_bound (len l) lo in
  let hi' := slice_bound (len l) hi in
  take (Z.to_nat (hi' - lo')) (drop (Z.to_nat lo') l).

(** ** admin_api_tool_errors: the exception classes *)

Inductive exn_class :=
| AdminAPIToolError
| AdminAPIToolAuthorizationError
| AdminAPIToolCmdError
| AdminAPIToolFileError
| AdminAPIToolJsonError
| AdminAPIToolPlusDomainsError
| AdminAPIToolResumeError
| AdminAPIToolTokenRequestError
| AdminAPIToolUserError
| AdminAPIToolInvalidUserEmailError
| IndexError
| ValueError
| TypeError
| AttributeError
| SystemExit.

#[global] Instance exn_class_eq_dec : EqDecision exn_class.
Proof. solve_decision. Defined.

(** The class a class is derived from in [admin_api_tool_errors.py]; [None]
    for a class derived from a built-in one. *)
Definition base_class (c : exn_class) : option exn_class :=
  match c with
  | AdminAPIToolError | IndexError | ValueError | TypeError | AttributeError
  | SystemExit => None
  | AdminAPIToolInvalidUserEmailError => Some AdminAPIToolUserError
  | _ => Some AdminAPIToolError
  end.

(** [issubclass(c, d)]; the hierarchy is two levels deep. *)
Definition issubclass (c d : exn_class) : bool :=
  bool_decide (c = d) ||
  match base_class c with
  | None => false
  | Some b =>
      bool_decide (b = d) ||
      match base_class b with
      | None => false
      | Some b' => bool_decide (b' = d)
      end
  end.

(** ** Values decoded from JSON *)

(** A Python float: nan, an infinity, or [mantissa * 2 ^ exponent]. *)
Inductive float :=
| FNaN
| FInf (negative : bool)
| FFinite (mantissa exponent : Z).

(** What [json.load] and [json.loads] return: [None], a bool, an int, a
    float, a string, a list, or a dict given by its items (the keys are
    distinct). *)
#[local] Unset Elimination Schemes.
Inductive json :=
| JNull
| JBool (b : bool)
| JInt (n : Z)
| JFloat (f : float)
| JStr (s : string)
| JList (items : list json)
| JDict (members : list (string * json)).
#[local] Set Elimination Schemes.

(** [type(value).__name__]; an int beyond the machine word is a [long]
    (here of a 64-bit build). *)
Definition type_name (value : json) : string :=
  match value with
  | JNull => "NoneType"
  | JBool _ => "bool"
  | JInt n => if (- 2 ^ 63 <=? n) && (n <? 2 ^ 63) then "int" else "long"
  | JFloat _ => "float"
  | JStr _ => "unicode"
  | JList _ => "list"
  | JDict _ => "dict"
  end.

(** [bool(value)] *)
Definition py_bool (value : json) : bool :=
  match value with
  | JNull => false
  | JBool b => b
  | JInt n => negb (n =? 0)
  | JFloat (FFinite mantissa _) => negb (mantissa =? 0)
  | JFloat _ => true
  | JStr s => negb (String.eqb s "")
  | JList items => negb (bool_decide (length items = 0%nat))
  | JDict members => negb (bool_decide (length members = 0%nat))
  end.

(** [f < n] and [f > n] for a float and an int; every comparison with nan
    is false. *)
Definition float_lt_int (f : float) (n : Z) : bool :=
  match f with
  | FNaN => false
  | FInf negative => negative
  | FFinite mantissa exponent =>
      if 0 <=? exponent then mantissa * 2 ^ exponent <? n
      else mantissa <? n * 2 ^ (- exponent)
  end.

Definition float_gt_int (f : float) (n : Z) : bool :=
  match f with
  | FNaN => false
  | FInf negative => negb negative
  | FFinite mantissa exponent =>
      if 0 <=? exponent then n <? mantissa * 2 ^ exponent
      else n * 2 ^ (- exponent) <? mantissa
  end.

(** [value < n] and [value > n] for an int [n], as Python 2 orders objects
    of different types: [None] is below everything, numbers compare by
    value, and every number is below every object that is not a number. *)
Definition py_lt_int (value : json) (n : Z) : bool :=
  match value with
  | JNull => true
  | JBool b => Z.b2z b <? n
  | JInt m => m <? n
  | JFloat f => float_lt_int f n
  | JStr _ | JList _ | JDict _ => false
  end.

Definition py_gt_int (value : json) (n : Z) : bool :=
  match value with
  | JNull => false
  | JBool b => Z.b2z b >? n
  | JInt m => m >? n
  | JFloat f => float_gt_int f n
  | JStr _ | JList _ | JDict _ => true
  end.

(** [value == s] for a string [s]. *)
Definition py_eq_str (value : json) (s : string) : bool :=
  match value with
  | JStr s' => String.eqb s' s
  | _ => false
  end.

(** [members.get(key)] on the items of a dict. *)
Fixpoint dict_get (key : string) (members : list (string * json)) : option json :=
  match members with
  | [] => None
  | (k, v) :: rest => if String.eqb k key then Some v else dict_get key rest
  end.

(** [key in value] for a string [key]: a key of a dict, an item of a list,
    a substring of a string; [None] where Python raises TypeError, the
    value not being iterable. *)
Definition py_contains (key : string) (value : json) : option bool :=
  match value with
  | JDict members => Some (bool_decide (is_Some (dict_get key members)))
  | JList items => Some (existsb (fun item => py_eq_str item key) items)
  | JStr s => Some (bool_decide (is_Some (String.index 0%nat key s)))
  | JNull | JBool _ | JInt _ | JFloat _ => None
  end.

(** An argument of a [%] format. *)
Inductive fmt_arg :=
| ANone
| AStr (s : string)
| AInt (n : Z)
| AJson (value : json).

(** A value decoded from JSON as an argument of a format. *)
Definition arg_of_json (value : json) : fmt_arg :=
  match value with
  | JNull => ANone
  | JStr s => AStr s
  | JInt n => AInt n
  | _ => AJson value
  end.

(** A formatted text [template % args], kept unrendered: the template is
    the format string as the source writes it. *)
Record message := Msg { template : string; args : list fmt_arg }.

Record exception := Exception { exc_class : exn_class; exc_message : message }.

(** [sys.exit(1)] *)
Definition sys_exit_1 : exception := Exception SystemExit (Msg "1" []).

(** ** Effects *)

Inductive http_method := GET | POST | DELETE.

#[global] Instance http_method_eq_dec : EqDecision http_method.
Proof. solve_decision. Defined.

(** A request object of the API client library: the HTTP method, the
    method id, and the keyword arguments it was built from. *)
Record request := Request {
  method : http_method;
  methodId : string;
  kwargs : list (string * fmt_arg)
}.

(** The document a request returns on success (the parsed JSON). *)
Inductive document :=
| Dict (items : list (string * string)).

(** The body of an error response as [ParseHttpResult] reads it.
    [FromJsonString] rejects the content ([NotJson]; [why] is the text of
    the ValueError), or decodes it.  [ErrorText] is the error response of
    the API, an object with an object under "error": [text] is the text
    [ParseHttpResult] makes of it.  [Json] is any content that decodes,
    with the value it decodes to; [text] is the text that is made of it
    where the source gets as far as formatting it.  How a text is put
    together is not modelled. *)
Inductive error_body :=
| NotJson (content : string) (why : string)
| ErrorText (content : string) (text : string)
| Json (content : string) (value : json) (text : string).

Definition content_of (body : error_body) : string :=
  match body with
  | NotJson content _ | ErrorText content _ | Json content _ _ => content
  end.

(** What [ParseHttpResult] does with the decoded content: ['error' in
    content] raises TypeError when the content is not iterable; when it
    holds, [content.get('error', {}).get('message')] raises AttributeError
    unless the content is a dict with a dict under "error"; in every other
    case a text results. *)
Definition parse_decoded (value : json) (text : string) : exception + string :=
  match py_contains "error" value with
  | None =>
      inl (Exception TypeError
             (Msg "argument of type '%s' is not iterable" [AStr (type_name value)]))
  | Some false => inr text
  | Some true =>
      match value with
      | JDict members =>
          match dict_get "error" members with
          | Some (JDict _) | None => inr text
          | Some error =>
              inl (Exception AttributeError
                     (Msg "'%s' object has no attribute 'get'"
                        [AStr (type_name error)]))
          end
      | _ =>
          inl (Exception AttributeError
                 (Msg "'%s' object has no attribute 'get'" [AStr (type_name value)]))
      end
  end.

(** [FromJsonString(content)] and what follows it in [ParseHttpResult]:
    the exception raised, or the text returned. *)
Definition parse_body (body : error_body) : exception + string :=
  match body with
  | NotJson content why =>
      inl (Exception AdminAPIToolJsonError
             (Msg "ERROR: response is not valid json: %s\n%s."
                [AStr why; AStr content]))
  | ErrorText _ text => inr text
  | Json _ value text => parse_decoded value text
  end.

(** What [request.execute()] does: return a document or raise
    [apiclient.errors.HttpError] with a status. *)
Inductive http_result :=
| HttpOk (doc : document)
| HttpError (status : Z) (uri : string) (body : error_body).

Inductive level := DEBUG | INFO | ERROR.

Inductive event :=
| Log (lv : level) (msg : message) (exc : option exception)
| Execute (r : request)
| Sleep (seconds : Z)
| Stdout (msg : message)
| Yield (user_email user_id : string) (checkpoint : bool)
| WriteProgress (file_name : string) (prev_user : option string)
    (user_email : string) (count_done : Z)
| RemoveFile (file_name : string).

(** How a call ends.  [OutOfFuel] is the model's own: a loop that was given
    too few iterations. *)
Inductive result (A : Type) :=
| Return (a : A)
| Raise (e : exception)
| OutOfFuel.
Arguments Return {A} a.
Arguments Raise {A} e.
Arguments OutOfFuel {A}.

Section Monad.
Context {W : Type}.

(** The world outside the program, and what the program has done so far. *)
Record state := State { world : W; trace : list event }.

Definition M (A : Type) : Type := state -> result A * state.

Definition ret {A} (a : A) : M A := fun s => (Return a, s).

Definition bind {A B} (m : M A) (k : A -> M B) : M B :=
  fun s =>
    match m s with
    | (Return a, s') => k a s'
    | (Raise e, s') => (Raise e, s')
    | (OutOfFuel, s') => (OutOfFuel, s')
    end.

Definition raise {A} (e : exception) : M A := fun s => (Raise e, s).

Definition emit (e : event) : M unit :=
  fun s => (Return tt, State (world s) (trace s ++ [e])).

(** [try: m  except cls as e: handler(e)] *)
Definition try_except {A} (m : M A) (cls : exn_class)
    (handler : exception -> M A) : M A :=
  fun s =>
    match m s with
    | (Raise e, s') =>
        if issubclass (exc_class e) cls then handler e s' else (Raise e, s')
    | r => r
    end.

(** An operation of the world that cannot fail. *)
Definition perform {A} (f : W -> A * W) : M A :=
  fun s => let '(a, w) := f (world s) in (Return a, State w (trace s)).

End Monad.
Arguments state W : clear implicits.
Arguments M W A : clear implicits.

Notation "x <- m ;; k" := (bind m (fun x => k))
  (at level 100, m at next level, right associativity).
Notation "m ;; k" := (bind m (fun _ => k))
  (at level 100, right associativity).

(** log_utils *)
Definition LogInfo {W} (msg : message) : M W unit := emit (Log INFO msg None).
Definition LogDebug {W} (msg : message) : M W unit := emit (Log DEBUG msg None).
Definition LogError {W} (msg : message) (e : option exception) : M W unit :=
  emit (Log ERROR msg e).

(** ** http_utils: Backoff *)

Definition RETRY_RESPONSE_CODES : list Z := [402; 408; 503; 504].

Definition BACKOFF_MAX_RETRIES : Z := 8.

Record Backoff := { retry : Z; maxretries : Z }.

(** [Backoff(maxretries)] *)
Definition Backoff_init (maxretries : Z) : Backoff :=
  {| retry := 0; maxretries := maxretries |}.

Definition Loop (self : Backoff) : bool := retry self <? maxretries self.

(** [(2 ** self.retry) + (random.randint(0, 1000) / 1000)] with [draw] the
    number drawn; [/] on two Python 2 integers is the floor division. *)
Definition delay_s (retry draw : Z) : Z := 2 ^ retry + draw / 1000.

Section Remote.
Context {W : Type}.
(** The remote API: what executing a request returns, and how the world
    changes. *)
Variable execute : request -> W -> http_result * W.
(** [random.randint(0, 1000)] *)
Variable randint_0_1000 : W -> Z * W.

Definition Fail (self : Backoff) : M W Backoff :=
  let self := {| retry := retry self + 1; maxretries := maxretries self |} in
  draw <- perform randint_0_1000 ;;
  let delay := delay_s (retry self) draw in
  LogInfo (Msg "Waiting for %ds and retrying..." [AInt delay]) ;;
  emit (Sleep delay) ;;
  ret self.

(** [request.execute()] *)
Definition request_execute (r : request) : M W http_result :=
  emit (Execute r) ;;
  perform (execute r).

(** [FromJsonString], [ParseHttpResult] *)
Definition ParseHttpResult (url : string) (status : Z) (body : error_body)
    : M W string :=
  LogDebug (Msg "----------------------------------------" []) ;;
  LogDebug (Msg "status=%d" [AInt status]) ;;
  LogDebug (Msg "----------------------------------------" []) ;;
  LogDebug (Msg "content=\n%s" [AStr (content_of body)]) ;;
  LogDebug (Msg "----------------------------------------" []) ;;
  match parse_body body with
  | inl e => raise e
  | inr text => ret text
  end.

(** *** tokens_api: TokensApiWrapper *)

(** The requests [self._tokens.delete], [.get] and [.list] build; their
    method ids are the ones the docstring of [_IssueTokensRequestForUser]
    lists. *)
Definition tokens_delete (clientId userKey : string) : request :=
  Request DELETE "directory.tokens.delete"
    [("clientId", AStr clientId); ("userKey", AStr userKey)].

Definition tokens_get (clientId userKey : string) : request :=
  Request GET "directory.tokens.get"
    [("clientId", AStr clientId); ("userKey", AStr userKey)].

Definition tokens_list (userKey : string) : request :=
  Request GET "directory.tokens.list" [("userKey", AStr userKey)].

(** The [while backoff.Loop()] of [_IssueTokensRequestForUser]; falling out
    of the loop returns [None]. *)
Fixpoint _IssueTokensRequestForUser_loop (fuel : nat) (r : request)
    (backoff : Backoff) : M W (option document) :=
  if Loop backoff then
    match fuel with
    | O => fun s => (OutOfFuel, s)
    | S fuel' =>
        res <- request_execute r ;;
        match res with
        | HttpOk doc => ret (Some doc)
        | HttpError status uri body =>
            if bool_decide (method r <> DELETE) && (status =? 404)
            then ret (Some (Dict []))
            else if negb (bool_decide (status ∈ RETRY_RESPONSE_CODES)) then
              text <- ParseHttpResult uri status body ;;
              raise (Exception AdminAPIToolUserError
                       (Msg "%s\nPlease check your domain spelling." [AStr text]))
            else
              LogInfo (Msg "Possible quota problem with %s tokens (%d)."
                         [AStr (methodId r); AInt status]) ;;
              backoff' <- Fail backoff ;;
              _IssueTokensRequestForUser_loop fuel' r backoff'
        end
    end
  else ret None.

(** The iterations a fresh default [Backoff] allows. *)
Definition default_fuel : nat := Z.to_nat BACKOFF_MAX_RETRIES.

Definition _IssueTokensRequestForUser (r : request) : M W (option document) :=
  _IssueTokensRequestForUser_loop default_fuel r (Backoff_init BACKOFF_MAX_RETRIES).

Definition DeleteToken (user_mail client_id : string) : M W (option document) :=
  _IssueTokensRequestForUser (tokens_delete client_id user_mail).


Definition ListTokens (user_mail : string) : M W (option document) :=
  _IssueTokensRequestForUser (tokens_list user_mail).

(** *** users_api: UsersApiWrapper._ProcessUserListPage *)

Definition users_list (apps_domain : string) (max_page : Z)
    (next_page_token query_filter : option string) : request :=
  Request GET "directory.users.list"
    [("domain", AStr apps_domain); ("maxResults", AInt max_page);
     ("pageToken", from_option AStr ANone next_page_token);
     ("query", from_option AStr ANone query_filter)].

Fixpoint _ProcessUserListPage_loop (fuel : nat) (apps_domain : string)
    (r : request) (backoff : Backoff) : M W (option document) :=
  if Loop backoff then
    match fuel with
    | O => fun s => (OutOfFuel, s)
    | S fuel' =>
        res <- request_execute r ;;
        match res with
        | HttpOk users_list => ret (Some users_list)
        | HttpError status uri body =>
            if negb (bool_decide (status ∈ RETRY_RESPONSE_CODES)) then
              text <- ParseHttpResult uri status body ;;
              raise (Exception AdminAPIToolUserError
                       (Msg "%s\nPlease check your domain spelling (%s)."
                          [AStr text; AStr apps_domain]))
            else
              LogInfo (Msg "Possible quota problem retrieving users (%d)."
                         [AInt status]) ;;
              backoff' <- Fail backoff ;;
              _ProcessUserListPage_loop fuel' apps_domain r backoff'
        end
    end
  else ret None.

Definition _ProcessUserListPage (apps_domain : string) (max_page : Z)
    (next_page_token query_filter : option string) : M W (option document) :=
  _ProcessUserListPage_loop default_fuel apps_domain
    (users_list apps_domain max_page next_page_token query_filter)
    (Backoff_init BACKOFF_MAX_RETRIES).

End Remote.

(** ** token_report_utils: TokenStats *)

(** [self._access_token_map]: for each primary key the list of
    [(set(secondaries), set(users))] entries. *)
Abbreviation TokenStats := (gmap string (list (gset string * gset string))).

(** [TokenStats()] *)
Definition TokenStats_init : TokenStats := ∅.

(** The [for] loop of [AddToken] over [primary_list]: every entry whose user
    set equals [user_set] gets [secondary] added, and [found] is set. *)
Fixpoint AddToken_loop (secondary : string) (user_set : gset string)
    (primary_list : list (gset string * gset string)) (found : bool)
    : bool * list (gset string * gset string) :=
  match primary_list with
  | [] => (found, [])
  | (secondary_set, secondary_user_set) :: rest =>
      if decide (user_set = secondary_user_set) then
        let '(found', rest') := AddToken_loop secondary user_set rest true in
        (found', (secondary_set ∪ {[secondary]}, secondary_user_set) :: rest')
      else
        let '(found', rest') := AddToken_loop secondary user_set rest found in
        (found', (secondary_set, secondary_user_set) :: rest')
  end.

Definition AddToken (primary secondary : string) (users : list string)
    (self : TokenStats) : TokenStats :=
  let primary_list := default [] (self !! primary) in
  let user_set : gset string := list_to_set users in
  let '(found, primary_list) :=
    AddToken_loop secondary user_set primary_list false in
  let primary_list :=
    if found then primary_list
    else primary_list ++ [({[secondary]}, user_set)] in
  <[primary := primary_list]> self.

(** The invariant: under every primary key, no two entries have the same
    user set. *)
Definition distinct_user_sets (self : TokenStats) : Prop :=
  forall primary l, self !! primary = Some l -> NoDup l.*2.

(** A [TokenStats] after a sequence of [AddToken] calls, each given as
    [(primary, secondary, users)]. *)
Definition after_calls (calls : list (string * string * list string)) : TokenStats :=
  foldl (fun self c => AddToken c.1.1 c.1.2 c.2 self) TokenStats_init calls.

(** ** token_revoker: TokenRevoker *)

(** The order of [sorted] on strings: by character code, a proper prefix
    first. *)
Definition string_le : relation string := fun a b => String.leb a b.

#[global] Instance string_le_dec : RelDecision string_le.
Proof. intros a b. unfold string_le. apply _. Defined.

(** [sorted(X)] for a set, or the keys of a dict, of strings. *)
Definition sorted (X : gset string) : list string :=
  merge_sort string_le (elements X).

(** The token statistics file: the items of the dict it holds, in the order
    [iteritems()] gives them. *)
Abbreviation token_data := (list (string * list string)).

Record TokenRevoker := {
  _tokens_to_revoke : gmap string (gset string);
  _client_blacklist_set : gset string;
  _scope_blacklist_set : gset string
}.

(** [TokenRevoker(flags)] *)
Definition TokenRevoker_init : TokenRevoker :=
  {| _tokens_to_revoke := ∅;
     _client_blacklist_set := ∅;
     _scope_blacklist_set := ∅ |}.

(** [LoadClientBlacklist], given the lines of the file. *)
Definition LoadClientBlacklist (self : TokenRevoker) (lines : list string)
    : TokenRevoker :=
  {| _tokens_to_revoke := _tokens_to_revoke self;
     _client_blacklist_set := list_to_set lines;
     _scope_blacklist_set := _scope_blacklist_set self |}.

(** [LoadScopeBlacklist], given the lines of the file. *)
Definition LoadScopeBlacklist (self : TokenRevoker) (lines : list string)
    : TokenRevoker :=
  {| _tokens_to_revoke := _tokens_to_revoke self;
     _client_blacklist_set := _client_blacklist_set self;
     _scope_blacklist_set :=
       set_map (rstrip "/") (list_to_set lines : gset string) |}.

(** The truth value of what [_IsRevokedByClientBlacklist] returns. *)
Definition _IsRevokedByClientBlacklist (self : TokenRevoker)
    (scope client_id : string) : bool :=
  if decide (_client_blacklist_set self = ∅) then false
  else bool_decide (client_id ∈ _client_blacklist_set self).

(** The truth value of what [_IsRevokedByScopeBlacklist] returns: the
    intersection of the black list with the two candidate scopes. *)
Definition _IsRevokedByScopeBlacklist (self : TokenRevoker)
    (scope client_id : string) : bool :=
  if decide (scope = "") then false
  else
    let candidate_scopes : gset string :=
      {[ rstrip "/" scope; rstrip "/" scope +:+ "/" ]} in
    bool_decide (_scope_blacklist_set self ∩ candidate_scopes ≠ ∅).

(** What the specification says of the scope rule, for comparison: the entry equals the candidate
    up to one optional trailing slash of the candidate. *)
Definition matches_up_to_optional_slash (s c : string) : Prop :=
  c = s \/ c = s +:+ "/".

(** [user_set = d.setdefault(client_id, set()); user_set.update(set(user_list))] *)
Definition add_users (client_id : string) (user_list : list string)
    (d : gmap string (gset string)) : gmap string (gset string) :=
  <[client_id := default ∅ (d !! client_id) ∪ list_to_set user_list]> d.

Section Revoker.
Context {W : Type}.
Variable execute : request -> W -> http_result * W.
Variable randint_0_1000 : W -> Z * W.
Variable isspace : ascii -> bool.

(** [token_report_utils.GetTokenStats()], given what the file manager finds
    under [tokens_issued.json]. *)
Definition GetTokenStats (file : option token_data) : M W token_data :=
  match file with
  | None =>
      LogError (Msg "No token data. You must run gather_domain_token_stats first." [])
        None ;;
      raise sys_exit_1
  | Some d => ret d
  end.

(** The [for blacklist_filter in [...]] of one item. *)
Definition apply_blacklist_filters (self : TokenRevoker)
    (scope client_id : string) (user_list : list string)
    (d : gmap string (gset string)) : gmap string (gset string) :=
  foldl (fun d blacklist_filter =>
           if blacklist_filter self scope client_id : bool
           then add_users client_id user_list d else d)
        d [_IsRevokedByClientBlacklist; _IsRevokedByScopeBlacklist].

(** The [for stat_key, user_list in self._token_data.iteritems()] loop. *)
Fixpoint _IdentifyTokensToRevoke_loop (self : TokenRevoker)
    (items : token_data) (d : gmap string (gset string))
    : M W (gmap string (gset string)) :=
  match items with
  | [] => ret d
  | (stat_key, user_list) :: rest =>
      match UnpackStatKey isspace stat_key with
      | [scope; client_id] =>
          _IdentifyTokensToRevoke_loop self rest
            (apply_blacklist_filters self scope client_id user_list d)
      | [] => raise (Exception ValueError (Msg "need more than 0 values to unpack" []))
      | _ => raise (Exception ValueError (Msg "need more than 1 value to unpack" []))
      end
  end.

Definition _IdentifyTokensToRevoke (self : TokenRevoker)
    (file : option token_data) : M W TokenRevoker :=
  items <- GetTokenStats file ;;
  d <- _IdentifyTokensToRevoke_loop self items (_tokens_to_revoke self) ;;
  ret {| _tokens_to_revoke := d;
         _client_blacklist_set := _client_blacklist_set self;
         _scope_blacklist_set := _scope_blacklist_set self |}.

Definition _RevokeToken (user_mail client_id : string) : M W unit :=
  LogInfo (Msg "Revoking: %s, %s." [AStr user_mail; AStr client_id]) ;;
  try_except
    (DeleteToken execute randint_0_1000 user_mail client_id ;; ret tt)
    AdminAPIToolTokenRequestError
    (fun e =>
       LogError
         (Msg "Unable to revoke token for user %s and client_id %s."
            [AStr user_mail; AStr client_id])
         (Some e)).

(** [for x in l: body(x)] *)
Fixpoint for_each {A} (l : list A) (body : A -> M W unit) : M W unit :=
  match l with
  | [] => ret tt
  | x :: rest => body x ;; for_each rest body
  end.

(** [RevokeUnapprovedTokens]; the elapsed-time lines of [log_utils.Timer]
    are left out. *)
Definition RevokeUnapprovedTokens (self : TokenRevoker)
    (file : option token_data) : M W TokenRevoker :=
  self <- _IdentifyTokensToRevoke self file ;;
  if decide (_tokens_to_revoke self = ∅) then
    LogInfo (Msg "No tokens found to revoke" []) ;;
    ret self
  else
    LogInfo (Msg "Tokens found to revoke.  Revoking now..." []) ;;
    for_each (sorted (dom (_tokens_to_revoke self)))
      (fun client_id =>
         for_each (sorted (default ∅ (_tokens_to_revoke self !! client_id)))
           (fun user_mail => _RevokeToken user_mail client_id)) ;;
    ret self.

End Revoker.

(** ** user_iterator *)

Definition _USER_PROGRESS_CHECKPOINT_BATCH : Z := 10.

(** [_BASE_USER_PROGRESS_FILE_NAME % prefix] *)
Definition progress_file_name (prefix : string) : string :=
  prefix +:+ "_progress".

(** A user of the cached list: [(email, id, full_name)]. *)
Abbreviation user := (string * string * string)%type.

Definition email (u : user) : string := u.1.1.
Definition user_id (u : user) : string := u.1.2.

(** The progress [_WriteLastUserProgress] is given:
    [(prev_user, user_email, count_done)], with [prev_user] the [None] the
    iterator starts from or a string. *)
Abbreviation progress := (option string * string * Z)%type.

(** A file of the working directory as [ReadJsonFile] finds it: [json.load]
    rejects it ([why] is the text of the ValueError), or decodes it to a
    value. *)
Inductive file :=
| NotJsonFile (why : string)
| JsonFile (value : json).

(** What [json.dump] of the tuple [(prev_user, user_email, count_done)]
    reads back as: a list of the three. *)
Definition progress_json (p : progress) : json :=
  JList [from_option JStr JNull p.1.1; JStr p.1.2; JInt p.2].

Definition progress_file (p : progress) : file := JsonFile (progress_json p).

(** The files of the working directory, by file name. *)
Abbreviation files := (gmap string file).

Record flags := { resume : bool; first_n : Z }.

(** What iterating over a value gives: the items of a list, the characters
    of a string, the keys of a dict; [None] where Python raises TypeError. *)
Definition py_iter (value : json) : option (list json) :=
  match value with
  | JList items => Some items
  | JStr s => Some (map (fun c => JStr (String c "")) (list_ascii_of_string s))
  | JDict members => Some (map (fun member => JStr member.1) members)
  | JNull | JBool _ | JInt _ | JFloat _ => None
  end.

(** The ValueError of a tuple assignment that gets [n] values for three
    names. *)
Definition unpack3_error (n : nat) : exception :=
  Exception ValueError
    (match n with
     | 0%nat => Msg "need more than 0 values to unpack" []
     | 1%nat => Msg "need more than 1 value to unpack" []
     | 2%nat => Msg "need more than 2 values to unpack" []
     | _ => Msg "too many values to unpack" []
     end).

(** [a, b, c = value] *)
Definition unpack3 {W} (value : json) : M W (json * json * json) :=
  match py_iter value with
  | None =>
      raise (Exception TypeError
               (Msg "'%s' object is not iterable" [AStr (type_name value)]))
  | Some [a; b; c] => ret (a, b, c)
  | Some items => raise (unpack3_error (length items))
  end.

(** [_ReadLastUserProgress]: without a progress file the three values are
    ['', '', 0]; a file that is not JSON makes [ReadJsonFile] raise
    AdminAPIToolJsonError (the path of the file is given by its name). *)
Definition _ReadLastUserProgress (prefix : string) : M files (json * json * json) :=
  fun s =>
    match world s !! progress_file_name prefix with
    | Some (JsonFile value) => unpack3 value s
    | Some (NotJsonFile why) =>
        (Raise (Exception AdminAPIToolJsonError
                  (Msg "File (%s) is not valid json (%s)."
                     [AStr (progress_file_name prefix); AStr why])), s)
    | None => (Return (JStr "", JStr "", JInt 0), s)
    end.

Definition _WriteLastUserProgress (prefix : string) (prev_user : option string)
    (user_email : string) (count_done : Z) : M files unit :=
  emit (WriteProgress (progress_file_name prefix) prev_user user_email count_done) ;;
  perform (fun w =>
    (tt, <[progress_file_name prefix :=
             progress_file (prev_user, user_email, count_done)]> w)).

(** [FILE_MANAGER.RemoveFile]: removes the file if it exists. *)
Definition _RemoveLastUserProgress (prefix : string) : M files unit :=
  fun s =>
    match world s !! progress_file_name prefix with
    | Some _ =>
        (Return tt,
         State (delete (progress_file_name prefix) (world s))
               (trace s ++ [RemoveFile (progress_file_name prefix)]))
    | None => (Return tt, s)
    end.

(** [l[i]], raising IndexError out of range. *)
Definition getitem {W A} (l : list A) (i : Z) : M W A :=
  match py_index l i with
  | Some x => ret x
  | None => raise (Exception IndexError (Msg "list index out of range" []))
  end.

Definition ResumeError (msg : message) : exception :=
  Exception AdminAPIToolResumeError msg.

(** [users_checked] as the integer that [user_list[users_checked - 1]]
    needs: [users_checked - 1] is a float for a float, which is no list
    index, and is not defined for [None], a string, a list or a dict. *)
Definition as_int {W} (users_checked : json) : M W Z :=
  match users_checked with
  | JInt n => ret n
  | JBool b => ret (Z.b2z b)
  | JFloat _ =>
      raise (Exception TypeError (Msg "list indices must be integers, not float" []))
  | JNull | JStr _ | JList _ | JDict _ =>
      raise (Exception TypeError
               (Msg "unsupported operand type(s) for -: '%s' and 'int'"
                  [AStr (type_name users_checked)]))
  end.

Definition CheckResumable (user_list : list user) (user_count : Z)
    (prefix : string) (fl : flags) : M files Z :=
  if first_n fl >? 0 then
    raise (ResumeError
             (Msg "Cannot supply --resume and --first_n at the same time." []))
  else
    last <- _ReadLastUserProgress prefix ;;
    let '(prev_user, user_email, users_checked) := last in
    if negb (py_bool prev_user) || negb (py_bool user_email) then
      raise (ResumeError
               (Msg ("Did not find 2 previous users collected. Either progress was not "
                     +:+ "saved or the last gather task completed successfully.") []))
    else if py_lt_int users_checked _USER_PROGRESS_CHECKPOINT_BATCH then
      raise (ResumeError
               (Msg "Did not make enough progress last %s run to resume."
                  [AStr prefix]))
    else if py_gt_int users_checked user_count then
      raise (ResumeError
               (Msg "Seems like you already finished or the users.json file changed." []))
    else
      users_checked <- as_int users_checked ;;
      active_user <- getitem user_list (users_checked - 1) ;;
      let active_user_email := email active_user in
      if negb (py_eq_str user_email active_user_email) then
        raise (ResumeError
                 (Msg "User mismatch: %s != %s."
                    [arg_of_json user_email; AStr active_user_email]))
      else
        active_prev <- getitem user_list (users_checked - 2) ;;
        let active_prev_user := email active_prev in
        if negb (py_eq_str prev_user active_prev_user) then
          raise (ResumeError
                   (Msg "Prev user mismatch: %s != %s."
                      [arg_of_json prev_user; AStr active_prev_user]))
        else
          let not_saved_users := users_checked mod _USER_PROGRESS_CHECKPOINT_BATCH in
          ret (users_checked - not_saved_users).

(** The [for ... in user_list[users_checked:user_count]] loop of
    [StartUserIterator], over the slice [users]. *)
Fixpoint iterate (prefix : string) (user_count : Z) (users : list user)
    (users_checked : Z) (prev_user : option string) : M files unit :=
  match users with
  | [] => ret tt
  | (user_email, user_id, _) :: rest =>
      let users_checked := users_checked + 1 in
      let checkpoint :=
        (users_checked mod _USER_PROGRESS_CHECKPOINT_BATCH =? 0)
        || (users_checked =? user_count) in
      emit (Stdout (Msg "%80s\r" [AStr ""])) ;;
      emit (Stdout (Msg "%s\r" [AStr user_email])) ;;
      emit (Yield user_email user_id checkpoint) ;;
      _WriteLastUserProgress prefix prev_user user_email users_checked ;;
      let prev_user := Some user_email in
      (if checkpoint then
         emit (Stdout (Msg "%80s\r" [AStr ""])) ;;
         emit (Stdout (Msg "Checked %d of %d users.\n"
                         [AInt users_checked; AInt user_count]))
       else ret tt) ;;
      iterate prefix user_count rest users_checked prev_user
  end.

(** [StartUserIterator], from the point where [_GetDomainUsersData] has
    returned the user list ([user_count] is its length).  The generator is
    run to its end: the trace holds what it yields and does in order, and a
    consumer that stops early has seen a prefix of it. *)
Definition StartUserIterator (user_list : list user) (prefix : string)
    (fl : flags) : M files unit :=
  let user_count := len user_list in
  start <-
    (if resume fl then
       users_checked <-
         try_except (CheckResumable user_list user_count prefix fl)
           AdminAPIToolResumeError
           (fun e =>
              LogError (Msg "Cannot --resume %s. You must retry without --resume."
                          [AStr prefix]) (Some e) ;;
              raise sys_exit_1) ;;
       prev <- getitem user_list (users_checked - 1) ;;
       next <- getitem user_list users_checked ;;
       emit (Stdout (Msg "Resuming at user #%d/%d (%s)...\n"
                       [AInt users_checked; AInt user_count; AStr (email next)])) ;;
       ret (users_checked, Some (email prev), user_count)
     else
       ret (0, None, if decide (first_n fl = 0) then user_count else first_n fl)) ;;
  let '(users_checked, prev_user, user_count) := start in
  iterate prefix user_count (py_slice user_list users_checked user_count)
    users_checked prev_user ;;
  _RemoveLastUserProgress prefix.

(** *** Reading a trace *)

(** The users a trace yields, in order. *)
Definition yielded (t : list event) : list (string * string) :=
  omap (fun e => match e with
                 | Yield user_email user_id _ => Some (user_email, user_id)
                 | _ => None
                 end) t.

(** The progress files after the file operations of a trace. *)
Definition replay (t : list event) (w : files) : files :=
  foldl (fun w e =>
           match e with
           | WriteProgress f prev_user user_email count_done =>
               <[f := progress_file (prev_user, user_email, count_done)]> w
           | RemoveFile f => delete f w
           | _ => w
           end) w t.

(** The calls of [_RevokeToken] in a trace, as [(user_mail, client_id)]:
    each call starts with its "Revoking" line. *)
Definition revoke_calls (t : list event) : list (string * string) :=
  omap (fun e => match e with
                 | Log INFO (Msg tpl [AStr user_mail; AStr client_id]) None =>
                     if decide (tpl = "Revoking: %s, %s.")
                     then Some (user_mail, client_id) else None
                 | _ => None
                 end) t.

(** The requests a trace sends to the remote API. *)
Definition executed (t : list event) : list request :=
  omap (fun e => match e with Execute r => Some r | _ => None end) t.

(** The error lines a trace logs. *)
Definition error_log (t : list event) : list event :=
  List.filter (fun e => match e with Log ERROR _ _ => true | _ => false end) t.

(** The waits of a trace, in seconds. *)
Definition sleeps (t : list event) : list Z :=
  omap (fun e => match e with Sleep d => Some d | _ => None end) t.

(** *** Remote APIs of interest *)

(** A remote API that answers every request with a status of
    [RETRY_RESPONSE_CODES]. *)
Definition always_retryable {W} (execute : request -> W -> http_result * W) : Prop :=
  forall r w, exists status uri body,
    (execute r w).1 = HttpError status uri body /\ status ∈ RETRY_RESPONSE_CODES.

(** A remote API that answers every request with a document or with a
    status of [RETRY_RESPONSE_CODES]. *)
Definition never_refuses {W} (execute : request -> W -> http_result * W) : Prop :=
  forall r w,
    match (execute r w).1 with
    | HttpOk _ => True
    | HttpError status _ _ => status ∈ RETRY_RESPONSE_CODES
    end.

(** The attempts a [Backoff] has left. *)
Definition attempts_left (b : Backoff) : nat := Z.to_nat (maxretries b - retry b).

(** *** What an attempt leaves behind *)

Section Attempts.
Context {W : Type}.
Variable execute : request -> W -> http_result * W.
Variable randint_0_1000 : W -> Z * W.

(** The state after one attempt that ended in a status of
    [RETRY_RESPONSE_CODES]: the request was executed, the two lines were
    logged and the wait is over.  [quota] is the "Possible quota problem"
    line of the loop at hand. *)
Definition after_retry (r : request) (quota : event) (b : Backoff) (s : state W)
    : state W :=
  let w1 := (execute r (world s)).2 in
  let delay := delay_s (retry b + 1) (randint_0_1000 w1).1 in
  State (randint_0_1000 w1).2
    (trace s ++ [Execute r; quota;
                 Log INFO (Msg "Waiting for %ds and retrying..." [AInt delay]) None;
                 Sleep delay]).

Definition failed_once (b : Backoff) : Backoff :=
  {| retry := retry b + 1; maxretries := maxretries b |}.

(** The five DEBUG lines of [ParseHttpResult]. *)
Definition ParseHttpResult_lines (status : Z) (body : error_body) : list event :=
  [Log DEBUG (Msg "----------------------------------------" []) None;
   Log DEBUG (Msg "status=%d" [AInt status]) None;
   Log DEBUG (Msg "----------------------------------------" []) None;
   Log DEBUG (Msg "content=\n%s" [AStr (content_of body)]) None;
   Log DEBUG (Msg "----------------------------------------" []) None].

(** The classes of the exceptions a status outside [RETRY_RESPONSE_CODES]
    can end in. *)
Definition refusal_classes : list exn_class :=
  [AdminAPIToolUserError; AdminAPIToolJsonError; TypeError; AttributeError].

(** The exception a status outside [RETRY_RESPONSE_CODES] ends in. *)
Definition refusal (body : error_body) : exception :=
  match parse_body body with
  | inl e => e
  | inr text =>
      Exception AdminAPIToolUserError
        (Msg "%s\nPlease check your domain spelling." [AStr text])
  end.

End Attempts.

(** A remote API that is out of service, and a random source that draws 0. *)
Definition out_of_service (r : request) (w : unit) : http_result * unit :=
  (HttpError 503 "https://www.googleapis.com/admin/directory/v1/users"
     (ErrorText "Service Unavailable" "ERROR: status=503."), w).

Definition draw_0 (w : unit) : Z * unit := (0, w).

(** A remote API that answers from a script, one answer per request, and
    with an empty document once the script is used up. *)
Definition scripted (r : request) (w : list http_result)
    : http_result * list http_result :=
  match w with
  | [] => (HttpOk (Dict []), [])
  | answer :: w' => (answer, w')
  end.

Definition scripted_draw_0 (w : list http_result) : Z * list http_result := (0, w).

(** A remote API that accepts every request. *)
Definition accepting (r : request) (w : unit) : http_result * unit :=
  (HttpOk (Dict []), w).

(** The example of the specification: the token statistics, in either
    order of the items, and a revoker with the client black list
    {"client1"}. *)
Definition example_token_data : list (string * list string) :=
  [("scope1 client1", ["u1"; "u2"]); ("scope2 client1", ["u1"])].

Definition example_revoker : TokenRevoker :=
  LoadClientBlacklist TokenRevoker_init ["client1"].

(** *** The revocation plan *)


(** Every key of the statistics unpacks into a scope and a client id. *)
Definition well_formed_keys (isspace : ascii -> bool)
    (items : list (string * list string)) : Prop :=
  Forall (fun item => exists scope client_id,
            UnpackStatKey isspace item.1 = [scope; client_id]) items.

(** [user_mail] granted a token to [client_id] according to an item of the
    statistics that one of the two black lists flags. *)
Definition flagged (isspace : ascii -> bool) (self : TokenRevoker)
    (items : list (string * list string)) (user_mail client_id : string) : Prop :=
  exists stat_key user_list scope,
    (stat_key, user_list) ∈ items /\
    UnpackStatKey isspace stat_key = [scope; client_id] /\
    (_IsRevokedByClientBlacklist self scope client_id = true \/
     _IsRevokedByScopeBlacklist self scope client_id = true) /\
    user_mail ∈ user_list.

(** What one item of the statistics adds to the dictionary of tokens to
    revoke, when its key unpacks. *)
Definition identify_item (isspace : ascii -> bool) (self : TokenRevoker)
    (d : gmap string (gset string)) (item : string * list string)
    : gmap string (gset string) :=
  match UnpackStatKey isspace item.1 with
  | [scope; client_id] => apply_blacklist_filters self scope client_id item.2 d
  | _ => d
  end.

(** The dictionary of tokens to revoke after all items. *)
Definition identified (isspace : ascii -> bool) (self : TokenRevoker)
    (items : list (string * list string)) : gmap string (gset string) :=
  foldl (identify_item isspace self) (_tokens_to_revoke self) items.

(** The calls the two nested [for] loops of [RevokeUnapprovedTokens] make
    for a dictionary of tokens to revoke. *)
Definition revoke_plan (d : gmap string (gset string)) : list (string * string) :=
  flat_map (fun client_id =>
              map (fun user_mail => (user_mail, client_id))
                  (sorted (default ∅ (d !! client_id))))
           (sorted (dom d)).

Definition revoking_line (user_mail client_id : string) : event :=
  Log INFO (Msg "Revoking: %s, %s." [AStr user_mail; AStr client_id]) None.

(** *** Runs of the user iterator *)

(** What the iterator yields for a user. *)
Definition user_key (u : user) : string * string := (email u, user_id u).

(** The events of the loop of [StartUserIterator] over [users]. *)
Fixpoint iterate_events (prefix : string) (user_count : Z) (users : list user)
    (users_checked : Z) (prev_user : option string) : list event :=
  match users with
  | [] => []
  | (user_email, user_id, _) :: rest =>
      let users_checked := users_checked + 1 in
      let checkpoint :=
        (users_checked mod _USER_PROGRESS_CHECKPOINT_BATCH =? 0)
        || (users_checked =? user_count) in
      [Stdout (Msg "%80s\r" [AStr ""]);
       Stdout (Msg "%s\r" [AStr user_email]);
       Yield user_email user_id checkpoint;
       WriteProgress (progress_file_name prefix) prev_user user_email users_checked]
      ++ (if checkpoint then
            [Stdout (Msg "%80s\r" [AStr ""]);
             Stdout (Msg "Checked %d of %d users.\n"
                       [AInt users_checked; AInt user_count])]
          else [])
      ++ iterate_events prefix user_count rest users_checked (Some user_email)
  end.

(** The events of one iteration up to the write of the progress: the two
    lines on the screen, the yield, and the write that follows when the
    consumer asks for the next user. *)
Definition yield_and_write (prefix : string) (user_count : Z) (u : user)
    (users_checked : Z) (prev_user : option string) : list event :=
  [Stdout (Msg "%80s\r" [AStr ""]);
   Stdout (Msg "%s\r" [AStr (email u)]);
   Yield (email u) (user_id u)
     (((users_checked + 1) mod _USER_PROGRESS_CHECKPOINT_BATCH =? 0)
      || (users_checked + 1 =? user_count));
   WriteProgress (progress_file_name prefix) prev_user (email u) (users_checked + 1)].

(** A run that was interrupted right after it had written its [k]-th
    progress: the trace up to that write. *)
Fixpoint interrupted_after (t : list event) (k : nat) : list event :=
  match t with
  | [] => []
  | e :: t' =>
      match k with
      | O => []
      | S k' =>
          e :: interrupted_after t'
                 (match e with WriteProgress _ _ _ _ => k' | _ => k end)
      end
  end.

(** The flags of a first run and of a run with [--resume]. *)
Definition first_run : flags := {| resume := false; first_n := 0 |}.
Definition resumed_run : flags := {| resume := true; first_n := 0 |}.

(** The users a@altostrat.com, b@altostrat.com, ... *)
Definition example_user (n : nat) : user :=
  (String (ascii_of_nat (97 + n)) "@altostrat.com",
   String (ascii_of_nat (48 + n)) "", "User").

Definition example_users (n : nat) : list user := map example_user (seq 0 n).

Definition resuming_line (users_checked user_count : Z) (u : user) : event :=
  Stdout (Msg "Resuming at user #%d/%d (%s)...\n"
            [AInt users_checked; AInt user_count; AStr (email u)]).

(** ** token_report_utils and report_utils: the reports *)

(** [report_utils.Counter]: [self._counter]. *)
Abbreviation Counter := (gmap string Z).

(** [Counter()] *)
Definition Counter_init : Counter := ∅.

(** [Increment]: [setdefault(counter_key, 0)], then [+= counter_increment]. *)
Definition Increment (counter_key : string) (counter_increment : Z)
    (self : Counter) : Counter :=
  <[counter_key := default 0 (self !! counter_key) + counter_increment]> self.

(** [sorted(l, key=key, reverse=True)]: by descending key, and stable, the
    items of equal key staying in the order of [l]. *)
Fixpoint insert_desc {A} (key : A -> Z) (x : A) (l : list A) : list A :=
  match l with
  | [] => [x]
  | y :: rest => if key x <? key y then y :: insert_desc key x rest else x :: l
  end.

Definition sorted_desc {A} (key : A -> Z) (l : list A) : list A :=
  foldr (insert_desc key) [] l.

(** [FilterAndSortMostCommon], on the items of [self._counter] in the order
    [iteritems()] gives them; [top_n] is [None] or an integer. *)
Definition FilterAndSortMostCommon (results : list (string * Z))
    (top_n : option Z) : list (string * Z) :=
  let top_n :=
    match top_n with
    | None | Some 0 => len results
    | Some n => n
    end in
  py_slice (sorted_desc snd results) 0 top_n.

(** The inner loop of [CalculateRankings]: [primary_user_set |=
    secondary_user_set] over the entries of one primary key. *)
Definition primary_user_set (token_list : list (gset string * gset string))
    : gset string :=
  foldl (fun acc token => acc ∪ token.2) ∅ token_list.

(** [CalculateRankings], on the items of [self._access_token_map] in the
    order [iteritems()] gives them. *)
Definition CalculateRankings_over
    (items : list (string * list (gset string * gset string))) : Counter :=
  foldl (fun results item =>
           Increment item.1 (Z.of_nat (size (primary_user_set item.2))) results)
        Counter_init items.

(** [GetTokenList] *)
Definition GetTokenList (primary : string) (self : TokenStats)
    : list (gset string * gset string) :=
  let token_list := default [] (self !! primary) in
  match token_list with
  | [] => token_list
  | _ => sorted_desc (fun x => Z.of_nat (size x.2)) token_list
  end.

(** The ValueError of a tuple assignment that gets [n] values for two
    names. *)
Definition unpack_error (n : nat) : exception :=
  match n with
  | O => Exception ValueError (Msg "need more than 0 values to unpack" [])
  | _ => Exception ValueError (Msg "need more than 1 value to unpack" [])
  end.

Section Reports.
Variable isspace : ascii -> bool.

(** The loop of [SummarizeTokenStats] over the items of the statistics. *)
Fixpoint SummarizeTokenStats_loop (items : token_data)
    (client_id_summary_data scope_summary_data : TokenStats)
    : result (TokenStats * TokenStats) :=
  match items with
  | [] => Return (client_id_summary_data, scope_summary_data)
  | (stat_key, user_list) :: rest =>
      match UnpackStatKey isspace stat_key with
      | [scope; client_id] =>
          SummarizeTokenStats_loop rest
            (AddToken client_id scope user_list client_id_summary_data)
            (AddToken scope client_id user_list scope_summary_data)
      | parts => Raise (unpack_error (length parts))
      end
  end.

Definition SummarizeTokenStats (items : token_data)
    : result (TokenStats * TokenStats) :=
  SummarizeTokenStats_loop items TokenStats_init TokenStats_init.

(** The loop of [GetUsersInDomain]; [user_list] is the set it builds. *)
Fixpoint GetUsersInDomain_loop (items : token_data) (target_client_id : string)
    (user_list : gset string) : result (gset string) :=
  match items with
  | [] => Return user_list
  | (stat_key, stat_user_list) :: rest =>
      match UnpackStatKey isspace stat_key with
      | [_; client_id] =>
          GetUsersInDomain_loop rest target_client_id
            (if decide (client_id = target_client_id)
             then user_list ∪ list_to_set stat_user_list
             else user_list)
      | parts => Raise (unpack_error (length parts))
      end
  end.

Definition GetUsersInDomain (items : token_data) (target_client_id : string)
    : result (list string) :=
  match GetUsersInDomain_loop items target_client_id ∅ with
  | Return user_list => Return (sorted user_list)
  | Raise e => Raise e
  | OutOfFuel => OutOfFuel
  end.

End Reports.

(** A pair of a primary and a secondary key is indexed with the user set
    [U] when an entry of the primary holds the secondary and has the user
    set [U]. *)
Definition indexed (self : TokenStats) (primary secondary : string)
    (U : gset string) : Prop :=
  exists token, token ∈ default [] (self !! primary) /\
                secondary ∈ token.1 /\ token.2 = U.

(** An item of the statistics for the scope and the client id, with the
    user set [U]. *)
Definition has_item (isspace : ascii -> bool) (items : list (string * list string))
    (scope client_id : string) (U : gset string) : Prop :=
  exists stat_key user_list,
    (stat_key, user_list) ∈ items /\
    UnpackStatKey isspace stat_key = [scope; client_id] /\
    list_to_set user_list = U.

(** The users of the items for the client [target_client_id]. *)
Definition users_of_client (isspace : ascii -> bool)
    (items : list (string * list string))
    (target_client_id user_mail : string) : Prop :=
  exists stat_key user_list scope,
    (stat_key, user_list) ∈ items /\
    UnpackStatKey isspace stat_key = [scope; target_client_id] /\
    user_mail ∈ user_list.

(** An entry of the primary key has the user set [U]. *)
Definition has_user_set (self : TokenStats) (primary : string)
    (U : gset string) : Prop :=
  exists token, token ∈ default [] (self !! primary) /\ token.2 = U.

(** The two indexes of the example statistics. *)
Definition example_summary : TokenStats * TokenStats :=
  match SummarizeTokenStats str_isspace example_token_data with
  | Return summary => summary
  | _ => (TokenStats_init, TokenStats_init)
  end.

(** A [Counter] after a sequence of [Increment] calls, each given as
    [(counter_key, counter_increment)]. *)
Definition after_increments (calls : list (string * Z)) : Counter :=
  foldl (fun self c => Increment c.1 c.2 self) Counter_init calls.

(** The increments a sequence of calls gives for one key, added up. *)
Definition increments_of (counter_key : string) (calls : list (string * Z)) : Z :=
  foldr Z.add 0 (snd <$> filter (fun c => c.1 = counter_key) calls).

(** The waits of successive [Fail] calls on a [Backoff] whose counter is
    [retry], for the numbers drawn. *)
Fixpoint backoff_waits (retry : Z) (draws : list Z) : list Z :=
  match draws with
  | [] => []
  | draw :: rest => delay_s (retry + 1) draw :: backoff_waits (retry + 1) rest
  end.

(** The checkpoint flags a trace yields, in order. *)
Definition checkpoints (t : list event) : list bool :=
  omap (fun e => match e with
                 | Yield _ _ checkpoint => Some checkpoint
                 | _ => None
                 end) t.

(** [true] when every character of [s] is white space. *)
Fixpoint all_whitespace (isspace : ascii -> bool) (s : string) : bool :=
  match s with
  | EmptyString => true
  | String a s' => isspace a && all_whitespace isspace s'
  end.




(** The progress file is of the kind [_WriteLastUserProgress] writes, a
    list of three values with an int as the third, or there is none. *)
Definition progress_well_formed (f : option file) : Prop :=
  match f with
  | None => True
  | Some (JsonFile (JList [_; _; JInt _])) => True
  | Some _ => False
  end.

(** * Properties *)

(** ** The StatKey: packing and unpacking *)

Section SplitFacts.
Variable isspace : ascii -> bool.
Hypothesis space_isspace : isspace " " = true.

Lemma lstrip_space_word s :
  starts_with_word isspace s = true -> lstrip_space isspace s = s.
Proof.
  destruct s as [|a s]; simpl; [done|].
  intros Ha. apply negb_true_iff in Ha. by rewrite Ha.
Qed.

Lemma lstrip_space_after_space s :
  lstrip_space isspace (String " " s) = lstrip_space isspace s.
Proof. simpl. by rewrite space_isspace. Qed.

Lemma span_word_app w r :
  no_whitespace isspace w = true ->
  span_word isspace (w +:+ String " " r) = (w, String " " r).
Proof.
  induction w as [|a w IH]; simpl.
  - intros _. by rewrite space_isspace.
  - intros [Ha Hw]%andb_true_iff. apply negb_true_iff in Ha.
    rewrite Ha, (IH Hw). done.
Qed.

Lemma no_whitespace_starts_with_word s :
  s <> "" -> no_whitespace isspace s = true -> starts_with_word isspace s = true.
Proof.
  destruct s as [|a s]; [done|]. simpl.
  intros _ [Ha _]%andb_true_iff. done.
Qed.

(** C7 (amended).  A scope that is not empty and holds no white space, and
    a client id that is not empty and does not begin with white space, come
    back from [UnpackStatKey (PackStatKey client_id scope)] as they went in:
    the result is the two-item list [scope; client_id]. *)
Theorem UnpackStatKey_PackStatKey (scope client_id : string) :
  scope <> "" ->
  no_whitespace isspace scope = true ->
  starts_with_word isspace client_id = true ->
  UnpackStatKey isspace (PackStatKey client_id scope) = [scope; client_id].
Proof.
  intros Hne Hscope Hclient.
  unfold UnpackStatKey, PackStatKey, split_None_1.
  assert (Hw : starts_with_word isspace (scope +:+ String " " client_id) = true).
  { destruct scope as [|a scope]; [done|].
    simpl in *. by apply andb_true_iff in Hscope as [? _]. }
  change (scope +:+ " " +:+ client_id) with (scope +:+ String " " client_id).
  rewrite (lstrip_space_word _ Hw).
  destruct (scope +:+ String " " client_id) as [|a rest] eqn:Hkey; [done|].
  rewrite <- Hkey, (span_word_app _ _ Hscope).
  rewrite lstrip_space_after_space, (lstrip_space_word _ Hclient).
  destruct client_id; [done|]. reflexivity.
Qed.

Lemma lstrip_space_head s b r :
  lstrip_space isspace s = String b r -> isspace b = false.
Proof.
  induction s as [|a s IH]; simpl; [done|].
  destruct (isspace a) eqn:Ha; [done|]. by intros [= <- _].
Qed.

Lemma span_word_head b r :
  isspace b = false ->
  exists w r', span_word isspace (String b r) = (String b w, r').
Proof.
  intros Hb. simpl. rewrite Hb.
  destruct (span_word isspace r) as [w r']. by exists w, r'.
Qed.

(** The conditions of [UnpackStatKey_PackStatKey] are needed: for a scope
    without white space, the key unpacks to [scope; client_id] only if the
    scope is not empty and the client id begins with a character that is
    not white space. *)
Lemma UnpackStatKey_PackStatKey_only_if (scope client_id : string) :
  no_whitespace isspace scope = true ->
  UnpackStatKey isspace (PackStatKey client_id scope) = [scope; client_id] ->
  scope <> "" /\ starts_with_word isspace client_id = true.
Proof.
  intros Hscope. unfold UnpackStatKey, PackStatKey, split_None_1.
  change (scope +:+ " " +:+ client_id) with (scope +:+ String " " client_id).
  destruct scope as [|a scope].
  - change ("" +:+ String " " client_id) with (String " " client_id).
    rewrite lstrip_space_after_space.
    destruct (lstrip_space isspace client_id) as [|b r] eqn:Hl; [done|].
    destruct (span_word_head b r (lstrip_space_head _ _ _ Hl)) as (w & r' & ->).
    destruct (lstrip_space isspace r'); done.
  - intros Heq. split; [done|].
    assert (Hw : starts_with_word isspace (String a scope +:+ String " " client_id) = true).
    { simpl in *. by apply andb_true_iff in Hscope as [? _]. }
    rewrite (lstrip_space_word _ Hw) in Heq.
    destruct (String a scope +:+ String " " client_id) as [|x rest] eqn:Hkey; [done|].
    rewrite <- Hkey, (span_word_app _ _ Hscope), lstrip_space_after_space in Heq.
    destruct (lstrip_space isspace client_id) as [|b r] eqn:Hl; [done|].
    injection Heq as <-. simpl.
    by rewrite (lstrip_space_head _ _ _ Hl).
Qed.

End SplitFacts.

(** C7, the witness: a key of the token statistics file. *)
Lemma UnpackStatKey_PackStatKey_witness :
  "https://a/b" <> "" /\
  no_whitespace str_isspace "https://a/b" = true /\
  starts_with_word str_isspace "my client" = true /\
  UnpackStatKey str_isspace (PackStatKey "my client" "https://a/b")
  = ["https://a/b"; "my client"].
Proof.
  split; [discriminate|]. split; [reflexivity|]. split; [reflexivity|].
  apply (UnpackStatKey_PackStatKey str_isspace);
    [reflexivity | discriminate | reflexivity | reflexivity].
Defined.

(** C7 as stated fails: a scope without white space and a client id that
    begins with a space, or is empty, do not come back; nor does an empty
    scope. *)
Lemma UnpackStatKey_PackStatKey_lossy :
  (no_whitespace str_isspace "scope1" = true /\
   UnpackStatKey str_isspace (PackStatKey " client1" "scope1")
   = ["scope1"; "client1"] /\
   ["scope1"; "client1"] <> ["scope1"; " client1"]) /\
  (UnpackStatKey str_isspace (PackStatKey "" "scope1") = ["scope1"] /\
   ["scope1"] <> ["scope1"; ""]) /\
  (no_whitespace str_isspace "" = true /\
   UnpackStatKey str_isspace (PackStatKey "client1" "") = ["client1"] /\
   ["client1"] <> [""; "client1"]).
Proof. repeat split; try reflexivity; discriminate. Qed.

(** ** The scope black list *)

Lemma append_snoc_not_empty t c : t +:+ String c "" <> "".
Proof. by destruct t. Qed.

(** What [rstrip c] returns does not end in [c]. *)
Lemma rstrip_no_trailing c s t : rstrip c s <> t +:+ String c "".
Proof.
  revert t. induction s as [|a s IH]; intros t; simpl.
  - intros H. by apply (append_snoc_not_empty t c).
  - destruct (rstrip c s) as [|b r] eqn:Hr.
    + destruct (Ascii.eqb_spec a c) as [->|Hac].
      * intros H. by apply (append_snoc_not_empty t c).
      * destruct t as [|x t]; [intros [= ?]; congruence|].
        intros [= _ H]. by apply (append_snoc_not_empty t c).
    + destruct t as [|x t]; [done|].
      intros [= _ H]. by apply (IH t).
Qed.

(** A string that does not end in [c] is left as it is. *)
Lemma rstrip_idemp c s : rstrip c (rstrip c s) = rstrip c s.
Proof.
  induction s as [|a s IH]; simpl; [done|].
  destruct (rstrip c s) as [|b r] eqn:Hr.
  - destruct (Ascii.eqb_spec a c) as [->|Hac]; simpl; [done|].
    by destruct (Ascii.eqb_spec a c).
  - simpl. simpl in IH. rewrite IH. done.
Qed.

Lemma LoadScopeBlacklist_elem (self : TokenRevoker) (lines : list string) (x : string) :
  x ∈ _scope_blacklist_set (LoadScopeBlacklist self lines)
  <-> exists s, s ∈ lines /\ x = rstrip "/" s.
Proof.
  simpl. rewrite elem_of_map. setoid_rewrite elem_of_list_to_set. naive_solver.
Qed.

(** The scope rule compares the stripped candidate with the stripped
    lines. *)
Lemma scope_rule_flags_iff (self : TokenRevoker)
    (lines : list string) (scope client_id : string) :
  _IsRevokedByScopeBlacklist (LoadScopeBlacklist self lines) scope client_id = true
  <-> scope <> "" /\ exists s, s ∈ lines /\ rstrip "/" s = rstrip "/" scope.
Proof.
  unfold _IsRevokedByScopeBlacklist.
  destruct (decide (scope = "")) as [->|Hne]; [naive_solver|].
  rewrite bool_decide_eq_true.
  split.
  - intros Hinter. split; [done|].
    apply set_choose_L in Hinter as [x Hx].
    apply elem_of_intersection in Hx as [Hbl Hcand].
    apply LoadScopeBlacklist_elem in Hbl as (s & Hs & ->).
    apply elem_of_union in Hcand as [Hc|Hc]; apply elem_of_singleton in Hc.
    + by exists s.
    + by apply rstrip_no_trailing in Hc.
  - intros [_ (s & Hs & Heq)].
    apply (non_empty_inhabited_L (rstrip "/" scope)).
    apply elem_of_intersection. split; [|set_solver].
    apply LoadScopeBlacklist_elem. by exists s.
Qed.

(** C9 (amended).  After [LoadScopeBlacklist], the scope rule flags a
    candidate scope exactly when the candidate is not empty and some line of
    the black list file equals it once the trailing slashes of both, however
    many, are stripped.  So the entry "https://a/b" flags the scopes
    "https://a/b" and "https://a/b/". *)
Theorem _IsRevokedByScopeBlacklist_iff :
  (forall (self : TokenRevoker) (lines : list string) (scope client_id : string),
      _IsRevokedByScopeBlacklist (LoadScopeBlacklist self lines) scope client_id = true
      <-> scope <> "" /\ exists s, s ∈ lines /\ rstrip "/" s = rstrip "/" scope) /\
  (forall (self : TokenRevoker) (client_id : string),
      _IsRevokedByScopeBlacklist (LoadScopeBlacklist self ["https://a/b"])
        "https://a/b" client_id = true /\
      _IsRevokedByScopeBlacklist (LoadScopeBlacklist self ["https://a/b"])
        "https://a/b/" client_id = true).
Proof.
  split; [apply scope_rule_flags_iff|].
  intros self client_id.
  split; apply scope_rule_flags_iff;
    (split; [discriminate | exists "https://a/b"; split; [set_solver | reflexivity]]).
Qed.

(** C9 as stated fails: the entry "https://a/b" flags "https://a/b//",
    which it does not match up to one optional slash; and the entry "/",
    loaded as the empty string, does not flag the empty candidate it
    equals. *)
Lemma _IsRevokedByScopeBlacklist_not_optional_slash :
  (_IsRevokedByScopeBlacklist
     (LoadScopeBlacklist TokenRevoker_init ["https://a/b"]) "https://a/b//" "client1"
   = true /\
   forall s, s ∈ _scope_blacklist_set (LoadScopeBlacklist TokenRevoker_init ["https://a/b"]) ->
             ~ matches_up_to_optional_slash s "https://a/b//") /\
  (_IsRevokedByScopeBlacklist (LoadScopeBlacklist TokenRevoker_init ["/"]) "" "client1"
   = false /\
   "" ∈ _scope_blacklist_set (LoadScopeBlacklist TokenRevoker_init ["/"]) /\
   matches_up_to_optional_slash "" "").
Proof.
  split; [split|split; [|split]].
  - apply scope_rule_flags_iff.
    split; [discriminate | exists "https://a/b"; split; [set_solver | reflexivity]].
  - intros s (s0 & Hs0 & ->)%LoadScopeBlacklist_elem.
    apply list_elem_of_singleton in Hs0 as ->.
    intros [H|H]; discriminate H.
  - reflexivity.
  - apply LoadScopeBlacklist_elem. exists "/". split; [set_solver | reflexivity].
  - by left.
Qed.

(** ** TokenStats: one entry per user set *)

Section TokenStatsFacts.
Implicit Types (self : TokenStats) (l : list (gset string * gset string)).
Implicit Types (user_set : gset string).

(** The loop changes no user set and drops no entry. *)
Lemma AddToken_loop_user_sets secondary user_set l found :
  (AddToken_loop secondary user_set l found).2.*2 = l.*2.
Proof.
  revert found. induction l as [|[ss us] l IH]; intros found; simpl; [done|].
  destruct (decide (user_set = us)).
  - specialize (IH true). destruct (AddToken_loop _ _ l true). simpl in *. by f_equal.
  - specialize (IH found). destruct (AddToken_loop _ _ l found). simpl in *. by f_equal.
Qed.

(** [found] ends up set exactly when it was, or an entry has the user set. *)
Lemma AddToken_loop_found secondary user_set l found :
  (AddToken_loop secondary user_set l found).1
  = found || bool_decide (user_set ∈ l.*2).
Proof.
  revert found. induction l as [|[ss us] l IH]; intros found.
  - cbn. by rewrite orb_false_r.
  - rewrite fmap_cons. cbn [AddToken_loop snd].
    destruct (decide (user_set = us)) as [->|Hne].
    + specialize (IH true). destruct (AddToken_loop _ _ l true). cbn [fst] in *.
      rewrite IH. rewrite (bool_decide_eq_true_2 (us ∈ us :: l.*2)); [|by left].
      by rewrite orb_true_r.
    + specialize (IH found). destruct (AddToken_loop _ _ l found). cbn [fst] in *.
      rewrite IH. f_equal. apply bool_decide_ext.
      rewrite elem_of_cons. naive_solver.
Qed.

(** With no entry for the user set the loop changes nothing. *)
Lemma AddToken_loop_absent secondary user_set l found :
  user_set ∉ l.*2 -> (AddToken_loop secondary user_set l found).2 = l.
Proof.
  revert found. induction l as [|[ss us] l IH]; intros found Hnot; simpl; [done|].
  simpl in Hnot. apply not_elem_of_cons in Hnot as [Hne Hnot].
  destruct (decide (user_set = us)); [done|].
  specialize (IH found Hnot). destruct (AddToken_loop _ _ l found). simpl in *.
  by f_equal.
Qed.

(** With distinct user sets the loop changes the one entry that has the
    user set, adding the secondary to it. *)
Lemma AddToken_loop_present secondary user_set l found (i : nat) ss :
  NoDup l.*2 ->
  l !! i = Some (ss, user_set) ->
  (AddToken_loop secondary user_set l found).2
  = <[i := (ss ∪ {[secondary]}, user_set)]> l.
Proof.
  revert found i. induction l as [|[ss' us] l IH]; intros found i Hnd Hi; [done|].
  simpl in Hnd. apply NoDup_cons in Hnd as [Hhd Hnd]. simpl.
  destruct i as [|i]; simpl in Hi.
  - injection Hi as -> ->. rewrite decide_True by done.
    pose proof (AddToken_loop_absent secondary user_set l true Hhd) as Habs.
    destruct (AddToken_loop _ _ l true). simpl in *. by subst.
  - destruct (decide (user_set = us)) as [->|Hne].
    + exfalso. apply Hhd. apply list_elem_of_lookup. exists i.
      by rewrite list_lookup_fmap, Hi.
    + specialize (IH found i Hnd Hi). destruct (AddToken_loop _ _ l found).
      simpl in *. by subst.
Qed.

Lemma distinct_user_sets_init : distinct_user_sets TokenStats_init.
Proof. intros primary l. unfold TokenStats_init. by rewrite lookup_empty. Qed.

Lemma AddToken_lookup primary secondary users self :
  let user_set : gset string := list_to_set users in
  let before := default [] (self !! primary) in
  AddToken primary secondary users self !! primary
  = Some (if bool_decide (user_set ∈ before.*2)
          then (AddToken_loop secondary user_set before false).2
          else before ++ [({[secondary]}, user_set)]).
Proof.
  intros user_set before. unfold AddToken. fold user_set. fold before.
  pose proof (AddToken_loop_found secondary user_set before false) as Hf.
  destruct (AddToken_loop secondary user_set before false) as [found l'] eqn:Hl.
  simpl in Hf. subst found. rewrite lookup_insert_eq.
  destruct (bool_decide (user_set ∈ before.*2)) eqn:Hin; [done|].
  apply bool_decide_eq_false in Hin.
  pose proof (AddToken_loop_absent secondary user_set before false Hin) as Habs.
  rewrite Hl in Habs. simpl in Habs. by subst.
Qed.

Lemma AddToken_distinct primary secondary users self :
  distinct_user_sets self -> distinct_user_sets (AddToken primary secondary users self).
Proof.
  intros Hinv p l Hl.
  destruct (decide (primary = p)) as [<-|Hne].
  - assert (Hbefore : NoDup (default [] (self !! primary)).*2).
    { destruct (self !! primary) as [l0|] eqn:H0; simpl; [by eapply Hinv | constructor]. }
    rewrite AddToken_lookup in Hl. injection Hl as <-.
    destruct (bool_decide _) eqn:Hin.
    + by rewrite AddToken_loop_user_sets.
    + apply bool_decide_eq_false in Hin.
      rewrite fmap_app. simpl. apply NoDup_app. split; [done|].
      split; [|apply NoDup_singleton].
      intros x Hx ->%list_elem_of_singleton. done.
  - unfold AddToken in Hl.
    destruct (AddToken_loop _ _ _ _) as [found l'].
    rewrite lookup_insert_ne in Hl by done. by eapply Hinv.
Qed.

Lemma after_calls_distinct calls : distinct_user_sets (after_calls calls).
Proof.
  unfold after_calls.
  induction calls as [|c calls IH] using rev_ind; simpl.
  - apply distinct_user_sets_init.
  - rewrite foldl_app. simpl. by apply AddToken_distinct.
Qed.

(** C10.  After any sequence of [AddToken] calls on a new [TokenStats], the
    entries of every primary key have pairwise distinct user sets, and one
    more call keeps it so: with no entry for the user set it appends
    [({secondary}, user_set)] and changes nothing else of the list; with an
    entry for it (there is one only) it adds the secondary to that entry
    and changes nothing else. *)
Theorem AddToken_keeps_user_sets_distinct
    (calls : list (string * string * list string))
    (primary secondary : string) (users : list string) :
  let self := after_calls calls in
  let user_set : gset string := list_to_set users in
  let before := default [] (self !! primary) in
  let after := default [] (AddToken primary secondary users self !! primary) in
  distinct_user_sets self /\
  distinct_user_sets (AddToken primary secondary users self) /\
  (user_set ∉ before.*2 -> after = before ++ [({[secondary]}, user_set)]) /\
  (forall (i : nat) ss, before !! i = Some (ss, user_set) ->
     after = <[i := (ss ∪ {[secondary]}, user_set)]> before /\
     forall (j : nat) e, before !! j = Some e -> e.2 = user_set -> j = i).
Proof.
  intros self user_set before after.
  pose proof (after_calls_distinct calls) as Hinv. fold self in Hinv.
  assert (Hbefore : NoDup before.*2).
  { unfold before. destruct (self !! primary) as [l0|] eqn:H0; simpl;
      [by eapply Hinv | constructor]. }
  split; [done|]. split; [by apply AddToken_distinct|].
  unfold after. rewrite AddToken_lookup. fold user_set. fold before. simpl.
  split.
  - intros Hnot. by rewrite bool_decide_eq_false_2.
  - intros i ss Hi. split.
    + rewrite bool_decide_eq_true_2.
      * by apply AddToken_loop_present.
      * apply list_elem_of_lookup. exists i. by rewrite list_lookup_fmap, Hi.
    + intros j [ss' us'] Hj Hus. simpl in Hus. subst us'.
      eapply (NoDup_lookup before.*2); [done| |].
      * by rewrite list_lookup_fmap, Hj.
      * by rewrite list_lookup_fmap, Hi.
Qed.

End TokenStatsFacts.

(** ** Backoff *)

Section BackoffFacts.
Context {W : Type}.
Variable execute : request -> W -> http_result * W.
Variable randint_0_1000 : W -> Z * W.

(** What one call of [Fail] does. *)
Lemma Fail_run (self : Backoff) (s : state W) :
  let delay := delay_s (retry self + 1) (randint_0_1000 (world s)).1 in
  Fail randint_0_1000 self s
  = (Return {| retry := retry self + 1; maxretries := maxretries self |},
     State (randint_0_1000 (world s)).2
       (trace s ++ [Log INFO (Msg "Waiting for %ds and retrying..." [AInt delay]) None;
                    Sleep delay])).
Proof.
  unfold Fail, bind, perform, LogInfo, emit, ret. simpl.
  destruct (randint_0_1000 (world s)) as [draw w]. simpl.
  by rewrite <- app_assoc.
Qed.

(** C6 (amended).  [Fail] adds one to the attempt counter and then waits
    [2 ^ retry + jitter] seconds, [retry] being the counter after the
    addition, where the jitter is the draw from 0..1000 divided by 1000 as
    integers: it is 0 or 1, and 1 exactly when the draw is 1000. *)
Theorem Fail_increments_then_sleeps (self : Backoff) (s : state W) :
  (forall w, 0 <= (randint_0_1000 w).1 <= 1000) ->
  0 <= retry self ->
  exists (jitter : Z) (self' : Backoff) (s' : state W),
    Fail randint_0_1000 self s = (Return self', s') /\
    retry self' = retry self + 1 /\
    maxretries self' = maxretries self /\
    trace s' = trace s ++
      [Log INFO (Msg "Waiting for %ds and retrying..." [AInt (2 ^ retry self' + jitter)]) None;
       Sleep (2 ^ retry self' + jitter)] /\
    0 <= jitter <= 1 /\
    (jitter = 1 <-> (randint_0_1000 (world s)).1 = 1000).
Proof.
  intros Hrange Hretry.
  pose proof (Hrange (world s)) as Hdraw.
  exists ((randint_0_1000 (world s)).1 / 1000). eexists. eexists.
  split; [apply Fail_run|]. simpl.
  split; [done|]. split; [done|]. split; [done|].
  split.
  - split; [apply Z.div_pos; lia | apply Z.div_le_upper_bound; lia].
  - split.
    + intros Hj.
      assert (1000 * ((randint_0_1000 (world s)).1 / 1000) <= (randint_0_1000 (world s)).1)
        by (apply Z.mul_div_le; lia).
      lia.
    + intros ->. reflexivity.
Qed.

End BackoffFacts.

(** C6, the witness: a first failure with the draw 1000. *)
Lemma Fail_increments_then_sleeps_witness :
  (forall w : unit, 0 <= (1000, w).1 <= 1000) /\
  0 <= retry (Backoff_init BACKOFF_MAX_RETRIES) /\
  exists (jitter : Z) (self' : Backoff) (s' : state unit),
    Fail (fun w => (1000, w)) (Backoff_init BACKOFF_MAX_RETRIES) (State tt [])
    = (Return self', s') /\
    retry self' = retry (Backoff_init BACKOFF_MAX_RETRIES) + 1 /\
    maxretries self' = maxretries (Backoff_init BACKOFF_MAX_RETRIES) /\
    trace s' = [] ++
      [Log INFO (Msg "Waiting for %ds and retrying..." [AInt (2 ^ retry self' + jitter)]) None;
       Sleep (2 ^ retry self' + jitter)] /\
    0 <= jitter <= 1 /\
    (jitter = 1 <-> 1000 = 1000).
Proof.
  split; [intros w; simpl; lia|]. split; [simpl; lia|].
  apply (Fail_increments_then_sleeps (fun w : unit => (1000, w))
           (Backoff_init BACKOFF_MAX_RETRIES) (State tt []));
    [intros w; simpl; lia | simpl; lia].
Defined.

(** C6 as stated fails: with the draw 1000 the first failure waits 3
    seconds, which is [2 ^ 1 + 1]: the jitter is 1, outside [0, 1). *)
Lemma Fail_jitter_can_be_one :
  Fail (fun w : unit => (1000, w)) (Backoff_init BACKOFF_MAX_RETRIES) (State tt [])
  = (Return {| retry := 1; maxretries := 8 |},
     State tt [Log INFO (Msg "Waiting for %ds and retrying..." [AInt 3]) None; Sleep 3]) /\
  3 = 2 ^ 1 + 1 /\
  ~ (0 <= 3 - 2 ^ 1 < 1).
Proof. split; [reflexivity|]. split; [reflexivity|]. lia. Qed.

(** ** The request loops *)

Section LoopFacts.
Context {W : Type}.
Variable execute : request -> W -> http_result * W.
Variable randint_0_1000 : W -> Z * W.

Lemma _ProcessUserListPage_loop_retry fuel apps_domain r b s status uri body :
  Loop b = true ->
  (execute r (world s)).1 = HttpError status uri body ->
  status ∈ RETRY_RESPONSE_CODES ->
  _ProcessUserListPage_loop execute randint_0_1000 (S fuel) apps_domain r b s
  = _ProcessUserListPage_loop execute randint_0_1000 fuel apps_domain r (failed_once b)
      (after_retry execute randint_0_1000 r
         (Log INFO (Msg "Possible quota problem retrieving users (%d)." [AInt status]) None)
         b s).
Proof.
  intros Hloop Hres Hretry.
  cbn [_ProcessUserListPage_loop]. rewrite Hloop.
  unfold bind at 1. unfold request_execute, bind, emit, perform. cbn [world trace].
  destruct (execute r (world s)) as [res w1] eqn:Hex. cbn [fst snd] in *. subst res.
  rewrite bool_decide_eq_true_2 by done. cbn [negb].
  unfold LogInfo, emit. cbn [world trace].
  rewrite Fail_run. cbn [world trace].
  unfold after_retry, failed_once. rewrite Hex. cbn [snd].
  by rewrite <- !app_assoc.
Qed.

Lemma _IssueTokensRequestForUser_loop_retry fuel r b s status uri body :
  Loop b = true ->
  (execute r (world s)).1 = HttpError status uri body ->
  status ∈ RETRY_RESPONSE_CODES ->
  _IssueTokensRequestForUser_loop execute randint_0_1000 (S fuel) r b s
  = _IssueTokensRequestForUser_loop execute randint_0_1000 fuel r (failed_once b)
      (after_retry execute randint_0_1000 r
         (Log INFO (Msg "Possible quota problem with %s tokens (%d)."
                      [AStr (methodId r); AInt status]) None)
         b s).
Proof.
  intros Hloop Hres Hretry.
  assert (H404 : (status =? 404) = false).
  { apply Z.eqb_neq. intros ->. revert Hretry. clear.
    unfold RETRY_RESPONSE_CODES. rewrite !elem_of_cons, elem_of_nil. lia. }
  cbn [_IssueTokensRequestForUser_loop]. rewrite Hloop.
  unfold bind at 1. unfold request_execute, bind, emit, perform. cbn [world trace].
  destruct (execute r (world s)) as [res w1] eqn:Hex. cbn [fst snd] in *. subst res.
  rewrite H404, andb_false_r.
  rewrite bool_decide_eq_true_2 by done. cbn [negb].
  unfold LogInfo, emit. cbn [world trace].
  rewrite Fail_run. cbn [world trace].
  unfold after_retry, failed_once. rewrite Hex. cbn [snd].
  by rewrite <- !app_assoc.
Qed.

Lemma _IssueTokensRequestForUser_loop_ok fuel r b s doc :
  Loop b = true ->
  (execute r (world s)).1 = HttpOk doc ->
  _IssueTokensRequestForUser_loop execute randint_0_1000 (S fuel) r b s
  = (Return (Some doc), State (execute r (world s)).2 (trace s ++ [Execute r])).
Proof.
  intros Hloop Hres.
  cbn [_IssueTokensRequestForUser_loop]. rewrite Hloop.
  unfold bind at 1. unfold request_execute, bind, emit, perform, ret. cbn [world trace].
  destruct (execute r (world s)) as [res w1] eqn:Hex. cbn [fst snd] in *. by subst res.
Qed.

(** A 404 is answered with the empty document unless the request is a
    DELETE. *)
Lemma _IssueTokensRequestForUser_loop_404 fuel r b s uri body :
  Loop b = true ->
  method r <> DELETE ->
  (execute r (world s)).1 = HttpError 404 uri body ->
  _IssueTokensRequestForUser_loop execute randint_0_1000 (S fuel) r b s
  = (Return (Some (Dict [])), State (execute r (world s)).2 (trace s ++ [Execute r])).
Proof.
  intros Hloop Hm Hres.
  cbn [_IssueTokensRequestForUser_loop]. rewrite Hloop.
  unfold bind at 1. unfold request_execute, bind, emit, perform, ret. cbn [world trace].
  destruct (execute r (world s)) as [res w1] eqn:Hex. cbn [fst snd] in *. subst res.
  by rewrite bool_decide_eq_true_2.
Qed.

(** Any other status that is not in [RETRY_RESPONSE_CODES] raises: a 404
    too, when the request is a DELETE. *)
Lemma _IssueTokensRequestForUser_loop_refused fuel r b s status uri body :
  Loop b = true ->
  (execute r (world s)).1 = HttpError status uri body ->
  status ∉ RETRY_RESPONSE_CODES ->
  method r = DELETE \/ status <> 404 ->
  _IssueTokensRequestForUser_loop execute randint_0_1000 (S fuel) r b s
  = (Raise (refusal body),
     State (execute r (world s)).2
       (trace s ++ Execute r :: ParseHttpResult_lines status body)).
Proof.
  intros Hloop Hres Hretry Hd.
  cbn [_IssueTokensRequestForUser_loop]. rewrite Hloop.
  unfold bind at 1. unfold request_execute, bind, emit, perform, ret. cbn [world trace].
  destruct (execute r (world s)) as [res w1] eqn:Hex. cbn [fst snd] in *. subst res.
  assert (Hguard : bool_decide (method r <> DELETE) && (status =? 404) = false).
  { destruct Hd as [Hd|Hd].
    - rewrite bool_decide_eq_false_2; [done|]. intros Hn. by apply Hn.
    - apply Z.eqb_neq in Hd. rewrite Hd. apply andb_false_r. }
  rewrite Hguard. rewrite bool_decide_eq_false_2 by done. cbn [negb].
  unfold ParseHttpResult, bind, LogDebug, emit, raise, ret. cbn [world trace].
  unfold ParseHttpResult_lines.
  unfold refusal. destruct (parse_body body) as [e|text];
    unfold raise, ret; cbn [world trace]; by rewrite <- !app_assoc.
Qed.

End LoopFacts.

(** ** A page request with the retries exhausted *)

Section ExhaustedFacts.
Context {W : Type}.
Variable execute : request -> W -> http_result * W.
Variable randint_0_1000 : W -> Z * W.

Lemma Loop_false_attempts_left b : Loop b = false -> attempts_left b = 0%nat.
Proof. unfold Loop, attempts_left. intros H%Z.ltb_ge. lia. Qed.

Lemma Loop_true_attempts_left b :
  Loop b = true -> attempts_left b = S (attempts_left (failed_once b)).
Proof. unfold Loop, attempts_left, failed_once. simpl. intros H%Z.ltb_lt. lia. Qed.

(** When every attempt ends in a status of [RETRY_RESPONSE_CODES], the loop
    uses the attempts the [Backoff] has left, each followed by a wait, and
    falls through: it returns [None], raises nothing and logs no error. *)
Lemma _ProcessUserListPage_loop_exhausts fuel apps_domain r b s :
  always_retryable execute ->
  (attempts_left b <= fuel)%nat ->
  exists s',
    _ProcessUserListPage_loop execute randint_0_1000 fuel apps_domain r b s
    = (Return None, s') /\
    executed (trace s') = executed (trace s) ++ replicate (attempts_left b) r /\
    length (sleeps (trace s')) = (length (sleeps (trace s)) + attempts_left b)%nat /\
    error_log (trace s') = error_log (trace s).
Proof.
  intros Hremote. revert b s.
  induction fuel as [|fuel IH]; intros b s Hfuel.
  - assert (Hloop : Loop b = false).
    { unfold Loop, attempts_left in *. apply Z.ltb_ge. lia. }
    exists s. cbn [_ProcessUserListPage_loop]. rewrite Hloop.
    rewrite (Loop_false_attempts_left _ Hloop). simpl.
    by rewrite app_nil_r, Nat.add_0_r.
  - destruct (Loop b) eqn:Hloop.
    + destruct (Hremote r (world s)) as (status & uri & body & Hres & Hretry).
      rewrite (_ProcessUserListPage_loop_retry _ _ _ _ _ _ _ _ _ _ Hloop Hres Hretry).
      rewrite (Loop_true_attempts_left _ Hloop) in Hfuel |- *.
      destruct (IH (failed_once b)
                  (after_retry execute randint_0_1000 r
                     (Log INFO (Msg "Possible quota problem retrieving users (%d)."
                                  [AInt status]) None) b s))
        as (s' & Hrun & Hexec & Hsleep & Herr); [lia|].
      exists s'. split; [done|]. rewrite Hexec, Hsleep, Herr.
      unfold after_retry, executed, sleeps, error_log. cbn [trace].
      rewrite !omap_app, List.filter_app, length_app. simpl.
      rewrite app_nil_r, <- app_assoc. split; [done|]. split; [lia|done].
    + exists s. cbn [_ProcessUserListPage_loop]. rewrite Hloop.
      rewrite (Loop_false_attempts_left _ Hloop). simpl.
      by rewrite app_nil_r, Nat.add_0_r.
Qed.

(** C5.  When every attempt of a page request ends in a status of
    [RETRY_RESPONSE_CODES], [_ProcessUserListPage] makes exactly 8 attempts
    (the default of [Backoff]), each followed by a wait, and then returns
    [None]: it raises nothing and logs no error. *)
Theorem _ProcessUserListPage_retries_exhausted (apps_domain : string) (max_page : Z)
    (next_page_token query_filter : option string) (s : state W) :
  always_retryable execute ->
  exists s',
    _ProcessUserListPage execute randint_0_1000 apps_domain max_page
      next_page_token query_filter s
    = (Return None, s') /\
    executed (trace s')
    = executed (trace s)
      ++ replicate 8 (users_list apps_domain max_page next_page_token query_filter) /\
    length (sleeps (trace s')) = (length (sleeps (trace s)) + 8)%nat /\
    error_log (trace s') = error_log (trace s).
Proof.
  intros Hremote. unfold _ProcessUserListPage.
  apply (_ProcessUserListPage_loop_exhausts default_fuel apps_domain
           (users_list apps_domain max_page next_page_token query_filter)
           (Backoff_init BACKOFF_MAX_RETRIES) s Hremote).
  reflexivity.
Qed.

End ExhaustedFacts.

(** C5, the witness: a first page of the users of a domain, with the remote
    API out of service. *)
Lemma _ProcessUserListPage_retries_exhausted_witness :
  always_retryable out_of_service /\
  exists s',
    _ProcessUserListPage out_of_service draw_0 "altostrat.com" 100 None None
      (State tt [])
    = (Return None, s') /\
    executed (trace s')
    = executed [] ++ replicate 8 (users_list "altostrat.com" 100 None None) /\
    length (sleeps (trace s')) = (length (sleeps []) + 8)%nat /\
    error_log (trace s') = error_log [].
Proof.
  assert (H : always_retryable out_of_service).
  { intros r w. exists 503, "https://www.googleapis.com/admin/directory/v1/users",
      (ErrorText "Service Unavailable" "ERROR: status=503.").
    split; [reflexivity|]. unfold RETRY_RESPONSE_CODES. set_solver. }
  split; [exact H|].
  exact (_ProcessUserListPage_retries_exhausted out_of_service draw_0
           "altostrat.com" 100 None None (State tt []) H).
Defined.

(** ** Revoking one token *)

Section RevokeTokenFacts.
Context {W : Type}.
Variable execute : request -> W -> http_result * W.
Variable randint_0_1000 : W -> Z * W.

Lemma default_fuel_S : default_fuel = S 7.
Proof. reflexivity. Qed.

Lemma Loop_Backoff_init : Loop (Backoff_init BACKOFF_MAX_RETRIES) = true.
Proof. reflexivity. Qed.

(** Neither exception of a refused request is an
    [AdminAPIToolTokenRequestError]. *)
(** The classes of the exceptions [ParseHttpResult] raises. *)
Lemma parse_body_classes body e :
  parse_body body = inl e ->
  exc_class e ∈ [AdminAPIToolJsonError; TypeError; AttributeError].
Proof.
  destruct body as [content why|content text|content value text]; cbn [parse_body].
  - intros [= <-]. set_solver.
  - done.
  - unfold parse_decoded. destruct (py_contains "error" value) as [[|]|].
    + destruct value as [| | | | |items|members];
        try (intros [= <-]; set_solver).
      destruct (dict_get "error" members) as [[| | | | | |]|];
        try done; intros [= <-]; set_solver.
    + done.
    + intros [= <-]. set_solver.
Qed.

Lemma parse_body_refusal_classes body e :
  parse_body body = inl e -> exc_class e ∈ refusal_classes.
Proof.
  intros H%parse_body_classes. unfold refusal_classes. set_solver.
Qed.

Lemma refusal_not_TokenRequestError body :
  issubclass (exc_class (refusal body)) AdminAPIToolTokenRequestError = false.
Proof.
  unfold refusal. destruct (parse_body body) as [e|text] eqn:Hparse; [|done].
  apply parse_body_classes in Hparse. set_unfold.
  by destruct Hparse as [-> | [-> | [-> | []]]].
Qed.


(** A delete request answered with a status outside
    [RETRY_RESPONSE_CODES], 404 included: the exception of
    [_IssueTokensRequestForUser] leaves [_RevokeToken], whose handler is for
    another class, and no error is logged. *)
Lemma _RevokeToken_refused user_mail client_id s status uri body :
  (execute (tokens_delete client_id user_mail) (world s)).1
  = HttpError status uri body ->
  status ∉ RETRY_RESPONSE_CODES ->
  _RevokeToken execute randint_0_1000 user_mail client_id s
  = (Raise (refusal body),
     State (execute (tokens_delete client_id user_mail) (world s)).2
       (trace s ++ revoking_line user_mail client_id
                :: Execute (tokens_delete client_id user_mail)
                :: ParseHttpResult_lines status body)).
Proof.
  intros Hres Hretry.
  unfold _RevokeToken, bind at 1. unfold LogInfo, emit. cbn [world trace].
  unfold try_except, bind, DeleteToken, _IssueTokensRequestForUser.
  rewrite default_fuel_S.
  match goal with
  | |- context [_IssueTokensRequestForUser_loop _ _ _ _ _ ?s1] =>
      rewrite (_IssueTokensRequestForUser_loop_refused execute randint_0_1000 7 _ _
                 s1 status uri body Loop_Backoff_init Hres Hretry (or_introl eq_refl))
  end.
  rewrite refusal_not_TokenRequestError. unfold revoking_line. cbn [world trace].
  by rewrite <- app_assoc.
Qed.


End RevokeTokenFacts.



(** ** C1: a refused revocation ends the batch *)

(** C1 fails on this input: the statistics hold one flagged client with the
    users u1 and u2, and the remote API answers the first delete request
    with 403.  [RevokeUnapprovedTokens] raises [AdminAPIToolUserError]: the
    token of u2 is never revoked (one call, one request) and no error is
    logged. *)
Lemma RevokeUnapprovedTokens_aborts_on_403 :
  let forbidden :=
    HttpError 403 "https://www.googleapis.com/admin/directory/v1/users/u1/tokens/client1"
      (ErrorText "{...}" "ERROR: status=403.") in
  let run :=
    RevokeUnapprovedTokens scripted scripted_draw_0 str_isspace
      (LoadClientBlacklist TokenRevoker_init ["client1"])
      (Some [("scope1 client1", ["u1"; "u2"])])
      (State [forbidden] []) in
  run.1 = Raise (Exception AdminAPIToolUserError
                   (Msg "%s\nPlease check your domain spelling."
                      [AStr "ERROR: status=403."])) /\
  revoke_calls (trace run.2) = [("u1", "client1")] /\
  executed (trace run.2) = [tokens_delete "client1" "u1"] /\
  error_log (trace run.2) = [].
Proof. vm_compute. repeat split. Qed.

(** ** The order of [sorted] *)

Lemma ascii_compare_lt_trans a b c :
  Ascii.compare a b = Lt -> Ascii.compare b c = Lt -> Ascii.compare a c = Lt.
Proof.
  unfold Ascii.compare. rewrite !N.compare_lt_iff. lia.
Qed.

Lemma string_compare_lt_trans s1 s2 s3 :
  String.compare s1 s2 = Lt -> String.compare s2 s3 = Lt -> String.compare s1 s3 = Lt.
Proof.
  revert s2 s3. induction s1 as [|a s1 IH]; intros [|b s2] [|c s3]; simpl; try done.
  destruct (Ascii.compare a b) eqn:Hab; try done;
    destruct (Ascii.compare b c) eqn:Hbc; try done; intros H12 H23.
  - apply Ascii.compare_eq_iff in Hab, Hbc. subst.
    destruct (Ascii.compare c c) eqn:Hcc.
    + by apply (IH s2).
    + done.
    + unfold Ascii.compare in Hcc. by rewrite N.compare_refl in Hcc.
  - apply Ascii.compare_eq_iff in Hab. subst. by rewrite Hbc.
  - apply Ascii.compare_eq_iff in Hbc. subst. by rewrite Hab.
  - by rewrite (ascii_compare_lt_trans _ _ _ Hab Hbc).
Qed.

Lemma string_compare_refl s : String.compare s s = Eq.
Proof.
  induction s as [|a s IH]; simpl; [done|].
  unfold Ascii.compare. by rewrite N.compare_refl.
Qed.

Lemma string_leb_iff s1 s2 :
  String.leb s1 s2 = true <-> String.compare s1 s2 = Lt \/ s1 = s2.
Proof.
  unfold String.leb. split.
  - destruct (String.compare s1 s2) eqn:Hc; [|by left|done].
    right. by apply String.compare_eq_iff.
  - intros [->| ->]; [done|]. by rewrite string_compare_refl.
Qed.

Lemma string_ltb_iff s1 s2 :
  String.ltb s1 s2 = true <-> String.compare s1 s2 = Lt.
Proof. unfold String.ltb. by destruct (String.compare s1 s2). Qed.

#[global] Instance string_le_total : Total string_le.
Proof.
  intros a b. unfold string_le.
  destruct (String.leb_total a b) as [H|H]; rewrite H; [by left|by right].
Qed.

#[global] Instance string_le_trans : Transitive string_le.
Proof.
  intros a b c. unfold string_le. rewrite !Is_true_true, !string_leb_iff.
  intros [H1| ->] [H2| ->]; try (by left); try (by right).
  left. by eapply string_compare_lt_trans.
Qed.

#[global] Instance string_le_antisym : AntiSymm (=) string_le.
Proof.
  intros a b. unfold string_le. rewrite !Is_true_true. apply String.leb_antisym.
Qed.

Lemma sorted_elem (X : gset string) (x : string) : x ∈ sorted X <-> x ∈ X.
Proof. unfold sorted. by rewrite merge_sort_Permutation, elem_of_elements. Qed.

Lemma sorted_NoDup (X : gset string) : NoDup (sorted X).
Proof. unfold sorted. rewrite merge_sort_Permutation. apply NoDup_elements. Qed.

(** [sorted] gives a strictly increasing list. *)
Lemma sorted_strictly (X : gset string) :
  StronglySorted (fun a b => String.ltb a b = true) (sorted X).
Proof.
  pose proof (sorted_NoDup X) as Hnd.
  assert (Hs : StronglySorted string_le (sorted X))
    by (apply StronglySorted_merge_sort; apply _).
  induction Hs as [|x l Hl IH Hx]; [constructor|].
  apply NoDup_cons in Hnd as [Hnotin Hnd].
  constructor; [by apply IH|].
  apply Forall_forall. intros y Hy.
  rewrite Forall_forall in Hx. specialize (Hx y Hy).
  unfold string_le in Hx. apply Is_true_true, string_leb_iff in Hx as [Hlt| ->].
  - by apply string_ltb_iff.
  - done.
Qed.

(** ** Identifying the tokens to revoke *)

Section IdentifyFacts.
Context {W : Type}.
Variable isspace : ascii -> bool.

(** With keys that unpack, the loop has no effect but its result. *)
Lemma _IdentifyTokensToRevoke_loop_run (self : TokenRevoker)
    (items : list (string * list string)) (d : gmap string (gset string))
    (s : state W) :
  well_formed_keys isspace items ->
  _IdentifyTokensToRevoke_loop isspace self items d s
  = (Return (foldl (identify_item isspace self) d items), s).
Proof.
  intros Hwf. revert d. induction Hwf as [|[stat_key user_list] items Hkey _ IH]; intros d.
  - reflexivity.
  - destruct Hkey as (scope & client_id & Hkey). simpl in Hkey.
    cbn [_IdentifyTokensToRevoke_loop foldl]. unfold identify_item at 2.
    cbn [fst snd]. rewrite Hkey. apply IH.
Qed.

Lemma add_users_lookup client_id user_list (d : gmap string (gset string)) c (u : string) :
  u ∈ default ∅ (add_users client_id user_list d !! c)
  <-> u ∈ default ∅ (d !! c) \/ (c = client_id /\ u ∈ user_list).
Proof.
  unfold add_users. destruct (decide (client_id = c)) as [->|Hne].
  - rewrite lookup_insert_eq. simpl. rewrite elem_of_union, elem_of_list_to_set.
    naive_solver.
  - rewrite lookup_insert_ne by done. naive_solver.
Qed.

Lemma apply_blacklist_filters_lookup self scope client_id user_list
    (d : gmap string (gset string)) c (u : string) :
  u ∈ default ∅ (apply_blacklist_filters self scope client_id user_list d !! c)
  <-> u ∈ default ∅ (d !! c) \/
      (c = client_id /\ u ∈ user_list /\
       (_IsRevokedByClientBlacklist self scope client_id = true \/
        _IsRevokedByScopeBlacklist self scope client_id = true)).
Proof.
  unfold apply_blacklist_filters. cbn [foldl].
  destruct (_IsRevokedByClientBlacklist self scope client_id);
    destruct (_IsRevokedByScopeBlacklist self scope client_id);
    rewrite ?add_users_lookup; naive_solver.
Qed.

Lemma identified_from_lookup self items (d : gmap string (gset string)) c (u : string) :
  well_formed_keys isspace items ->
  u ∈ default ∅ (foldl (identify_item isspace self) d items !! c)
  <-> u ∈ default ∅ (d !! c) \/ flagged isspace self items u c.
Proof.
  intros Hwf. revert d.
  induction Hwf as [|[stat_key user_list] items Hkey _ IH]; intros d.
  - cbn [foldl]. split; [by left|]. intros [H|H]; [done|].
    destruct H as (? & ? & ? & Hin & _). by apply elem_of_nil in Hin.
  - destruct Hkey as (scope & client_id & Hkey). simpl in Hkey.
    cbn [foldl]. rewrite IH. unfold identify_item. cbn [fst snd]. rewrite Hkey.
    rewrite apply_blacklist_filters_lookup. unfold flagged. split.
    + intros [[H|(-> & Hu & Hf)]|(k & ul & sc & Hin & Hk & Hf & Hu)].
      * by left.
      * right. exists stat_key, user_list, scope. split; [by left|done].
      * right. exists k, ul, sc. split; [by right|done].
    + intros [H|(k & ul & sc & Hin & Hk & Hf & Hu)]; [by left; left|].
      apply elem_of_cons in Hin as [[= -> ->]|Hin].
      * rewrite Hkey in Hk. injection Hk as -> ->. left. by right.
      * right. by exists k, ul, sc.
Qed.

End IdentifyFacts.

(** ** The revocation plan *)




(** ** The batch of revocations *)

Section RevokeFacts.
Context {W : Type}.
Variable execute : request -> W -> http_result * W.
Variable randint_0_1000 : W -> Z * W.
Variable isspace : ascii -> bool.
Hypothesis remote_never_refuses : never_refuses execute.

Lemma revoke_calls_app t1 t2 :
  revoke_calls (t1 ++ t2) = revoke_calls t1 ++ revoke_calls t2.
Proof. apply omap_app. Qed.

Lemma error_log_app t1 t2 : error_log (t1 ++ t2) = error_log t1 ++ error_log t2.
Proof. apply List.filter_app. Qed.

Lemma revoke_calls_revoking_line user_mail client_id :
  revoke_calls [revoking_line user_mail client_id] = [(user_mail, client_id)].
Proof. reflexivity. Qed.

(** With a remote API that never refuses, a token request returns, a
    document or [None]; what it adds to the trace holds no call of
    [_RevokeToken] and no error line. *)
Lemma _IssueTokensRequestForUser_loop_returns fuel r b (s : state W) :
  (attempts_left b <= fuel)%nat ->
  exists v s' t,
    _IssueTokensRequestForUser_loop execute randint_0_1000 fuel r b s = (Return v, s') /\
    trace s' = trace s ++ t /\ revoke_calls t = [] /\ error_log t = [].
Proof.
  revert b s. induction fuel as [|fuel IH]; intros b s Hfuel.
  - assert (Hloop : Loop b = false).
    { unfold Loop, attempts_left in *. apply Z.ltb_ge. lia. }
    exists None, s, []. cbn [_IssueTokensRequestForUser_loop]. rewrite Hloop.
    by rewrite app_nil_r.
  - destruct (Loop b) eqn:Hloop.
    + pose proof (remote_never_refuses r (world s)) as Hres.
      destruct ((execute r (world s)).1) as [doc|status uri body] eqn:Hex.
      * rewrite (_IssueTokensRequestForUser_loop_ok _ _ _ _ _ _ doc Hloop Hex).
        eexists. eexists. exists [Execute r]. by split.
      * rewrite (_IssueTokensRequestForUser_loop_retry _ _ _ _ _ _ _ _ _ Hloop Hex Hres).
        rewrite (Loop_true_attempts_left _ Hloop) in Hfuel.
        edestruct (IH (failed_once b)) as (v & s' & t & Hrun & Htrace & Hcalls & Herr);
          [lia|].
        rewrite Hrun. exists v, s'. eexists. split; [done|].
        rewrite Htrace. unfold after_retry. cbn [trace]. rewrite <- app_assoc.
        split; [done|].
        unfold revoke_calls, error_log in *.
        rewrite omap_app, List.filter_app, Hcalls, Herr. done.
    + exists None, s, []. cbn [_IssueTokensRequestForUser_loop]. rewrite Hloop.
      by rewrite app_nil_r.
Qed.

Lemma _RevokeToken_returns user_mail client_id (s : state W) :
  exists s' t,
    _RevokeToken execute randint_0_1000 user_mail client_id s = (Return tt, s') /\
    trace s' = trace s ++ t /\
    revoke_calls t = [(user_mail, client_id)] /\ error_log t = [].
Proof.
  unfold _RevokeToken, bind at 1. unfold LogInfo, emit. cbn [world trace].
  unfold try_except, bind, DeleteToken, _IssueTokensRequestForUser.
  match goal with
  | |- context [_IssueTokensRequestForUser_loop _ _ ?f ?r ?b ?s1] =>
      destruct (_IssueTokensRequestForUser_loop_returns f r b s1)
        as (v & s' & t & Hrun & Htrace & Hcalls & Herr); [reflexivity|];
      rewrite Hrun
  end.
  exists s'. eexists. unfold ret. split; [done|].
  rewrite Htrace. cbn [trace]. rewrite <- app_assoc. split; [done|].
  fold (revoking_line user_mail client_id).
  rewrite revoke_calls_app, error_log_app, revoke_calls_revoking_line, Hcalls, Herr.
  done.
Qed.

(** A [for] loop whose body always returns. *)
Lemma for_each_calls {A} (l : list A) (body : A -> M W unit)
    (calls : A -> list (string * string)) (s : state W) :
  (forall x s, exists s' t,
      body x s = (Return tt, s') /\ trace s' = trace s ++ t /\
      revoke_calls t = calls x /\ error_log t = []) ->
  exists s' t,
    for_each l body s = (Return tt, s') /\ trace s' = trace s ++ t /\
    revoke_calls t = flat_map calls l /\ error_log t = [].
Proof.
  intros Hbody. revert s. induction l as [|x l IH]; intros s.
  - exists s, []. by rewrite app_nil_r.
  - cbn [for_each]. unfold bind.
    destruct (Hbody x s) as (s1 & t1 & -> & Ht1 & Hc1 & He1).
    destruct (IH s1) as (s2 & t2 & -> & Ht2 & Hc2 & He2).
    exists s2, (t1 ++ t2). split; [done|].
    rewrite Ht2, Ht1, <- app_assoc. split; [done|].
    unfold revoke_calls, error_log in *.
    rewrite omap_app, List.filter_app, Hc1, Hc2, He1, He2. done.
Qed.

(** What [RevokeUnapprovedTokens] does with keys that unpack and a remote
    API that never refuses: it returns, the dictionary of tokens to revoke
    is the one identified, and the calls of [_RevokeToken] are the plan. *)
Lemma RevokeUnapprovedTokens_run (self : TokenRevoker)
    (items : list (string * list string)) (s : state W) :
  well_formed_keys isspace items ->
  exists self' s',
    RevokeUnapprovedTokens execute randint_0_1000 isspace self (Some items) s
    = (Return self', s') /\
    _tokens_to_revoke self' = identified isspace self items /\
    revoke_calls (trace s')
    = revoke_calls (trace s) ++ revoke_plan (identified isspace self items) /\
    error_log (trace s') = error_log (trace s).
Proof.
  intros Hwf.
  unfold RevokeUnapprovedTokens, bind at 1.
  unfold _IdentifyTokensToRevoke, bind, GetTokenStats, ret.
  rewrite (_IdentifyTokensToRevoke_loop_run isspace self items _ s Hwf).
  fold (identified isspace self items). cbn [_tokens_to_revoke].
  destruct (decide (identified isspace self items = ∅)) as [Hempty|Hne].
  - unfold LogInfo, emit. cbn [world trace]. eexists. eexists.
    split; [done|]. cbn [_tokens_to_revoke trace]. split; [done|].
    rewrite Hempty. unfold revoke_plan, sorted, revoke_calls, error_log.
    rewrite dom_empty_L, elements_empty, omap_app, List.filter_app. simpl.
    by rewrite !app_nil_r.
  - unfold LogInfo, emit. cbn [world trace].
    match goal with
    | |- context [for_each ?l ?body ?s1] =>
        destruct (for_each_calls l body
                    (fun client_id =>
                       map (fun user_mail => (user_mail, client_id))
                         (sorted (default ∅ (identified isspace self items !! client_id))))
                    s1) as (s' & t & Hrun & Htrace & Hcalls & Herr)
    end.
    + intros client_id s0.
      destruct (for_each_calls
                  (sorted (default ∅ (identified isspace self items !! client_id)))
                  (fun user_mail => _RevokeToken execute randint_0_1000 user_mail client_id)
                  (fun user_mail => [(user_mail, client_id)]) s0)
        as (s' & t & Hrun & Htrace & Hcalls & Herr).
      * intros user_mail s1. apply _RevokeToken_returns.
      * exists s', t. split; [done|]. split; [done|]. split; [|done].
        rewrite Hcalls. clear.
        induction (sorted _) as [|u l IH]; simpl; [done|]. by rewrite IH.
    + rewrite Hrun. eexists. exists s'. split; [done|].
      cbn [_tokens_to_revoke]. split; [done|].
      rewrite Htrace. cbn [trace]. unfold revoke_calls, error_log in *.
      rewrite !omap_app, !List.filter_app, Hcalls, Herr. simpl.
      by rewrite !app_nil_r.
Qed.

End RevokeFacts.

(** The example: the plan is the two calls, whichever white-space class
    and order of the two items. *)
Lemma example_revoke_plan :
  revoke_plan (identified str_isspace example_revoker example_token_data)
  = [("u1", "client1"); ("u2", "client1")] /\
  revoke_plan (identified str_isspace example_revoker (reverse example_token_data))
  = [("u1", "client1"); ("u2", "client1")] /\
  revoke_plan (identified unicode_isspace example_revoker example_token_data)
  = [("u1", "client1"); ("u2", "client1")].
Proof. split; [|split]; vm_compute; reflexivity. Qed.

Lemma example_well_formed_keys : well_formed_keys str_isspace example_token_data.
Proof.
  repeat constructor.
  - by exists "scope1", "client1".
  - by exists "scope2", "client1".
Qed.

(** The example with any remote API that never refuses: exactly the two
    calls [(u1, client1)] and [(u2, client1)], in this order. *)
Corollary RevokeUnapprovedTokens_example {W} (execute : request -> W -> http_result * W)
    (randint_0_1000 : W -> Z * W) (s : state W) :
  never_refuses execute ->
  exists self' s',
    RevokeUnapprovedTokens execute randint_0_1000 str_isspace example_revoker
      (Some example_token_data) s
    = (Return self', s') /\
    revoke_calls (trace s')
    = revoke_calls (trace s) ++ [("u1", "client1"); ("u2", "client1")].
Proof.
  intros Hremote.
  destruct (RevokeUnapprovedTokens_run execute randint_0_1000 str_isspace Hremote
              example_revoker example_token_data s example_well_formed_keys)
    as (self' & s' & Hrun & _ & Hcalls & _).
  exists self', s'. split; [done|].
  rewrite Hcalls. by destruct example_revoke_plan as [-> _].
Qed.

(** ** CheckResumable *)

Section ResumeFacts.
Implicit Types (user_list : list user) (s : state files).

Lemma getitem_Some {A} (l : list A) (i : Z) (x : A) (s : state files) :
  py_index l i = Some x -> getitem l i s = (Return x, s).
Proof. unfold getitem. by intros ->. Qed.

Lemma Zgtb_false (n m : Z) : n <= m -> (n >? m) = false.
Proof. intros H. rewrite Z.gtb_ltb. apply Z.ltb_ge. lia. Qed.

Lemma py_bool_JStr (v : string) : v <> "" -> py_bool (JStr v) = true.
Proof. by destruct v. Qed.

(** The progress file is read first; a file that [_WriteLastUserProgress]
    wrote gives the three values back. *)
Lemma CheckResumable_reads user_list (user_count : Z) (prefix : string)
    (fl : flags) s (last : progress) (k : json * json * json -> M files Z) :
  world s !! progress_file_name prefix = Some (progress_file last) ->
  (last <- _ReadLastUserProgress prefix ;; k last) s
  = k (from_option JStr JNull last.1.1, JStr last.1.2, JInt last.2) s.
Proof. intros Hfile. unfold bind, _ReadLastUserProgress. by rewrite Hfile. Qed.

(** A progress that passes every check: the result is [count_done] rounded
    down to a multiple of the batch size. *)
Lemma CheckResumable_accepts user_list (user_count : Z) (prefix : string)
    (fl : flags) s (prev_user user_email : string) (count_done : Z) :
  first_n fl <= 0 ->
  world s !! progress_file_name prefix
  = Some (progress_file (Some prev_user, user_email, count_done)) ->
  prev_user <> "" ->
  user_email <> "" ->
  10 <= count_done <= user_count ->
  email <$> py_index user_list (count_done - 1) = Some user_email ->
  email <$> py_index user_list (count_done - 2) = Some prev_user ->
  CheckResumable user_list user_count prefix fl s
  = (Return (count_done - count_done mod 10), s).
Proof.
  intros Hn Hfile Hprev Huser [Hlo Hhi] Hactive Hactive_prev.
  unfold CheckResumable. rewrite (Zgtb_false _ _ Hn).
  rewrite (CheckResumable_reads user_list user_count prefix fl s _ _ Hfile).
  cbn [fst snd from_option].
  rewrite (py_bool_JStr _ Hprev), (py_bool_JStr _ Huser). cbn [negb orb].
  unfold _USER_PROGRESS_CHECKPOINT_BATCH. cbn [py_lt_int py_gt_int].
  assert (H1 : (count_done <? 10) = false) by (apply Z.ltb_ge; lia).
  rewrite H1, (Zgtb_false _ _ Hhi).
  destruct (py_index user_list (count_done - 1)) as [u|] eqn:Hu; [|done].
  destruct (py_index user_list (count_done - 2)) as [u'|] eqn:Hu'; [|done].
  injection Hactive as Hactive. injection Hactive_prev as Hactive_prev.
  unfold bind, as_int, ret at 1. rewrite (getitem_Some _ _ _ _ Hu).
  cbn [py_eq_str]. rewrite Hactive, String.eqb_refl. cbn [negb].
  rewrite (getitem_Some _ _ _ _ Hu').
  rewrite Hactive_prev, String.eqb_refl.
  reflexivity.
Qed.

(** C3 (amended).  With [first_n] not set and a progress file that holds
    two non-empty e-mail addresses, [CheckResumable] reads the file and
    nothing else, and leaves the state as it is (no request, no write).  A
    [count_done] below the batch size 10 is refused with
    [AdminAPIToolResumeError].  A [count_done] from 10 to [user_count] whose
    two e-mail addresses are the ones of the user list at [count_done - 2]
    and [count_done - 1] is accepted, a multiple of 10 or not: the result
    is [count_done] rounded down to a multiple of 10. *)
Theorem CheckResumable_rounds_down user_list (user_count : Z) (prefix : string)
    (fl : flags) s (prev_user user_email : string) (count_done : Z) :
  first_n fl <= 0 ->
  world s !! progress_file_name prefix
  = Some (progress_file (Some prev_user, user_email, count_done)) ->
  prev_user <> "" ->
  user_email <> "" ->
  (count_done < 10 ->
   exists e, CheckResumable user_list user_count prefix fl s = (Raise e, s) /\
             exc_class e = AdminAPIToolResumeError) /\
  (10 <= count_done <= user_count ->
   email <$> py_index user_list (count_done - 1) = Some user_email ->
   email <$> py_index user_list (count_done - 2) = Some prev_user ->
   CheckResumable user_list user_count prefix fl s
   = (Return (count_done - count_done mod 10), s)).
Proof.
  intros Hn Hfile Hprev Huser. split.
  - intros Hlt. unfold CheckResumable. rewrite (Zgtb_false _ _ Hn).
    rewrite (CheckResumable_reads user_list user_count prefix fl s _ _ Hfile).
    cbn [fst snd from_option].
    rewrite (py_bool_JStr _ Hprev), (py_bool_JStr _ Huser). cbn [negb orb].
    unfold _USER_PROGRESS_CHECKPOINT_BATCH. cbn [py_lt_int].
    apply Z.ltb_lt in Hlt. rewrite Hlt. by eexists.
  - intros Hrange Hactive Hactive_prev.
    by apply (CheckResumable_accepts _ _ _ _ _ prev_user user_email).
Qed.

End ResumeFacts.

(** C3, the witness: twenty users, and a progress file written after the
    thirteenth. *)
Lemma CheckResumable_rounds_down_witness :
  let s := State ({[ "collection_progress" :=
                       progress_file (Some "l@altostrat.com", "m@altostrat.com", 13) ]}
                  : files) [] in
  first_n resumed_run <= 0 /\
  world s !! progress_file_name "collection"
  = Some (progress_file (Some "l@altostrat.com", "m@altostrat.com", 13)) /\
  "l@altostrat.com" <> "" /\
  "m@altostrat.com" <> "" /\
  (10 <= 13 <= 20 /\
   email <$> py_index (example_users 20) (13 - 1) = Some "m@altostrat.com" /\
   email <$> py_index (example_users 20) (13 - 2) = Some "l@altostrat.com") /\
  CheckResumable (example_users 20) 20 "collection" resumed_run s = (Return 10, s).
Proof.
  intros s.
  split; [simpl; lia|]. split; [reflexivity|].
  split; [discriminate|]. split; [discriminate|].
  split; [split; [lia|split; reflexivity]|].
  apply (CheckResumable_rounds_down (example_users 20) 20 "collection" resumed_run s
           "l@altostrat.com" "m@altostrat.com" 13);
    [simpl; lia | reflexivity | discriminate | discriminate | lia
    | reflexivity | reflexivity].
Defined.

(** C3 as stated fails: a progress file with [count_done = 13], not a
    multiple of 10, is not refused; the resume starts at 10. *)
Lemma CheckResumable_accepts_13 :
  let s := State ({[ "collection_progress" :=
                       progress_file (Some "l@altostrat.com", "m@altostrat.com", 13) ]}
                  : files) [] in
  13 mod 10 = 3 /\
  CheckResumable (example_users 20) 20 "collection" resumed_run s = (Return 10, s) /\
  yielded (trace (StartUserIterator (example_users 20) "collection" resumed_run s).2)
  = map user_key (drop 10 (example_users 20)).
Proof. vm_compute. repeat split. Qed.

(** ** Runs of the user iterator *)

Section IteratorFacts.
Implicit Types (users : list user) (s : state files) (w : files).

Lemma replay_app t1 t2 w : replay (t1 ++ t2) w = replay t2 (replay t1 w).
Proof. apply foldl_app. Qed.

Lemma yielded_app t1 t2 : yielded (t1 ++ t2) = yielded t1 ++ yielded t2.
Proof. apply omap_app. Qed.

(** The loop returns; its events are [iterate_events], and the files are the
    ones these events leave. *)
Lemma iterate_run prefix (user_count : Z) users (users_checked : Z)
    (prev_user : option string) s :
  iterate prefix user_count users users_checked prev_user s
  = (Return tt,
     State (replay (iterate_events prefix user_count users users_checked prev_user)
              (world s))
       (trace s ++ iterate_events prefix user_count users users_checked prev_user)).
Proof.
  revert users_checked prev_user s.
  induction users as [|[[user_email uid] full_name] users IH];
    intros users_checked prev_user s.
  - destruct s. cbn. by rewrite app_nil_r.
  - cbn [iterate iterate_events].
    set (checkpoint := (_ || _)%bool).
    unfold bind at 1 2 3 4. unfold emit, _WriteLastUserProgress, bind, perform.
    cbn [world trace].
    destruct checkpoint; unfold bind, emit, ret; cbn [world trace]; rewrite IH;
      cbn [world trace]; rewrite !replay_app; cbn [replay foldl app];
      by rewrite <- !app_assoc.
Qed.

Lemma yielded_iterate_events prefix (user_count : Z) users (users_checked : Z)
    (prev_user : option string) :
  yielded (iterate_events prefix user_count users users_checked prev_user)
  = map user_key users.
Proof.
  revert users_checked prev_user.
  induction users as [|[[user_email uid] full_name] users IH];
    intros users_checked prev_user; [done|].
  cbn [iterate_events]. set (checkpoint := (_ || _)%bool).
  rewrite !yielded_app, IH. by destruct checkpoint.
Qed.

Lemma iterate_events_app prefix (user_count : Z) users1 users2 (users_checked : Z)
    (prev_user : option string) :
  iterate_events prefix user_count (users1 ++ users2) users_checked prev_user
  = iterate_events prefix user_count users1 users_checked prev_user
    ++ iterate_events prefix user_count users2 (users_checked + len users1)
         (from_option Some prev_user (email <$> last users1)).
Proof.
  revert users_checked prev_user.
  induction users1 as [|[[user_email uid] full_name] users1 IH];
    intros users_checked prev_user.
  - cbn. by rewrite Z.add_0_r.
  - cbn [iterate_events app]. rewrite IH. rewrite <- !app_assoc.
    do 3 f_equal.
    assert (users_checked + 1 + len users1
            = users_checked + len ((user_email, uid, full_name) :: users1)) as ->
      by (unfold len; cbn [length]; lia).
    assert (from_option Some (Some user_email) (email <$> last users1)
            = from_option Some prev_user
                (email <$> last ((user_email, uid, full_name) :: users1))) as ->; [|done].
    destruct users1 as [|u users1]; [done|].
    rewrite last_cons_cons.
    destruct (last (u :: users1)) eqn:Hlast; [done|].
    by apply last_None in Hlast.
Qed.

Lemma py_slice_to_end {A} (l : list A) (k : Z) :
  0 <= k <= len l -> py_slice l k (len l) = drop (Z.to_nat k) l.
Proof.
  intros Hk. unfold py_slice, slice_bound, len in *.
  assert (H0 : (k <? 0) = false) by (apply Z.ltb_ge; lia).
  assert (Hn : (Z.of_nat (length l) <? 0) = false) by (apply Z.ltb_ge; lia).
  rewrite H0, Hn. rewrite (Z.min_l k), Z.min_id by lia.
  apply take_ge. rewrite length_drop. lia.
Qed.

Lemma py_index_lookup {A} (l : list A) (i : Z) :
  0 <= i -> py_index l i = l !! Z.to_nat i.
Proof.
  intros Hi. unfold py_index.
  assert (H0 : (i <? 0) = false) by (apply Z.ltb_ge; lia). by rewrite H0, H0.
Qed.

(** Up to the [k]-th write from its start, the cut of a trace that begins
    with a loop over [users] holds the whole loop when [k] is beyond it. *)
Lemma interrupted_after_iterate_events prefix (user_count : Z) users
    (users_checked : Z) (prev_user : option string) (tail : list event) (k : nat) :
  (1 <= k)%nat ->
  interrupted_after
    (iterate_events prefix user_count users users_checked prev_user ++ tail)
    (length users + k)
  = iterate_events prefix user_count users users_checked prev_user
    ++ interrupted_after tail k.
Proof.
  intros Hk. revert users_checked prev_user.
  induction users as [|[[user_email uid] full_name] users IH];
    intros users_checked prev_user; [done|].
  cbn [iterate_events length]. set (checkpoint := (_ || _)%bool).
  cbn [app interrupted_after Nat.add].
  assert (Hm : exists m, (length users + k)%nat = S m)
    by (exists (length users + k - 1)%nat; lia).
  destruct Hm as [m Hm]. rewrite Hm. do 4 f_equal.
  destruct checkpoint; cbn [app interrupted_after]; rewrite <- Hm; by rewrite IH.
Qed.

Lemma interrupted_after_0 (t : list event) : interrupted_after t 0 = [].
Proof. by destruct t. Qed.

(** The cut after the write for the user [u] that follows [users1]. *)
Lemma interrupted_after_user prefix (user_count : Z) users1 (u : user) users2
    (tail : list event) :
  interrupted_after
    (iterate_events prefix user_count (users1 ++ u :: users2) 0 None ++ tail)
    (S (length users1))
  = iterate_events prefix user_count users1 0 None
    ++ yield_and_write prefix user_count u (len users1)
         (from_option Some None (email <$> last users1)).
Proof.
  rewrite iterate_events_app, <- app_assoc.
  replace (S (length users1)) with (length users1 + 1)%nat by lia.
  rewrite interrupted_after_iterate_events by lia. f_equal.
  destruct u as [[user_email uid] full_name].
  cbn [iterate_events]. rewrite Z.add_0_l.
  set (checkpoint := (_ || _)%bool).
  cbn [app interrupted_after].
  unfold yield_and_write, email, user_id. cbn [fst snd]. do 4 f_equal.
  apply interrupted_after_0.
Qed.

(** A first run over the cached list: every user is yielded once, in the
    order of the list, and the progress file is gone at the end. *)
Lemma StartUserIterator_first_run users prefix w :
  exists w' tail,
    StartUserIterator users prefix first_run (State w [])
    = (Return tt,
       State w' (iterate_events prefix (len users) users 0 None ++ tail)) /\
    yielded tail = [] /\
    w' !! progress_file_name prefix = None.
Proof.
  unfold StartUserIterator, first_run. cbn [resume first_n].
  rewrite decide_True by done. unfold bind at 1. unfold ret at 1.
  rewrite py_slice_to_end by (unfold len; lia). rewrite drop_0.
  unfold bind. rewrite iterate_run. cbn [world trace app].
  unfold _RemoveLastUserProgress. cbn [world trace].
  destruct (replay _ w !! progress_file_name prefix) as [p|] eqn:Hfile.
  - eexists. exists [RemoveFile (progress_file_name prefix)].
    split; [done|]. split; [done|]. apply lookup_delete_eq.
  - eexists. exists []. rewrite app_nil_r. by split.
Qed.

(** A run with [--resume] on a progress file written after [K] users, [K] a
    multiple of 10 below the number of users: the users from index [K] on
    are yielded, and the progress file is gone at the end. *)
Lemma StartUserIterator_resumed users prefix w (K : Z) (u_prev u_last u_next : user) :
  K mod 10 = 0 -> 10 <= K -> K < len users ->
  users !! Z.to_nat (K - 2) = Some u_prev ->
  users !! Z.to_nat (K - 1) = Some u_last ->
  users !! Z.to_nat K = Some u_next ->
  email u_prev <> "" -> email u_last <> "" ->
  w !! progress_file_name prefix = Some (progress_file (Some (email u_prev), email u_last, K)) ->
  exists w' tail,
    StartUserIterator users prefix resumed_run (State w [])
    = (Return tt,
       State w'
         (resuming_line K (len users) u_next
          :: iterate_events prefix (len users) (drop (Z.to_nat K) users) K
               (Some (email u_last))
          ++ tail)) /\
    yielded tail = [] /\
    w' !! progress_file_name prefix = None.
Proof.
  intros Hmod Hlo Hhi Hprev Hlast Hnext Heprev Helast Hfile.
  unfold StartUserIterator, resumed_run. cbn [resume].
  unfold bind at 1. unfold bind at 1. unfold try_except.
  rewrite (CheckResumable_accepts users (len users) prefix _ (State w [])
             (email u_prev) (email u_last) K);
    [|done|done|done|done|lia| |].
  2: { rewrite py_index_lookup by lia. by rewrite Hlast. }
  2: { rewrite py_index_lookup by lia. by rewrite Hprev. }
  rewrite Hmod, Z.sub_0_r.
  unfold bind at 1. unfold getitem at 1.
  rewrite py_index_lookup by lia. rewrite Hlast. unfold ret at 1.
  unfold bind at 1. unfold getitem at 1.
  rewrite py_index_lookup by lia. rewrite Hnext. unfold ret at 1.
  unfold bind at 1. unfold emit, ret. cbn [world trace app].
  rewrite py_slice_to_end by lia.
  unfold bind. rewrite iterate_run. cbn [world trace].
  unfold _RemoveLastUserProgress. cbn [world trace].
  destruct (replay _ w !! progress_file_name prefix) as [p|] eqn:Hfile'.
  - eexists. exists [RemoveFile (progress_file_name prefix)].
    split; [done|]. split; [done|]. apply lookup_delete_eq.
  - eexists. exists []. rewrite app_nil_r. by split.
Qed.

(** The same with [K] the number of users: the progress is accepted, and
    the line that announces the resume raises IndexError on
    [user_list[users_checked]]; nothing is yielded and the progress file
    stays. *)
Lemma StartUserIterator_resumed_at_end users prefix w (u_prev u_last : user) :
  len users mod 10 = 0 -> 10 <= len users ->
  users !! Z.to_nat (len users - 2) = Some u_prev ->
  users !! Z.to_nat (len users - 1) = Some u_last ->
  email u_prev <> "" -> email u_last <> "" ->
  w !! progress_file_name prefix = Some (progress_file (Some (email u_prev), email u_last, len users)) ->
  StartUserIterator users prefix resumed_run (State w [])
  = (Raise (Exception IndexError (Msg "list index out of range" [])), State w []).
Proof.
  intros Hmod Hlo Hprev Hlast Heprev Helast Hfile.
  unfold StartUserIterator, resumed_run. cbn [resume].
  unfold bind at 1. unfold bind at 1. unfold try_except.
  rewrite (CheckResumable_accepts users (len users) prefix _ (State w [])
             (email u_prev) (email u_last) (len users));
    [|done|done|done|done|lia| |].
  2: { rewrite py_index_lookup by lia. by rewrite Hlast. }
  2: { rewrite py_index_lookup by lia. by rewrite Hprev. }
  rewrite Hmod, Z.sub_0_r.
  unfold bind at 1. unfold getitem at 1.
  rewrite py_index_lookup by lia. rewrite Hlast. unfold ret at 1.
  unfold bind at 1. unfold getitem at 1.
  rewrite py_index_lookup by lia.
  rewrite (lookup_ge_None_2 users) by (unfold len; lia).
  reflexivity.
Qed.

(** Resume after an interrupt.  A first run over a cached list of [N] users
    with non-empty e-mail addresses is interrupted right after it has
    written its [K]-th progress, [K] a multiple of 10 with [10 <= K < N]; a
    run with [--resume] follows on the files the first run left.  The
    interrupted run has yielded the users below index [K]; the resumed run
    returns, yields the users from index [K] on, each once and in order,
    and removes the progress file; together they yield what the
    uninterrupted run yields. *)
Lemma resume_after_interrupt users prefix w (K : Z) :
  K mod 10 = 0 -> 10 <= K < len users ->
  Forall (fun u => email u <> "") users ->
  let full := StartUserIterator users prefix first_run (State w []) in
  let cut := interrupted_after (trace full.2) (Z.to_nat K) in
  let resumed := StartUserIterator users prefix resumed_run (State (replay cut w) []) in
  full.1 = Return tt /\
  yielded (trace full.2) = map user_key users /\
  yielded cut = map user_key (take (Z.to_nat K) users) /\
  resumed.1 = Return tt /\
  yielded (trace resumed.2) = map user_key (drop (Z.to_nat K) users) /\
  yielded cut ++ yielded (trace resumed.2) = yielded (trace full.2) /\
  world resumed.2 !! progress_file_name prefix = None.
Proof.
  intros Hmod [Hlo Hhi] Hemails full cut resumed.
  assert (Hlen : (Z.to_nat K < length users)%nat) by (unfold len in Hhi; lia).
  destruct (lookup_lt_is_Some_2 users (Z.to_nat (K - 2))) as [u_prev Hprev]; [lia|].
  destruct (lookup_lt_is_Some_2 users (Z.to_nat (K - 1))) as [u_last Hlast]; [lia|].
  destruct (lookup_lt_is_Some_2 users (Z.to_nat K)) as [u_next Hnext]; [lia|].
  assert (Heprev : email u_prev <> "").
  { rewrite Forall_forall in Hemails. apply Hemails.
    apply list_elem_of_lookup. by eexists. }
  assert (Helast : email u_last <> "").
  { rewrite Forall_forall in Hemails. apply Hemails.
    apply list_elem_of_lookup. by eexists. }
  set (users1 := take (Z.to_nat (K - 1)) users).
  set (users2 := drop (S (Z.to_nat (K - 1))) users).
  assert (Husers : users = users1 ++ u_last :: users2)
    by (symmetry; by apply take_drop_middle).
  assert (Hlen1 : length users1 = Z.to_nat (K - 1))
    by (unfold users1; rewrite length_take; lia).
  assert (Hlast1 : last users1 = Some u_prev).
  { rewrite last_lookup, Hlen1. unfold users1.
    rewrite lookup_take_lt by lia.
    replace (Init.Nat.pred (Z.to_nat (K - 1))) with (Z.to_nat (K - 2)) by lia. done. }
  destruct (StartUserIterator_first_run users prefix w)
    as (w1 & tail & Hfull & Htail & _).
  assert (Hcut : cut = iterate_events prefix (len users) users1 0 None
                       ++ yield_and_write prefix (len users) u_last (K - 1)
                            (Some (email u_prev))).
  { unfold cut, full. rewrite Hfull. cbn [snd trace].
    rewrite Husers at 2.
    replace (Z.to_nat K) with (S (length users1)) by lia.
    rewrite interrupted_after_user, Hlast1. cbn [fmap option_fmap option_map from_option].
    do 3 f_equal. unfold len. lia. }
  assert (Hfile : replay cut w !! progress_file_name prefix
                  = Some (progress_file (Some (email u_prev), email u_last, K))).
  { rewrite Hcut, replay_app. unfold yield_and_write. cbn [replay foldl].
    rewrite lookup_insert_eq. do 3 f_equal. lia. }
  destruct (StartUserIterator_resumed users prefix (replay cut w) K u_prev u_last u_next)
    as (w2 & tail2 & Hresumed & Htail2 & Hgone); try done.
  assert (Hy_cut : yielded cut = map user_key (take (Z.to_nat K) users)).
  { rewrite Hcut, yielded_app, yielded_iterate_events.
    replace (Z.to_nat K) with (S (Z.to_nat (K - 1))) by lia.
    rewrite (take_S_r _ _ _ Hlast), map_app. done. }
  assert (Hy_resumed : yielded (trace resumed.2) = map user_key (drop (Z.to_nat K) users)).
  { unfold resumed. rewrite Hresumed. cbn [snd trace].
    change (resuming_line K (len users) u_next :: ?t) with ([resuming_line K (len users) u_next] ++ t).
    rewrite !yielded_app, yielded_iterate_events, Htail2. cbn. by rewrite app_nil_r. }
  assert (Hy_full : yielded (trace full.2) = map user_key users).
  { unfold full. rewrite Hfull. cbn [snd trace].
    rewrite yielded_app, yielded_iterate_events, Htail. by rewrite app_nil_r. }
  split; [unfold full; by rewrite Hfull|].
  split; [done|]. split; [done|].
  split; [unfold resumed; by rewrite Hresumed|].
  split; [done|].
  split; [by rewrite Hy_cut, Hy_resumed, Hy_full, <- map_app, take_drop|].
  unfold resumed. by rewrite Hresumed.
Qed.

(** The same interrupt after the last user ([K] is the number of users,
    the window between the last write and the removal of the file): the
    resumed run raises IndexError. *)
Lemma resume_after_last_user users prefix w :
  len users mod 10 = 0 -> 10 <= len users ->
  Forall (fun u => email u <> "") users ->
  let full := StartUserIterator users prefix first_run (State w []) in
  let cut := interrupted_after (trace full.2) (length users) in
  StartUserIterator users prefix resumed_run (State (replay cut w) [])
  = (Raise (Exception IndexError (Msg "list index out of range" [])),
     State (replay cut w) []).
Proof.
  intros Hmod Hlo Hemails full cut.
  assert (HN : len users = Z.of_nat (length users)) by done.
  destruct (lookup_lt_is_Some_2 users (Z.to_nat (len users - 2))) as [u_prev Hprev]; [lia|].
  destruct (lookup_lt_is_Some_2 users (Z.to_nat (len users - 1))) as [u_last Hlast]; [lia|].
  assert (Heprev : email u_prev <> "").
  { rewrite Forall_forall in Hemails. apply Hemails.
    apply list_elem_of_lookup. by eexists. }
  assert (Helast : email u_last <> "").
  { rewrite Forall_forall in Hemails. apply Hemails.
    apply list_elem_of_lookup. by eexists. }
  set (users1 := take (Z.to_nat (len users - 1)) users).
  set (users2 := drop (S (Z.to_nat (len users - 1))) users).
  assert (Husers : users = users1 ++ u_last :: users2)
    by (symmetry; by apply take_drop_middle).
  assert (Hlen1 : length users1 = Z.to_nat (len users - 1))
    by (unfold users1; rewrite length_take; lia).
  assert (Hlast1 : last users1 = Some u_prev).
  { rewrite last_lookup, Hlen1. unfold users1.
    rewrite lookup_take_lt by lia.
    replace (Init.Nat.pred (Z.to_nat (len users - 1)))
      with (Z.to_nat (len users - 2)) by lia. done. }
  destruct (StartUserIterator_first_run users prefix w)
    as (w1 & tail & Hfull & Htail & _).
  assert (Hcut : cut = iterate_events prefix (len users) users1 0 None
                       ++ yield_and_write prefix (len users) u_last (len users - 1)
                            (Some (email u_prev))).
  { unfold cut, full. rewrite Hfull. cbn [snd trace].
    rewrite Husers at 2.
    replace (length users) with (S (length users1)) by lia.
    rewrite interrupted_after_user, Hlast1. cbn [fmap option_fmap option_map from_option].
    do 3 f_equal. unfold len at 1. lia. }
  apply (StartUserIterator_resumed_at_end users prefix _ u_prev u_last); try done.
  rewrite Hcut, replay_app. unfold yield_and_write. cbn [replay foldl].
  rewrite lookup_insert_eq. do 3 f_equal. lia.
Qed.

(** C4.  Resume after an interrupt, for every multiple [K] of 10 from 10
    to the number [N] of users.  A first run over a cached list of users
    with e-mail addresses is interrupted right after it has written its
    [K]-th progress; a run with [--resume] follows on the files the first
    run left.  The interrupted run has yielded the users below index [K];
    the resumed run yields the users from index [K] on, each once and in
    order, and no other; together they yield what the uninterrupted run
    yields.  For [K < N] the resumed run returns; for [K = N], where
    nothing is left to yield, it ends with the IndexError of
    [user_list[N]]. *)
Theorem resume_yields_the_rest users (prefix : string) w (K : Z) :
  K mod 10 = 0 -> 10 <= K <= len users ->
  Forall (fun u => email u <> "") users ->
  let full := StartUserIterator users prefix first_run (State w []) in
  let cut := interrupted_after (trace full.2) (Z.to_nat K) in
  let resumed := StartUserIterator users prefix resumed_run (State (replay cut w) []) in
  full.1 = Return tt /\
  yielded (trace full.2) = map user_key users /\
  yielded cut = map user_key (take (Z.to_nat K) users) /\
  yielded (trace resumed.2) = map user_key (drop (Z.to_nat K) users) /\
  yielded cut ++ yielded (trace resumed.2) = yielded (trace full.2) /\
  resumed.1 = (if decide (K < len users) then Return tt
               else Raise (Exception IndexError (Msg "list index out of range" []))).
Proof.
  intros Hmod [Hlo Hhi] Hemails full cut resumed.
  destruct (decide (K < len users)) as [Hlt|Hge].
  - destruct (resume_after_interrupt users prefix w K Hmod (conj Hlo Hlt) Hemails)
      as (H1 & H2 & H3 & H4 & H5 & H6 & _).
    by repeat split.
  - assert (HK : K = len users) by lia. subst K.
    assert (HN : len users = Z.of_nat (length users)) by done.
    pose proof (resume_after_last_user users prefix w Hmod Hlo Hemails) as Hresumed.
    cbv zeta in Hresumed.
    assert (Hto : Z.to_nat (len users) = length users) by (unfold len; lia).
    unfold resumed, cut, full. rewrite Hto, Hresumed. cbn [fst snd trace].
    destruct (lookup_lt_is_Some_2 users (Z.to_nat (len users - 1)))
      as [u_last Hlast]; [lia|].
    set (users1 := take (Z.to_nat (len users - 1)) users).
    set (users2 := drop (S (Z.to_nat (len users - 1))) users).
    assert (Husers : users = users1 ++ u_last :: users2)
      by (symmetry; by apply take_drop_middle).
    assert (Hlen1 : length users1 = Z.to_nat (len users - 1))
      by (unfold users1; rewrite length_take; lia).
    destruct (StartUserIterator_first_run users prefix w)
      as (w1 & tail & Hfull & Htail & _).
    rewrite Hfull. cbn [fst snd trace].
    assert (Hy_full : yielded (iterate_events prefix (len users) users 0 None ++ tail)
                      = map user_key users).
    { by rewrite yielded_app, yielded_iterate_events, Htail, app_nil_r. }
    assert (Hy_cut : yielded (interrupted_after
                                (iterate_events prefix (len users) users 0 None ++ tail)
                                (length users))
                     = map user_key users).
    { assert (Hu2 : users2 = []) by (unfold users2; apply drop_ge; lia).
      replace (length users) with (S (length users1)) by lia.
      rewrite Husers at 2.
      rewrite interrupted_after_user, yielded_app, yielded_iterate_events.
      rewrite (f_equal (map user_key) Husers), map_app. by rewrite Hu2. }
    rewrite Hy_cut, Hy_full, firstn_all, drop_all. cbn. rewrite app_nil_r.
    by repeat split.
Qed.

End IteratorFacts.


(** The same list with twenty users and the interrupt after the tenth
    write: the resumed run yields the users k@altostrat.com to
    t@altostrat.com and returns. *)
Example StartUserIterator_resume_at_10_of_20 :
  let users := example_users 20 in
  let full := StartUserIterator users "collection" first_run (State ∅ []) in
  let cut := interrupted_after (trace full.2) 10 in
  let resumed := StartUserIterator users "collection" resumed_run (State (replay cut ∅) []) in
  resumed.1 = Return tt /\
  yielded cut ++ yielded (trace resumed.2) = yielded (trace full.2) /\
  yielded (trace resumed.2) = map user_key (drop 10 users) /\
  world resumed.2 = ∅.
Proof. vm_compute. repeat split. Qed.

(** ** The request loops end *)

Section TotalFacts.
Context {W : Type}.
Variable execute : request -> W -> http_result * W.
Variable randint_0_1000 : W -> Z * W.

Lemma _ProcessUserListPage_loop_ok fuel apps_domain r b (s : state W) doc :
  Loop b = true ->
  (execute r (world s)).1 = HttpOk doc ->
  _ProcessUserListPage_loop execute randint_0_1000 (S fuel) apps_domain r b s
  = (Return (Some doc), State (execute r (world s)).2 (trace s ++ [Execute r])).
Proof.
  intros Hloop Hres.
  cbn [_ProcessUserListPage_loop]. rewrite Hloop.
  unfold bind at 1. unfold request_execute, bind, emit, perform, ret. cbn [world trace].
  destruct (execute r (world s)) as [res w1] eqn:Hex. cbn [fst snd] in *. by subst res.
Qed.

(** A status outside [RETRY_RESPONSE_CODES] ends the page request with an
    exception. *)
Lemma _ProcessUserListPage_loop_refused fuel apps_domain r b (s : state W)
    status uri body :
  Loop b = true ->
  (execute r (world s)).1 = HttpError status uri body ->
  status ∉ RETRY_RESPONSE_CODES ->
  exists e s',
    _ProcessUserListPage_loop execute randint_0_1000 (S fuel) apps_domain r b s
    = (Raise e, s') /\
    exc_class e ∈ refusal_classes.
Proof.
  intros Hloop Hres Hretry.
  cbn [_ProcessUserListPage_loop]. rewrite Hloop.
  unfold bind at 1. unfold request_execute, bind, emit, perform, ret. cbn [world trace].
  destruct (execute r (world s)) as [res w1] eqn:Hex. cbn [fst snd] in *. subst res.
  rewrite bool_decide_eq_false_2 by done. cbn [negb].
  unfold ParseHttpResult, bind, LogDebug, emit, raise, ret. cbn [world trace].
  destruct (parse_body body) as [e|text] eqn:Hparse; unfold raise, ret;
    cbn [world trace]; eexists; eexists; (split; [reflexivity|]).
  - by apply (parse_body_refusal_classes body).
  - unfold refusal_classes. set_solver.
Qed.

(** With the fuel of a new [Backoff], or more than the attempts left, the
    loops of the model end by themselves: a page request returns or
    raises. *)
Lemma _ProcessUserListPage_loop_total fuel apps_domain r b (s : state W) :
  (attempts_left b <= fuel)%nat ->
  (_ProcessUserListPage_loop execute randint_0_1000 fuel apps_domain r b s).1
  <> OutOfFuel.
Proof.
  revert b s. induction fuel as [|fuel IH]; intros b s Hfuel.
  - assert (Hloop : Loop b = false).
    { unfold Loop, attempts_left in *. apply Z.ltb_ge. lia. }
    cbn [_ProcessUserListPage_loop]. by rewrite Hloop.
  - destruct (Loop b) eqn:Hloop; [|cbn [_ProcessUserListPage_loop]; by rewrite Hloop].
    destruct ((execute r (world s)).1) as [doc|status uri body] eqn:Hex.
    + by rewrite (_ProcessUserListPage_loop_ok _ _ _ _ _ doc Hloop Hex).
    + destruct (decide (status ∈ RETRY_RESPONSE_CODES)) as [Hretry|Hretry].
      * rewrite (_ProcessUserListPage_loop_retry _ _ _ _ _ _ _ _ _ _ Hloop Hex Hretry).
        apply IH. rewrite (Loop_true_attempts_left _ Hloop) in Hfuel. lia.
      * destruct (_ProcessUserListPage_loop_refused fuel apps_domain r b s
                    status uri body Hloop Hex Hretry) as (e & s' & -> & _).
        done.
Qed.

Lemma _IssueTokensRequestForUser_loop_total fuel r b (s : state W) :
  (attempts_left b <= fuel)%nat ->
  (_IssueTokensRequestForUser_loop execute randint_0_1000 fuel r b s).1 <> OutOfFuel.
Proof.
  revert b s. induction fuel as [|fuel IH]; intros b s Hfuel.
  - assert (Hloop : Loop b = false).
    { unfold Loop, attempts_left in *. apply Z.ltb_ge. lia. }
    cbn [_IssueTokensRequestForUser_loop]. by rewrite Hloop.
  - destruct (Loop b) eqn:Hloop;
      [|cbn [_IssueTokensRequestForUser_loop]; by rewrite Hloop].
    destruct ((execute r (world s)).1) as [doc|status uri body] eqn:Hex.
    + by rewrite (_IssueTokensRequestForUser_loop_ok _ _ _ _ _ _ doc Hloop Hex).
    + destruct (decide (status ∈ RETRY_RESPONSE_CODES)) as [Hretry|Hretry].
      * rewrite (_IssueTokensRequestForUser_loop_retry _ _ _ _ _ _ _ _ _ Hloop Hex Hretry).
        apply IH. rewrite (Loop_true_attempts_left _ Hloop) in Hfuel. lia.
      * destruct (decide (method r = DELETE)) as [Hm|Hm].
        -- by rewrite (_IssueTokensRequestForUser_loop_refused _ _ _ _ _ _ _ _ _
                         Hloop Hex Hretry (or_introl Hm)).
        -- destruct (decide (status = 404)) as [->|H404].
           ++ by rewrite (_IssueTokensRequestForUser_loop_404 _ _ _ _ _ _ _ _
                            Hloop Hm Hex).
           ++ by rewrite (_IssueTokensRequestForUser_loop_refused _ _ _ _ _ _ _ _ _
                            Hloop Hex Hretry (or_intror H404)).
Qed.

(** [_ProcessUserListPage] and [_IssueTokensRequestForUser] as the source
    calls them never run out of fuel. *)
Lemma request_loops_total :
  (forall apps_domain max_page next_page_token query_filter (s : state W),
      (_ProcessUserListPage execute randint_0_1000 apps_domain max_page
         next_page_token query_filter s).1 <> OutOfFuel) /\
  (forall r (s : state W),
      (_IssueTokensRequestForUser execute randint_0_1000 r s).1 <> OutOfFuel).
Proof.
  split; intros.
  - by apply _ProcessUserListPage_loop_total.
  - by apply _IssueTokensRequestForUser_loop_total.
Qed.

End TotalFacts.

(** * Further properties *)

(** ** GetUsersInDomain *)

Section ReportFacts.
Variable isspace : ascii -> bool.

Lemma users_of_client_nil target u : ~ users_of_client isspace [] target u.
Proof. intros (? & ? & ? & Hin & _). by apply elem_of_nil in Hin. Qed.

Lemma users_of_client_cons stat_key user_list items scope client_id target u :
  UnpackStatKey isspace stat_key = [scope; client_id] ->
  users_of_client isspace ((stat_key, user_list) :: items) target u
  <-> (client_id = target /\ u ∈ user_list) \/ users_of_client isspace items target u.
Proof.
  intros Hkey. unfold users_of_client. split.
  - intros (k & ul & sc & Hin & Hk & Hu).
    apply elem_of_cons in Hin as [[= -> ->]|Hin].
    + rewrite Hkey in Hk. injection Hk as -> ->. by left.
    + right. by exists k, ul, sc.
  - intros [[-> Hu]|(k & ul & sc & Hin & Hk & Hu)].
    + exists stat_key, user_list, scope. split; [by left|done].
    + exists k, ul, sc. split; [by right|done].
Qed.

Lemma well_formed_keys_cons stat_key user_list items :
  well_formed_keys isspace ((stat_key, user_list) :: items)
  <-> (exists scope client_id, UnpackStatKey isspace stat_key = [scope; client_id])
      /\ well_formed_keys isspace items.
Proof. unfold well_formed_keys. by rewrite Forall_cons. Qed.

(** The loop either returns the users collected so far and the ones of the
    items, all keys unpacking, or stops at a key that does not unpack. *)
Lemma GetUsersInDomain_loop_run items target (X : gset string) :
  match GetUsersInDomain_loop isspace items target X with
  | Return X' =>
      well_formed_keys isspace items /\
      forall u, u ∈ X' <-> u ∈ X \/ users_of_client isspace items target u
  | Raise e => ~ well_formed_keys isspace items /\ exc_class e = ValueError
  | OutOfFuel => False
  end.
Proof.
  revert X. induction items as [|[stat_key user_list] items IH]; intros X.
  - cbn. split; [constructor|]. intros u. split; [by left|].
    intros [H|H]; [done|]. by apply users_of_client_nil in H.
  - cbn [GetUsersInDomain_loop].
    destruct (UnpackStatKey isspace stat_key) as [|scope [|client_id [|extra parts]]] eqn:Hkey.
    + split; [|done]. rewrite well_formed_keys_cons. intros [(? & ? & ?) _]. congruence.
    + split; [|done]. rewrite well_formed_keys_cons. intros [(? & ? & ?) _]. congruence.
    + specialize (IH (if decide (client_id = target)
                      then X ∪ list_to_set user_list else X)).
      destruct (GetUsersInDomain_loop _ _ _ _) as [X'|e|]; [|rewrite well_formed_keys_cons; tauto|done].
      destruct IH as [Hwf IH]. split.
      * apply well_formed_keys_cons. split; [by exists scope, client_id|done].
      * intros u. rewrite IH, (users_of_client_cons _ _ _ _ _ _ _ Hkey).
        destruct (decide (client_id = target)) as [->|Hne].
        -- rewrite elem_of_union, elem_of_list_to_set. naive_solver.
        -- naive_solver.
    + split; [|done]. rewrite well_formed_keys_cons. intros [(? & ? & ?) _]. congruence.
Qed.

(** [GetUsersInDomain] returns, in strictly increasing order, exactly the
    users of the items whose key unpacks to the target client id, when
    every key unpacks into two parts; with a key that does not, it raises
    ValueError. *)
Theorem GetUsersInDomain_sorted_users (items : list (string * list string))
    (target_client_id : string) :
  match GetUsersInDomain isspace items target_client_id with
  | Return users =>
      well_formed_keys isspace items /\
      StronglySorted (fun a b => String.ltb a b = true) users /\
      forall u, u ∈ users <-> users_of_client isspace items target_client_id u
  | Raise e => ~ well_formed_keys isspace items /\ exc_class e = ValueError
  | OutOfFuel => False
  end.
Proof.
  unfold GetUsersInDomain.
  pose proof (GetUsersInDomain_loop_run items target_client_id ∅) as Hloop.
  destruct (GetUsersInDomain_loop _ _ _ _) as [X|e|]; [|done|done].
  destruct Hloop as [Hwf Hin]. split; [done|]. split; [apply sorted_strictly|].
  intros u. rewrite sorted_elem, Hin, elem_of_empty. naive_solver.
Qed.

End ReportFacts.

(** ** The plan for one black-listed client *)

Section ClientPlanFacts.
Variable isspace : ascii -> bool.

Lemma sorted_singleton (c : string) : sorted {[c]} = [c].
Proof. unfold sorted. by rewrite elements_singleton. Qed.

Lemma sorted_empty : sorted ∅ = [].
Proof. unfold sorted. by rewrite elements_empty. Qed.

(** A key of the dictionary of tokens to revoke was there before, or is the
    client id of an item that a black list flags. *)
Lemma identified_from_dom self items (d : gmap string (gset string)) c :
  c ∈ dom (foldl (identify_item isspace self) d items) ->
  c ∈ dom d \/
  exists scope, _IsRevokedByClientBlacklist self scope c = true \/
                _IsRevokedByScopeBlacklist self scope c = true.
Proof.
  revert d. induction items as [|[stat_key user_list] items IH]; intros d; [by left|].
  cbn [foldl]. intros [Hd|Hd]%IH; [|by right].
  unfold identify_item in Hd. cbn [fst snd] in Hd.
  destruct (UnpackStatKey isspace stat_key) as [|scope [|client_id [|? ?]]];
    try by left.
  unfold apply_blacklist_filters in Hd. cbn [foldl] in Hd.
  destruct (_IsRevokedByClientBlacklist self scope client_id) eqn:H1;
    destruct (_IsRevokedByScopeBlacklist self scope client_id) eqn:H2;
    unfold add_users in Hd; rewrite ?dom_insert_L in Hd.
  - assert (c ∈ dom d \/ c = client_id) as [?| ->] by set_solver; [by left|].
    right. exists scope. by left.
  - assert (c ∈ dom d \/ c = client_id) as [?| ->] by set_solver; [by left|].
    right. exists scope. by left.
  - assert (c ∈ dom d \/ c = client_id) as [?| ->] by set_solver; [by left|].
    right. exists scope. by right.
  - by left.
Qed.

Lemma client_rule_singleton self scope c c' :
  _client_blacklist_set self = {[c]} ->
  _IsRevokedByClientBlacklist self scope c' = bool_decide (c' = c).
Proof.
  intros Hbl. unfold _IsRevokedByClientBlacklist. rewrite Hbl.
  rewrite decide_False by (apply non_empty_singleton_L).
  apply bool_decide_ext. apply elem_of_singleton.
Qed.

Lemma scope_rule_empty self scope c :
  _scope_blacklist_set self = ∅ ->
  _IsRevokedByScopeBlacklist self scope c = false.
Proof.
  intros Hbl. unfold _IsRevokedByScopeBlacklist. rewrite Hbl.
  destruct (decide (scope = "")); [done|].
  apply bool_decide_eq_false. intros H. apply H. set_solver.
Qed.

(** With the client black list {c} and no scope black list, the calls of a
    new revoker are the users [GetUsersInDomain] lists for [c], each with
    [c], in the same order. *)
Theorem revoke_plan_of_one_client (self : TokenRevoker)
    (items : list (string * list string)) (c : string) (users : list string) :
  _client_blacklist_set self = {[c]} ->
  _scope_blacklist_set self = ∅ ->
  _tokens_to_revoke self = ∅ ->
  GetUsersInDomain isspace items c = Return users ->
  revoke_plan (identified isspace self items) = map (fun u => (u, c)) users.
Proof.
  intros Hcl Hsc Hnew Hget.
  unfold GetUsersInDomain in Hget.
  pose proof (GetUsersInDomain_loop_run isspace items c ∅) as Hloop.
  destruct (GetUsersInDomain_loop _ _ _ _) as [X|e|]; [|done|done].
  injection Hget as <-. destruct Hloop as [Hwf HX].
  set (d := identified isspace self items).
  assert (Hd : default ∅ (d !! c) = X).
  { apply set_eq. intros u. unfold d, identified.
    rewrite (identified_from_lookup isspace self items _ c u Hwf), Hnew, lookup_empty.
    rewrite HX. cbn. rewrite !elem_of_empty. unfold flagged, users_of_client.
    split.
    - intros [[]|(k & ul & sc & Hin & Hk & _ & Hu)]. right. by exists k, ul, sc.
    - intros [[]|(k & ul & sc & Hin & Hk & Hu)]. right. exists k, ul, sc.
      split; [done|]. split; [done|]. split; [|done].
      left. rewrite (client_rule_singleton _ _ c) by done. by apply bool_decide_eq_true. }
  assert (Hdom : dom d ⊆ {[c]}).
  { intros c' Hc'. unfold d, identified in Hc'.
    apply identified_from_dom in Hc' as [Hc'|(scope & [Hc'|Hc'])].
    - rewrite Hnew, dom_empty_L in Hc'. by apply elem_of_empty in Hc'.
    - rewrite (client_rule_singleton _ _ c) in Hc' by done.
      apply bool_decide_eq_true in Hc'. by apply elem_of_singleton.
    - by rewrite scope_rule_empty in Hc'. }
  unfold revoke_plan. fold d.
  destruct (decide (c ∈ dom d)) as [Hin|Hnot].
  - assert (dom d = {[c]}) as -> by set_solver.
    rewrite sorted_singleton. cbn. by rewrite Hd, app_nil_r.
  - assert (dom d = ∅) as -> by set_solver.
    rewrite sorted_empty. cbn.
    apply not_elem_of_dom in Hnot. rewrite Hnot in Hd. cbn in Hd. subst X.
    by rewrite sorted_empty.
Qed.

End ClientPlanFacts.

(** The witness: the example statistics and the client black list
    {"client1"}. *)
Lemma revoke_plan_of_one_client_witness :
  _client_blacklist_set example_revoker = {["client1"]} /\
  _scope_blacklist_set example_revoker = ∅ /\
  _tokens_to_revoke example_revoker = ∅ /\
  GetUsersInDomain str_isspace example_token_data "client1" = Return ["u1"; "u2"] /\
  revoke_plan (identified str_isspace example_revoker example_token_data)
  = map (fun u => (u, "client1")) ["u1"; "u2"].
Proof.
  assert (H1 : _client_blacklist_set example_revoker = {["client1"]})
    by (cbn; set_solver).
  assert (H4 : GetUsersInDomain str_isspace example_token_data "client1"
               = Return ["u1"; "u2"]) by (vm_compute; reflexivity).
  split; [exact H1|]. split; [reflexivity|]. split; [reflexivity|]. split; [exact H4|].
  exact (revoke_plan_of_one_client str_isspace example_revoker example_token_data
           "client1" ["u1"; "u2"] H1 eq_refl eq_refl H4).
Defined.

(** ** SummarizeTokenStats and the rankings *)

Section SummaryFacts.
Variable isspace : ascii -> bool.
Implicit Types (self : TokenStats) (l : list (gset string * gset string)).

(** The loop of [AddToken] entry by entry. *)
Lemma AddToken_loop_entries secondary (user_set : gset string) l found :
  (AddToken_loop secondary user_set l found).2
  = (fun token => if decide (user_set = token.2)
                  then (token.1 ∪ {[secondary]}, token.2) else token) <$> l.
Proof.
  revert found. induction l as [|[ss us] l IH]; intros found; [done|].
  cbn [AddToken_loop]. rewrite fmap_cons. cbn [fst snd].
  destruct (decide (user_set = us)).
  - specialize (IH true). destruct (AddToken_loop _ _ l true). cbn [snd] in *.
    by rewrite IH.
  - specialize (IH found). destruct (AddToken_loop _ _ l found). cbn [snd] in *.
    by rewrite IH.
Qed.

Lemma AddToken_lookup_ne primary secondary users self p :
  primary <> p -> AddToken primary secondary users self !! p = self !! p.
Proof.
  intros Hne. unfold AddToken. destruct (AddToken_loop _ _ _ _).
  by rewrite lookup_insert_ne.
Qed.

(** What [AddToken] indexes: what was indexed, and the new triple. *)
Lemma AddToken_indexed primary secondary users self p s (U : gset string) :
  indexed (AddToken primary secondary users self) p s U
  <-> indexed self p s U \/ (p = primary /\ s = secondary /\ U = list_to_set users).
Proof.
  unfold indexed. destruct (decide (primary = p)) as [<-|Hne].
  2: { rewrite AddToken_lookup_ne by done. naive_solver. }
  rewrite AddToken_lookup. cbn [default].
  set (user_set := list_to_set users : gset string).
  set (before := default [] (self !! primary)).
  destruct (bool_decide (user_set ∈ before.*2)) eqn:Hfound.
  - apply bool_decide_eq_true in Hfound.
    rewrite AddToken_loop_entries. split.
    + intros (token & Hin & Hs & HU).
      apply list_elem_of_fmap in Hin as ([ss us] & -> & Hin). cbn [fst snd] in *.
      destruct (decide (user_set = us)) as [->|Hne]; cbn [fst snd] in *.
      * apply elem_of_union in Hs as [Hs|Hs%elem_of_singleton].
        -- left. by exists (ss, us).
        -- right. by subst.
      * left. by exists (ss, us).
    + intros [(token & Hin & Hs & HU)|(_ & -> & ->)].
      * destruct token as [ss us]. cbn [fst snd] in *.
        eexists. split; [apply list_elem_of_fmap; exists (ss, us); by split|].
        cbn [fst snd]. destruct (decide (user_set = us)); cbn [fst snd]; [|done].
        split; [set_solver|done].
      * apply list_elem_of_fmap in Hfound as ([ss us] & Hus & Hin). cbn in Hus.
        eexists. split; [apply list_elem_of_fmap; exists (ss, us); by split|].
        cbn [fst snd]. rewrite decide_True by done. cbn [fst snd].
        split; [set_solver|done].
  - setoid_rewrite elem_of_app. setoid_rewrite list_elem_of_singleton. split.
    + intros (token & [Hin| ->] & Hs & HU); [left; by exists token|].
      cbn [fst snd] in *. apply elem_of_singleton in Hs. right. by subst.
    + intros [(token & Hin & Hs & HU)|(_ & -> & ->)].
      * exists token. split; [by left|done].
      * eexists. split; [by right|]. cbn [fst snd]. split; [set_solver|done].
Qed.

(** The user sets [AddToken] leaves under a primary key. *)
Lemma AddToken_has_user_set primary secondary users self p (U : gset string) :
  has_user_set (AddToken primary secondary users self) p U
  <-> has_user_set self p U \/ (p = primary /\ U = list_to_set users).
Proof.
  unfold has_user_set. destruct (decide (primary = p)) as [<-|Hne].
  2: { rewrite AddToken_lookup_ne by done. naive_solver. }
  rewrite AddToken_lookup. cbn [default].
  set (user_set := list_to_set users : gset string).
  set (before := default [] (self !! primary)).
  assert (Hsets : forall l' : list (gset string * gset string),
             (exists token, token ∈ l' /\ token.2 = U) <-> U ∈ l'.*2).
  { intros l'. rewrite list_elem_of_fmap. naive_solver. }
  rewrite !Hsets.
  destruct (bool_decide (user_set ∈ before.*2)) eqn:Hfound.
  - apply bool_decide_eq_true in Hfound. unfold id.
    rewrite AddToken_loop_user_sets. naive_solver.
  - unfold id. rewrite fmap_app, elem_of_app. cbn. rewrite list_elem_of_singleton.
    naive_solver.
Qed.

(** The loop of [SummarizeTokenStats]: it returns when every key unpacks,
    and then each index holds what it held and the items. *)
Lemma SummarizeTokenStats_loop_run items (cs ss : TokenStats) :
  match SummarizeTokenStats_loop isspace items cs ss with
  | Return (cs', ss') =>
      well_formed_keys isspace items /\
      (distinct_user_sets cs -> distinct_user_sets cs') /\
      (distinct_user_sets ss -> distinct_user_sets ss') /\
      (forall s c U, indexed cs' c s U <-> indexed cs c s U \/ has_item isspace items s c U) /\
      (forall s c U, indexed ss' s c U <-> indexed ss s c U \/ has_item isspace items s c U) /\
      (forall c U, has_user_set cs' c U
                   <-> has_user_set cs c U \/ exists s, has_item isspace items s c U)
  | Raise e => ~ well_formed_keys isspace items /\ exc_class e = ValueError
  | OutOfFuel => False
  end.
Proof.
  assert (Hnil : forall s c U, ~ has_item isspace [] s c U).
  { intros s c U (? & ? & Hin & _). by apply elem_of_nil in Hin. }
  assert (Hcons : forall k ul rest sc cl s c U,
             UnpackStatKey isspace k = [sc; cl] ->
             has_item isspace ((k, ul) :: rest) s c U
             <-> (s = sc /\ c = cl /\ U = list_to_set ul) \/ has_item isspace rest s c U).
  { intros k ul rest sc cl s c U Hk. unfold has_item. split.
    - intros (k' & ul' & Hin & Hk' & HU).
      apply elem_of_cons in Hin as [[= -> ->]|Hin].
      + rewrite Hk in Hk'. injection Hk' as -> ->. by left.
      + right. by exists k', ul'.
    - intros [(-> & -> & ->)|(k' & ul' & Hin & Hk' & HU)].
      + exists k, ul. split; [by left|done].
      + exists k', ul'. split; [by right|done]. }
  revert cs ss. induction items as [|[stat_key user_list] items IH]; intros cs ss.
  - cbn. split; [constructor|]. repeat split; try done; try (by left);
      try (intros [H|H]; [done|]); try (by apply Hnil in H).
    destruct H as [s H]. by apply Hnil in H.
  - cbn [SummarizeTokenStats_loop].
    destruct (UnpackStatKey isspace stat_key) as [|scope [|client_id [|? ?]]] eqn:Hkey.
    + split; [|done]. rewrite well_formed_keys_cons. intros [(? & ? & ?) _]. congruence.
    + split; [|done]. rewrite well_formed_keys_cons. intros [(? & ? & ?) _]. congruence.
    + specialize (IH (AddToken client_id scope user_list cs)
                     (AddToken scope client_id user_list ss)).
      destruct (SummarizeTokenStats_loop _ _ _ _) as [[cs' ss']|e|];
        [|rewrite well_formed_keys_cons; tauto|done].
      destruct IH as (Hwf & Hdc & Hds & Hic & His & Hus).
      split; [apply well_formed_keys_cons; split; [by exists scope, client_id|done]|].
      split; [intros H; by apply Hdc, AddToken_distinct|].
      split; [intros H; by apply Hds, AddToken_distinct|].
      split; [|split].
      * intros s c U. rewrite Hic, AddToken_indexed, (Hcons _ _ _ _ _ _ _ _ Hkey).
        naive_solver.
      * intros s c U. rewrite His, AddToken_indexed, (Hcons _ _ _ _ _ _ _ _ Hkey).
        naive_solver.
      * intros c U. rewrite Hus, AddToken_has_user_set.
        setoid_rewrite (Hcons _ _ _ _ _ _ _ _ Hkey). naive_solver.
    + split; [|done]. rewrite well_formed_keys_cons. intros [(? & ? & ?) _]. congruence.
Qed.

(** [SummarizeTokenStats] returns two indexes of the same items: a scope is
    filed under a client id with a user set in the first exactly when the
    client id is filed under the scope with that user set in the second,
    which is exactly when an item of the statistics has that scope, client
    id and user set.  Under each key the user sets are pairwise distinct.
    With a key that does not unpack it raises ValueError. *)
Theorem SummarizeTokenStats_indexes (items : list (string * list string)) :
  match SummarizeTokenStats isspace items with
  | Return (client_id_summary, scope_summary) =>
      well_formed_keys isspace items /\
      distinct_user_sets client_id_summary /\
      distinct_user_sets scope_summary /\
      forall scope client_id U,
        (indexed client_id_summary client_id scope U
         <-> has_item isspace items scope client_id U) /\
        (indexed scope_summary scope client_id U
         <-> has_item isspace items scope client_id U)
  | Raise e => ~ well_formed_keys isspace items /\ exc_class e = ValueError
  | OutOfFuel => False
  end.
Proof.
  unfold SummarizeTokenStats.
  pose proof (SummarizeTokenStats_loop_run items TokenStats_init TokenStats_init) as H.
  destruct (SummarizeTokenStats_loop _ _ _ _) as [[cs ss]|e|]; [|done|done].
  destruct H as (Hwf & Hdc & Hds & Hic & His & _).
  assert (Hempty : forall p s U, ~ indexed TokenStats_init p s U).
  { intros p s U (token & Hin & _). unfold TokenStats_init in Hin.
    rewrite lookup_empty in Hin. by apply elem_of_nil in Hin. }
  split; [done|].
  split; [apply Hdc, distinct_user_sets_init|].
  split; [apply Hds, distinct_user_sets_init|].
  intros s c U. rewrite Hic, His. split; split; try (by right);
    (intros [H|H]; [by apply Hempty in H|done]).
Qed.

(** The keys of the first index. *)
Lemma AddToken_dom primary secondary users self :
  dom (AddToken primary secondary users self) = {[primary]} ∪ dom self.
Proof. unfold AddToken. destruct (AddToken_loop _ _ _ _). by rewrite dom_insert_L. Qed.

Lemma has_item_nil s c U : ~ has_item isspace [] s c U.
Proof. intros (? & ? & Hin & _). by apply elem_of_nil in Hin. Qed.

Lemma has_item_cons k ul rest sc cl s c U :
  UnpackStatKey isspace k = [sc; cl] ->
  has_item isspace ((k, ul) :: rest) s c U
  <-> (s = sc /\ c = cl /\ U = list_to_set ul) \/ has_item isspace rest s c U.
Proof.
  intros Hk. unfold has_item. split.
  - intros (k' & ul' & Hin & Hk' & HU).
    apply elem_of_cons in Hin as [[= -> ->]|Hin].
    + rewrite Hk in Hk'. injection Hk' as -> ->. by left.
    + right. by exists k', ul'.
  - intros [(-> & -> & ->)|(k' & ul' & Hin & Hk' & HU)].
    + exists k, ul. split; [by left|done].
    + exists k', ul'. split; [by right|done].
Qed.

Lemma SummarizeTokenStats_loop_dom items (cs ss cs' ss' : TokenStats) :
  SummarizeTokenStats_loop isspace items cs ss = Return (cs', ss') ->
  forall c, c ∈ dom cs' <-> c ∈ dom cs \/ exists s U, has_item isspace items s c U.
Proof.
  revert cs ss. induction items as [|[stat_key user_list] items IH]; intros cs ss.
  - cbn. intros [= -> ->] c. split; [by left|].
    intros [H|(s & U & H)]; [done|]. by apply has_item_nil in H.
  - cbn [SummarizeTokenStats_loop].
    destruct (UnpackStatKey isspace stat_key) as [|scope [|client_id [|? ?]]] eqn:Hkey;
      try done.
    intros Hrun c. rewrite (IH _ _ Hrun c), AddToken_dom.
    setoid_rewrite (has_item_cons _ _ _ _ _ _ _ _ Hkey).
    rewrite elem_of_union, elem_of_singleton. naive_solver.
Qed.

(** The users [CalculateRankings] counts for one primary key. *)
Lemma primary_user_set_elem l (u : string) :
  u ∈ primary_user_set l <-> exists token, token ∈ l /\ u ∈ token.2.
Proof.
  unfold primary_user_set.
  assert (H : forall acc : gset string,
             u ∈ foldl (fun acc token => acc ∪ token.2) acc l
             <-> u ∈ acc \/ exists token, token ∈ l /\ u ∈ token.2).
  { induction l as [|token l IH]; intros acc; cbn [foldl].
    - split; [by left|]. intros [H|(? & Hin & _)]; [done|]. by apply elem_of_nil in Hin.
    - rewrite IH, elem_of_union. setoid_rewrite elem_of_cons. naive_solver. }
  rewrite H, elem_of_empty. naive_solver.
Qed.

(** The loop of [CalculateRankings] leaves the other keys alone. *)
Lemma CalculateRankings_foldl_other
    (order : list (string * list (gset string * gset string))) (r : Counter) c :
  c ∉ order.*1 ->
  foldl (fun results item =>
           Increment item.1 (Z.of_nat (size (primary_user_set item.2))) results)
        r order !! c = r !! c.
Proof.
  revert r. induction order as [|[k l] order IH]; intros r Hnot; [done|].
  rewrite fmap_cons in Hnot. apply not_elem_of_cons in Hnot as [Hne Hnot].
  cbn [foldl fst snd]. rewrite IH by done. unfold Increment.
  by rewrite lookup_insert_ne.
Qed.

Lemma CalculateRankings_foldl_key
    (order : list (string * list (gset string * gset string))) (r : Counter) c l :
  NoDup order.*1 -> (c, l) ∈ order -> r !! c = None ->
  foldl (fun results item =>
           Increment item.1 (Z.of_nat (size (primary_user_set item.2))) results)
        r order !! c = Some (Z.of_nat (size (primary_user_set l))).
Proof.
  revert r. induction order as [|[k l'] order IH]; intros r Hnd Hin Hr.
  - by apply elem_of_nil in Hin.
  - rewrite fmap_cons in Hnd. apply NoDup_cons in Hnd as [Hhd Hnd]. cbn [fst] in Hhd.
    cbn [foldl fst snd]. apply elem_of_cons in Hin as [[= <- <-]|Hin].
    + rewrite CalculateRankings_foldl_other by done. unfold Increment.
      rewrite lookup_insert_eq, Hr. done.
    + assert (k <> c).
      { intros ->. apply Hhd. apply list_elem_of_fmap. by exists (c, l). }
      apply IH; [done|done|]. unfold Increment. by rewrite lookup_insert_ne.
Qed.

(** [CalculateRankings] over the items of a dict, in any order. *)
Lemma CalculateRankings_over_lookup (self : TokenStats)
    (order : list (string * list (gset string * gset string))) c :
  order ≡ₚ map_to_list self ->
  CalculateRankings_over order !! c
  = (fun l => Z.of_nat (size (primary_user_set l))) <$> self !! c.
Proof.
  intros Hperm. unfold CalculateRankings_over.
  assert (Hnd : NoDup order.*1) by (rewrite Hperm; apply NoDup_fst_map_to_list).
  destruct (self !! c) as [l|] eqn:Hc; cbn.
  - apply CalculateRankings_foldl_key; [done| |done].
    rewrite Hperm. by apply elem_of_map_to_list.
  - rewrite CalculateRankings_foldl_other; [done|].
    intros ([k l] & -> & Hin)%list_elem_of_fmap. rewrite Hperm in Hin.
    apply elem_of_map_to_list in Hin. cbn in Hc. congruence.
Qed.

Lemma len_sorted (X : gset string) : len (sorted X) = Z.of_nat (size X).
Proof.
  unfold len, sorted. f_equal.
  by rewrite (Permutation_length (merge_sort_Permutation string_le (elements X))).
Qed.

(** The count [CalculateRankings] gives a client id in the index by client
    id of [SummarizeTokenStats] is the number of users [GetUsersInDomain]
    returns for it, whatever the order in which the dict is iterated; and a
    client id has a count exactly when an item of the statistics is for it. *)
Theorem CalculateRankings_counts_users (items : list (string * list string))
    (client_id_summary scope_summary : TokenStats)
    (order : list (string * list (gset string * gset string)))
    (client_id : string) (users : list string) :
  SummarizeTokenStats isspace items = Return (client_id_summary, scope_summary) ->
  order ≡ₚ map_to_list client_id_summary ->
  GetUsersInDomain isspace items client_id = Return users ->
  default 0 (CalculateRankings_over order !! client_id) = len users /\
  (is_Some (CalculateRankings_over order !! client_id)
   <-> exists scope U, has_item isspace items scope client_id U).
Proof.
  intros Hsum Hperm Husers. rewrite (CalculateRankings_over_lookup _ _ _ Hperm).
  unfold SummarizeTokenStats in Hsum.
  pose proof (SummarizeTokenStats_loop_dom _ _ _ _ _ Hsum client_id) as Hdom.
  pose proof (SummarizeTokenStats_loop_run items TokenStats_init TokenStats_init) as Hrun.
  rewrite Hsum in Hrun. destruct Hrun as (_ & _ & _ & _ & _ & Hus).
  unfold GetUsersInDomain in Husers.
  pose proof (GetUsersInDomain_loop_run isspace items client_id ∅) as Hloop.
  destruct (GetUsersInDomain_loop _ _ _ _) as [X|e|]; [|done|done].
  injection Husers as <-. destruct Hloop as [_ HX].
  split.
  - rewrite len_sorted.
    assert (HXeq : X = primary_user_set (default [] (client_id_summary !! client_id))).
    { apply set_eq. intros u. rewrite HX, primary_user_set_elem, elem_of_empty.
      split.
      - intros [[]|(k & ul & sc & Hin & Hk & Hu)].
        destruct (proj2 (Hus client_id (list_to_set ul))) as (token & Htok & HU).
        { right. exists sc, k, ul. done. }
        exists token. split; [done|]. rewrite HU. by apply elem_of_list_to_set.
      - intros (token & Htok & Hu). right.
        destruct (proj1 (Hus client_id token.2)) as [(t' & Ht' & _)|(sc & k & ul & Hin & Hk & HU)].
        { by exists token. }
        { unfold TokenStats_init in Ht'. rewrite lookup_empty in Ht'.
          by apply elem_of_nil in Ht'. }
        exists k, ul, sc. split; [done|]. split; [done|].
        rewrite <- HU in Hu. by apply elem_of_list_to_set in Hu. }
    rewrite HXeq. by destruct (client_id_summary !! client_id).
  - rewrite fmap_is_Some, <- elem_of_dom, Hdom.
    unfold TokenStats_init. rewrite dom_empty_L, elem_of_empty. naive_solver.
Qed.

End SummaryFacts.

(** The witness: the example statistics, and the client id "client1" with
    its two users. *)
Lemma CalculateRankings_counts_users_witness :
  SummarizeTokenStats str_isspace example_token_data
  = Return (example_summary.1, example_summary.2) /\
  map_to_list example_summary.1 ≡ₚ map_to_list example_summary.1 /\
  GetUsersInDomain str_isspace example_token_data "client1" = Return ["u1"; "u2"] /\
  default 0 (CalculateRankings_over (map_to_list example_summary.1) !! "client1")
  = len ["u1"; "u2"] /\
  (is_Some (CalculateRankings_over (map_to_list example_summary.1) !! "client1")
   <-> exists scope U, has_item str_isspace example_token_data scope "client1" U).
Proof.
  assert (H1 : SummarizeTokenStats str_isspace example_token_data
               = Return (example_summary.1, example_summary.2))
    by (vm_compute; reflexivity).
  assert (H3 : GetUsersInDomain str_isspace example_token_data "client1"
               = Return ["u1"; "u2"]) by (vm_compute; reflexivity).
  split; [exact H1|]. split; [reflexivity|]. split; [exact H3|].
  exact (CalculateRankings_counts_users str_isspace example_token_data
           example_summary.1 example_summary.2 (map_to_list example_summary.1)
           "client1" ["u1"; "u2"] H1 (reflexivity _) H3).
Defined.

(** ** Sorting by descending key *)

Section SortFacts.
Context {A : Type}.
Variable key : A -> Z.

Lemma insert_desc_Permutation (x : A) (l : list A) : insert_desc key x l ≡ₚ x :: l.
Proof.
  induction l as [|y l IH]; cbn [insert_desc]; [done|].
  destruct (key x <? key y); [|done]. rewrite IH. apply Permutation_swap.
Qed.

Lemma sorted_desc_Permutation (l : list A) : sorted_desc key l ≡ₚ l.
Proof.
  induction l as [|x l IH]; [done|].
  unfold sorted_desc in *. cbn [foldr]. by rewrite insert_desc_Permutation, IH.
Qed.

Lemma insert_desc_sorted (x : A) (l : list A) :
  StronglySorted (fun a b => key b <= key a) l ->
  StronglySorted (fun a b => key b <= key a) (insert_desc key x l).
Proof.
  induction 1 as [|y l Hs IH Hall]; cbn [insert_desc].
  - repeat constructor.
  - destruct (key x <? key y) eqn:Hlt.
    + apply Z.ltb_lt in Hlt. constructor; [done|].
      rewrite insert_desc_Permutation. constructor; [lia|done].
    + apply Z.ltb_ge in Hlt. constructor; [by constructor|].
      constructor; [done|]. eapply Forall_impl; [exact Hall|]. cbn. intros; lia.
Qed.

Lemma sorted_desc_sorted (l : list A) :
  StronglySorted (fun a b => key b <= key a) (sorted_desc key l).
Proof.
  induction l as [|x l IH]; [constructor|].
  unfold sorted_desc in *. cbn [foldr]. by apply insert_desc_sorted.
Qed.

(** The sort is stable: the items a predicate on the key selects come out
    in the order they went in. *)
Lemma insert_desc_filter (P : A -> Prop) `{!forall x, Decision (P x)} (x : A) (l : list A) :
  (forall a b, P a -> P b -> key a = key b) ->
  filter P (insert_desc key x l) = filter P (x :: l).
Proof.
  intros HP. induction l as [|y l IH]; cbn [insert_desc]; [done|].
  destruct (key x <? key y) eqn:Hlt; [|done]. apply Z.ltb_lt in Hlt.
  rewrite (filter_cons _ y), IH, !filter_cons.
  destruct (decide (P y)) as [Hy|Hy]; [|done].
  destruct (decide (P x)) as [Hx|Hx]; [|done].
  specialize (HP _ _ Hx Hy). lia.
Qed.

Lemma sorted_desc_filter (P : A -> Prop) `{!forall x, Decision (P x)} (l : list A) :
  (forall a b, P a -> P b -> key a = key b) ->
  filter P (sorted_desc key l) = filter P l.
Proof.
  intros HP. induction l as [|x l IH]; [done|].
  unfold sorted_desc in *. cbn [foldr]. rewrite insert_desc_filter by done.
  by rewrite !filter_cons, IH.
Qed.

End SortFacts.

(** ** GetTokenList *)

(** [GetTokenList] returns the entries of the primary key, each once, the
    larger user sets first, and the entries with user sets of one size in
    the order they have in the map; for a key the map does not have it
    returns the empty list. *)
Theorem GetTokenList_largest_first (primary : string) (self : TokenStats) :
  let token_list := GetTokenList primary self in
  token_list ≡ₚ default [] (self !! primary) /\
  StronglySorted (fun a b => (size b.2 <= size a.2)%nat) token_list /\
  (forall n : nat,
      filter (fun x => size x.2 = n) token_list
      = filter (fun x => size x.2 = n) (default [] (self !! primary))) /\
  (self !! primary = None -> token_list = []).
Proof.
  cbv zeta.
  assert (Heq : GetTokenList primary self
                = sorted_desc (fun x => Z.of_nat (size x.2)) (default [] (self !! primary))).
  { unfold GetTokenList. by destruct (default [] (self !! primary)). }
  rewrite Heq. split; [apply sorted_desc_Permutation|]. split; [|split].
  - pose proof (sorted_desc_sorted (fun x : gset string * gset string =>
                                      Z.of_nat (size x.2))
                  (default [] (self !! primary))) as Hs.
    clear Heq. induction Hs as [|x l Hs IH Hall]; [constructor|].
    constructor; [done|].
    eapply Forall_impl; [exact Hall|]. cbn. intros; lia.
  - intros n. apply sorted_desc_filter. intros a b Ha Hb. congruence.
  - intros ->. done.
Qed.

(** ** Counter *)

Lemma after_increments_snoc calls counter_key counter_increment :
  after_increments (calls ++ [(counter_key, counter_increment)])
  = Increment counter_key counter_increment (after_increments calls).
Proof. unfold after_increments. by rewrite foldl_app. Qed.

(** The count of a key is the sum of the increments it was given, and the
    keys of the counter are the keys that were incremented. *)
Theorem after_increments_adds_up (calls : list (string * Z)) (counter_key : string) :
  default 0 (after_increments calls !! counter_key) = increments_of counter_key calls /\
  (is_Some (after_increments calls !! counter_key) <-> counter_key ∈ calls.*1).
Proof.
  induction calls as [|[k v] calls [IHsum IHkey]] using rev_ind.
  - split; [done|]. unfold after_increments, Counter_init. cbn.
    rewrite lookup_empty. split; [by intros [? ?]|by intros ?%elem_of_nil].
  - rewrite after_increments_snoc. unfold Increment, increments_of in *.
    rewrite filter_app, !fmap_app, foldr_app, elem_of_app, filter_cons, filter_nil.
    cbn [fst snd]. destruct (decide (k = counter_key)) as [->|Hne].
    + rewrite lookup_insert_eq. cbn. split.
      * rewrite IHsum. generalize (filter (fun c => c.1 = counter_key) calls).
        intros l. induction l as [|[k' v'] l IH]; cbn in *; lia.
      * split; [intros _; right; by left|by eexists].
    + rewrite lookup_insert_ne by done. cbn. split; [done|].
      rewrite IHkey. split; [by left|]. intros [H|H]; [done|].
      by apply list_elem_of_singleton in H.
Qed.

(** ** FilterAndSortMostCommon *)

Lemma py_slice_from_0 {A} (l : list A) (n : Z) :
  py_slice l 0 n = take (Z.to_nat (slice_bound (len l) n)) l.
Proof.
  unfold py_slice. assert (slice_bound (len l) 0 = 0) as ->.
  { unfold slice_bound, len. cbn. lia. }
  by rewrite Z.sub_0_r.
Qed.

(** [FilterAndSortMostCommon] returns items of the counter in descending
    order of their counts, and no item it leaves out has a larger count than
    one it returns.  Without [top_n], or with 0, it returns every item; a
    positive [top_n] gives that many items, or all when there are fewer; a
    negative [top_n] leaves out that many of the least common. *)
Theorem FilterAndSortMostCommon_most_common (results : list (string * Z))
    (top_n : option Z) :
  let top := FilterAndSortMostCommon results top_n in
  StronglySorted (fun a b => b.2 <= a.2) top /\
  (exists rest, top ++ rest ≡ₚ results /\
                forall x y, x ∈ top -> y ∈ rest -> y.2 <= x.2) /\
  len top = match top_n with
            | None | Some 0 => len results
            | Some n => if n <? 0 then Z.max 0 (len results + n)
                        else Z.min n (len results)
            end.
Proof.
  cbv zeta. unfold FilterAndSortMostCommon. rewrite py_slice_from_0.
  set (n := match top_n with None | Some 0 => len results | Some n => n end).
  set (m := Z.to_nat (slice_bound (len (sorted_desc snd results)) n)).
  pose proof (sorted_desc_sorted snd results) as Hs.
  pose proof (sorted_desc_Permutation snd results) as Hp.
  rewrite <- (take_drop m (sorted_desc snd results)) in Hs.
  apply StronglySorted_app in Hs as (Hdom & Htop & _).
  split; [done|]. split.
  - exists (drop m (sorted_desc snd results)). rewrite take_drop. split; [done|].
    intros x y Hx Hy. by apply Hdom.
  - unfold len at 1. rewrite length_take. subst m. unfold len at 1.
    rewrite (Permutation_length Hp). fold (len results).
    assert (0 <= len results) by (unfold len; lia).
    unfold slice_bound. subst n.
    destruct top_n as [[|p|p]|]; cbn [Z.ltb Z.compare]; unfold len in *;
      try destruct (Z.ltb_spec (Z.of_nat (length results)) 0); lia.
Qed.

(** ** The attempts of a request, whatever the remote API answers *)

Section AttemptFacts.
Context {W : Type}.
Variable execute : request -> W -> http_result * W.
Variable randint_0_1000 : W -> Z * W.

Lemma exc_class_refusal body : exc_class (refusal body) ∈ refusal_classes.
Proof.
  unfold refusal. destruct (parse_body body) as [e|text] eqn:Hparse.
  - by apply (parse_body_refusal_classes body).
  - unfold refusal_classes. set_solver.
Qed.

Lemma error_log_ParseHttpResult_lines status body :
  error_log (ParseHttpResult_lines status body) = [] /\
  revoke_calls (ParseHttpResult_lines status body) = [] /\
  sleeps (ParseHttpResult_lines status body) = [] /\
  executed (ParseHttpResult_lines status body) = [].
Proof. done. Qed.

(** One run of the loop of [_IssueTokensRequestForUser]: the requests it
    sends, the waits between them, and how it ends. *)
Lemma _IssueTokensRequestForUser_loop_attempts fuel r b (s : state W) :
  (attempts_left b <= fuel)%nat ->
  exists (n : nat) res s' t draws,
    _IssueTokensRequestForUser_loop execute randint_0_1000 fuel r b s = (res, s') /\
    trace s' = trace s ++ t /\
    executed t = replicate n r /\
    sleeps t = backoff_waits (retry b) draws /\
    Forall (fun d => exists w, d = (randint_0_1000 w).1) draws /\
    revoke_calls t = [] /\ error_log t = [] /\
    (n <= attempts_left b)%nat /\
    match res with
    | Return None => n = attempts_left b /\ length draws = n
    | Return (Some _) => n = S (length draws)
    | Raise e =>
        n = S (length draws) /\
        exc_class e ∈ refusal_classes
    | OutOfFuel => False
    end.
Proof.
  revert b s. induction fuel as [|fuel IH]; intros b s Hfuel.
  - assert (Hloop : Loop b = false).
    { unfold Loop, attempts_left in *. apply Z.ltb_ge. lia. }
    exists 0%nat, (Return None), s, [], [].
    cbn [_IssueTokensRequestForUser_loop]. rewrite Hloop.
    rewrite (Loop_false_attempts_left _ Hloop), app_nil_r. by repeat split.
  - destruct (Loop b) eqn:Hloop.
    2: { exists 0%nat, (Return None), s, [], [].
         cbn [_IssueTokensRequestForUser_loop]. rewrite Hloop.
         rewrite (Loop_false_attempts_left _ Hloop), app_nil_r. by repeat split. }
    pose proof (Loop_true_attempts_left _ Hloop) as Hleft.
    destruct ((execute r (world s)).1) as [doc|status uri body] eqn:Hex.
    + rewrite (_IssueTokensRequestForUser_loop_ok _ _ _ _ _ _ doc Hloop Hex).
      eexists 1%nat, _, _, [Execute r], []. cbn [trace].
      repeat split; try done. lia.
    + destruct (decide (status ∈ RETRY_RESPONSE_CODES)) as [Hretry|Hretry].
      * rewrite (_IssueTokensRequestForUser_loop_retry _ _ _ _ _ _ _ _ _ Hloop Hex Hretry).
        edestruct (IH (failed_once b)) as
          (n & res & s' & t & draws & Hrun & Htrace & Hexec & Hsleeps & Hdraws
           & Hcalls & Herr & Hn & Hres); [lia|].
        rewrite Hrun.
        exists (S n), res, s'. eexists.
        exists ((randint_0_1000 (execute r (world s)).2).1 :: draws).
        split; [done|]. rewrite Htrace. unfold after_retry. cbn [trace].
        rewrite <- app_assoc. split; [done|].
        unfold executed, sleeps, revoke_calls, error_log in *.
        rewrite !omap_app, List.filter_app, Hexec, Hsleeps, Hcalls, Herr.
        split; [done|]. split; [done|].
        split; [constructor; [by eexists|done]|].
        split; [done|]. split; [done|]. split; [lia|].
        destruct res as [[doc|]|e|]; cbn [length]; [lia| |split; [lia|tauto]|done].
        split; [lia|]. lia.
      * destruct (decide (method r = DELETE)) as [Hm|Hm].
        -- rewrite (_IssueTokensRequestForUser_loop_refused _ _ _ _ _ _ _ _ _
                      Hloop Hex Hretry (or_introl Hm)).
           eexists 1%nat, _, _, (Execute r :: ParseHttpResult_lines status body), [].
           cbn [trace]. repeat split; try done; [lia|apply exc_class_refusal].
        -- destruct (decide (status = 404)) as [->|H404].
           ++ rewrite (_IssueTokensRequestForUser_loop_404 _ _ _ _ _ _ _ _ Hloop Hm Hex).
              eexists 1%nat, _, _, [Execute r], []. cbn [trace].
              repeat split; try done. lia.
           ++ rewrite (_IssueTokensRequestForUser_loop_refused _ _ _ _ _ _ _ _ _
                         Hloop Hex Hretry (or_intror H404)).
              eexists 1%nat, _, _, (Execute r :: ParseHttpResult_lines status body), [].
              cbn [trace]. repeat split; try done; [lia|apply exc_class_refusal].
Qed.

Lemma length_backoff_waits (retry : Z) (draws : list Z) :
  length (backoff_waits retry draws) = length draws.
Proof.
  revert retry. induction draws as [|d draws IH]; intros retry; cbn; [done|].
  by rewrite IH.
Qed.

(** Each wait is the power of two of its attempt, plus at most a second. *)
Lemma backoff_waits_bounds (retry : Z) (draws : list Z) (i : nat) (d : Z) :
  0 <= retry ->
  Forall (fun draw => 0 <= draw <= 1000) draws ->
  backoff_waits retry draws !! i = Some d ->
  2 ^ (retry + 1 + Z.of_nat i) <= d <= 2 ^ (retry + 1 + Z.of_nat i) + 1.
Proof.
  intros Hretry Hdraws. revert retry Hretry i.
  induction Hdraws as [|draw draws Hdraw Hdraws IH]; intros retry Hretry i Hi; [done|].
  cbn [backoff_waits] in Hi. destruct i as [|i]; cbn in Hi.
  - injection Hi as <-. rewrite Z.add_0_r. unfold delay_s.
    assert (0 <= draw / 1000 <= 1).
    { split; [apply Z.div_pos; lia|]. apply Z.div_le_upper_bound; lia. }
    lia.
  - apply IH in Hi; [|lia].
    replace (retry + 1 + Z.of_nat (S i)) with (retry + 1 + 1 + Z.of_nat i) by lia.
    done.
Qed.

(** All the waits of a [Backoff] together. *)
Lemma backoff_waits_total (retry : Z) (draws : list Z) :
  0 <= retry ->
  Forall (fun draw => 0 <= draw <= 1000) draws ->
  foldr Z.add 0 (backoff_waits retry draws)
  <= 2 ^ (retry + 1 + len draws) - 2 ^ (retry + 1) + len draws.
Proof.
  intros Hretry Hdraws. revert retry Hretry.
  induction Hdraws as [|draw draws Hdraw Hdraws IH]; intros retry Hretry.
  - unfold len. cbn [backoff_waits foldr length]. change (Z.of_nat 0) with 0.
    rewrite !Z.add_0_r. lia.
  - cbn [backoff_waits foldr]. specialize (IH (retry + 1) ltac:(lia)).
    unfold len in *. cbn [length]. rewrite Nat2Z.inj_succ.
    replace (retry + 1 + Z.succ (Z.of_nat (length draws)))
      with (retry + 1 + 1 + Z.of_nat (length draws)) by lia.
    assert (2 ^ (retry + 1 + 1) = 2 * 2 ^ (retry + 1)) by (rewrite Z.pow_add_r; lia).
    unfold delay_s.
    assert (0 <= draw / 1000 <= 1).
    { split; [apply Z.div_pos; lia|]. apply Z.div_le_upper_bound; lia. }
    lia.
Qed.


(** When the numbers drawn are between 0 and 1000, the wait after the
    [i]-th attempt of [_IssueTokensRequestForUser] is 2^i seconds or one
    more, and all its waits together are at most 518 seconds. *)
Theorem _IssueTokensRequestForUser_waits (r : request) (s : state W) :
  (forall w, 0 <= (randint_0_1000 w).1 <= 1000) ->
  exists res s' t,
    _IssueTokensRequestForUser execute randint_0_1000 r s = (res, s') /\
    trace s' = trace s ++ t /\
    (length (sleeps t) <= 8)%nat /\
    (forall (i : nat) (d : Z),
        sleeps t !! i = Some d ->
        2 ^ (Z.of_nat i + 1) <= d <= 2 ^ (Z.of_nat i + 1) + 1) /\
    foldr Z.add 0 (sleeps t) <= 518.
Proof.
  intros Hrange. unfold _IssueTokensRequestForUser.
  destruct (_IssueTokensRequestForUser_loop_attempts default_fuel r
              (Backoff_init BACKOFF_MAX_RETRIES) s)
    as (n & res & s' & t & draws & Hrun & Htrace & Hexec & Hsleeps & Hdraws & _ & _
        & Hn & Hres); [reflexivity|].
  exists res, s', t. split; [done|]. split; [done|].
  change (attempts_left (Backoff_init BACKOFF_MAX_RETRIES)) with 8%nat in *.
  change (retry (Backoff_init BACKOFF_MAX_RETRIES)) with 0 in Hsleeps.
  assert (Hin : Forall (fun draw => 0 <= draw <= 1000) draws).
  { eapply Forall_impl; [exact Hdraws|]. cbn. intros d [w ->]. apply Hrange. }
  assert (Hlen : (length draws <= 8)%nat).
  { destruct res as [[doc|]|e|]; [lia|lia|lia|done]. }
  rewrite Hsleeps, length_backoff_waits. split; [done|]. split.
  - intros i d Hi. apply backoff_waits_bounds in Hi; [|lia|done].
    replace (Z.of_nat i + 1) with (0 + 1 + Z.of_nat i) by lia. done.
  - pose proof (backoff_waits_total 0 draws ltac:(lia) Hin) as Htotal.
    assert (2 ^ (0 + 1 + len draws) <= 2 ^ 9).
    { apply Z.pow_le_mono_r; unfold len; lia. }
    unfold len in *. change (2 ^ (0 + 1)) with 2 in Htotal.
    change (2 ^ 9) with 512 in *. lia.
Qed.

End AttemptFacts.

(** The witness: the remote API out of service, and every number drawn 0. *)
Lemma _IssueTokensRequestForUser_waits_witness :
  (forall w : unit, 0 <= (draw_0 w).1 <= 1000) /\
  exists res s' t,
    _IssueTokensRequestForUser out_of_service draw_0 (tokens_list "u1") (State tt [])
    = (res, s') /\
    trace s' = [] ++ t /\
    (length (sleeps t) <= 8)%nat /\
    (forall (i : nat) (d : Z),
        sleeps t !! i = Some d ->
        2 ^ (Z.of_nat i + 1) <= d <= 2 ^ (Z.of_nat i + 1) + 1) /\
    foldr Z.add 0 (sleeps t) <= 518.
Proof.
  assert (H : forall w : unit, 0 <= (draw_0 w).1 <= 1000) by (intros w; cbn; lia).
  split; [exact H|].
  exact (_IssueTokensRequestForUser_waits out_of_service draw_0 (tokens_list "u1")
           (State tt []) H).
Defined.

(** ** What a batch of revocations can send *)

Section SafetyFacts.
Context {W : Type}.
Variable execute : request -> W -> http_result * W.
Variable randint_0_1000 : W -> Z * W.
Variable isspace : ascii -> bool.

(** One call of [_RevokeToken], whatever the remote API answers: the
    handler of AdminAPIToolTokenRequestError is never entered. *)
Lemma _RevokeToken_run user_mail client_id (s : state W) :
  exists (n : nat) res s' t,
    _RevokeToken execute randint_0_1000 user_mail client_id s = (res, s') /\
    trace s' = trace s ++ revoking_line user_mail client_id :: t /\
    executed t = replicate n (tokens_delete client_id user_mail) /\
    (1 <= n <= 8)%nat /\
    error_log t = [] /\
    match res with
    | Return _ => True
    | Raise e =>
        exc_class e ∈ refusal_classes
    | OutOfFuel => False
    end.
Proof.
  unfold _RevokeToken, bind at 1. unfold LogInfo, emit. cbn [world trace].
  unfold try_except, bind, DeleteToken, _IssueTokensRequestForUser.
  match goal with
  | |- context [_IssueTokensRequestForUser_loop _ _ ?f ?r ?b ?s1] =>
      destruct (_IssueTokensRequestForUser_loop_attempts execute randint_0_1000 f r b s1)
        as (n & res & s' & t & draws & Hrun & Htrace & Hexec & _ & _ & _ & Herr
            & Hn & Hres); [reflexivity|];
      rewrite Hrun
  end.
  change (attempts_left (Backoff_init BACKOFF_MAX_RETRIES)) with 8%nat in *.
  cbn [trace] in Htrace. rewrite <- app_assoc in Htrace.
  destruct res as [[doc|]|e|]; [| |destruct Hres as [Hres Hcls]|done].
  - exists n, (Return tt), s', t. unfold ret. repeat split; try done; lia.
  - exists n, (Return tt), s', t. unfold ret. repeat split; try done; lia.
  - assert (issubclass (exc_class e) AdminAPIToolTokenRequestError = false) as ->.
    { unfold refusal_classes in Hcls. set_unfold.
      by destruct Hcls as [-> | [-> | [-> | [-> | []]]]]. }
    exists n, (Raise e), s', t. repeat split; try done; lia.
Qed.


Lemma executed_app t1 t2 : executed (t1 ++ t2) = executed t1 ++ executed t2.
Proof. apply omap_app. Qed.

(** A [for] loop sends what its body sends, and ends when the body
    raises. *)
Lemma for_each_executed {A} (l : list A) (body : A -> M W unit)
    (P : request -> Prop) (s : state W) :
  (forall x s, x ∈ l -> exists res s' t,
      body x s = (res, s') /\ res <> OutOfFuel /\ trace s' = trace s ++ t /\
      Forall P (executed t)) ->
  exists res s' t,
    for_each l body s = (res, s') /\ res <> OutOfFuel /\ trace s' = trace s ++ t /\
    Forall P (executed t).
Proof.
  revert s. induction l as [|x l IH]; intros s Hbody.
  - exists (Return tt), s, []. rewrite app_nil_r. by repeat split.
  - cbn [for_each]. unfold bind.
    destruct (Hbody x s) as (res1 & s1 & t1 & -> & Hres1 & Ht1 & Hp1); [by left|].
    destruct res1 as [[]|e|]; [| |done].
    + destruct (IH s1) as (res2 & s2 & t2 & -> & Hres2 & Ht2 & Hp2).
      { intros y s0 Hy. apply Hbody. by right. }
      exists res2, s2, (t1 ++ t2). split; [done|]. split; [done|].
      rewrite Ht2, Ht1, <- app_assoc. split; [done|].
      rewrite executed_app. by apply Forall_app.
    + exists (Raise e), s1, t1. by repeat split.
Qed.

(** The loop of [_IdentifyTokensToRevoke] has no effect but its result,
    also when it stops at a key that does not unpack. *)
Lemma _IdentifyTokensToRevoke_loop_any (self : TokenRevoker)
    (items : list (string * list string)) (d : gmap string (gset string))
    (s : state W) :
  exists res,
    _IdentifyTokensToRevoke_loop isspace self items d s = (res, s) /\
    match res with
    | Return d' =>
        well_formed_keys isspace items /\ d' = foldl (identify_item isspace self) d items
    | Raise e => exc_class e = ValueError
    | OutOfFuel => False
    end.
Proof.
  revert d. induction items as [|[stat_key user_list] items IH]; intros d.
  - eexists. split; [reflexivity|]. split; [constructor|done].
  - cbn [_IdentifyTokensToRevoke_loop foldl]. unfold identify_item at 2. cbn [fst snd].
    destruct (UnpackStatKey isspace stat_key) as [|scope [|client_id [|? ?]]] eqn:Hkey;
      try (eexists; split; [reflexivity|done]).
    destruct (IH (apply_blacklist_filters self scope client_id user_list d))
      as (res & Hrun & Hres).
    exists res. split; [done|].
    destruct res as [d'|e|]; [|done|done].
    destruct Hres as [Hwf ->]. split; [|done].
    constructor; [by exists scope, client_id|done].
Qed.

(** Whatever the remote API answers and however the run ends,
    [RevokeUnapprovedTokens] of a new revoker sends nothing but delete
    requests for tokens that an item of the statistics and a black list
    flag; without a statistics file, and with a key that does not unpack,
    it sends nothing. *)
Theorem RevokeUnapprovedTokens_revokes_only_flagged (self : TokenRevoker)
    (file : option (list (string * list string))) (s : state W) :
  _tokens_to_revoke self = ∅ ->
  exists res s' t,
    RevokeUnapprovedTokens execute randint_0_1000 isspace self file s = (res, s') /\
    res <> OutOfFuel /\
    trace s' = trace s ++ t /\
    forall r, r ∈ executed t ->
      exists items user_mail client_id,
        file = Some items /\
        well_formed_keys isspace items /\
        r = tokens_delete client_id user_mail /\
        flagged isspace self items user_mail client_id.
Proof.
  intros Hnew. unfold RevokeUnapprovedTokens, bind at 1.
  unfold _IdentifyTokensToRevoke, bind, GetTokenStats.
  destruct file as [items|].
  2: { unfold LogError, emit, raise. cbn [world trace].
       eexists. eexists. eexists. split; [reflexivity|]. split; [done|].
       cbn [trace]. split; [reflexivity|]. cbn. by intros r ?%elem_of_nil. }
  unfold ret at 1.
  destruct (_IdentifyTokensToRevoke_loop_any self items (_tokens_to_revoke self) s)
    as (res & -> & Hres).
  destruct res as [d|e|]; [| |done].
  2: { exists (Raise e), s, []. rewrite app_nil_r. split; [done|]. split; [done|].
       split; [done|]. cbn. by intros r ?%elem_of_nil. }
  destruct Hres as [Hwf ->]. fold (identified isspace self items).
  unfold ret at 1. cbn [_tokens_to_revoke].
  destruct (decide (identified isspace self items = ∅)) as [Hempty|Hne].
  { unfold LogInfo, emit, ret. cbn [world trace].
    eexists. eexists. eexists. split; [reflexivity|]. split; [done|].
    cbn [trace]. split; [reflexivity|]. cbn. by intros r ?%elem_of_nil. }
  unfold LogInfo, emit. cbn [world trace].
  set (P := fun r : request =>
              exists user_mail client_id,
                r = tokens_delete client_id user_mail /\
                flagged isspace self items user_mail client_id).
  match goal with
  | |- context [for_each ?l ?body ?s1] =>
      destruct (for_each_executed l body P s1) as (res & s' & t & Hrun & Hres & Htrace & HP)
  end.
  - intros client_id s0 _.
    apply (for_each_executed _ _ P s0).
    intros user_mail s1 Hu. apply sorted_elem in Hu.
    destruct (_RevokeToken_run user_mail client_id s1)
      as (n & res & s' & t & Hrun & Htrace & Hexec & Hn & _ & Hres).
    exists res, s', (revoking_line user_mail client_id :: t).
    split; [done|]. split; [by destruct res|]. split; [done|].
    change (executed (revoking_line user_mail client_id :: t)) with (executed t).
    rewrite Hexec. apply Forall_replicate. exists user_mail, client_id.
    split; [done|].
    unfold identified in Hu.
    apply (identified_from_lookup isspace self items _ client_id user_mail Hwf) in Hu.
    rewrite Hnew, lookup_empty in Hu. cbn in Hu.
    destruct Hu as [Hu|Hu]; [by apply elem_of_empty in Hu|done].
  - rewrite Hrun. cbn [trace] in Htrace.
    assert (Hsent : forall r, r ∈ executed t ->
              exists items0 user_mail client_id,
                Some items = Some items0 /\ well_formed_keys isspace items0 /\
                r = tokens_delete client_id user_mail /\
                flagged isspace self items0 user_mail client_id).
    { intros r Hr. rewrite Forall_forall in HP.
      destruct (HP r Hr) as (u & c & -> & Hflag). by exists items, u, c. }
    destruct res as [[]|e|]; [| |done].
    + unfold ret. eexists. eexists.
      exists (Log INFO (Msg "Tokens found to revoke.  Revoking now..." []) None :: t).
      split; [reflexivity|].
      split; [done|]. cbn [trace]. rewrite Htrace, <- app_assoc.
      split; [reflexivity|]. exact Hsent.
    + eexists. eexists.
      exists (Log INFO (Msg "Tokens found to revoke.  Revoking now..." []) None :: t).
      split; [reflexivity|].
      split; [done|]. rewrite Htrace, <- app_assoc.
      split; [reflexivity|]. exact Hsent.
Qed.

End SafetyFacts.

(** The witness: the example revoker and statistics, and a remote API that
    accepts every request. *)
Lemma RevokeUnapprovedTokens_revokes_only_flagged_witness :
  _tokens_to_revoke example_revoker = ∅ /\
  exists res s' t,
    RevokeUnapprovedTokens accepting draw_0 str_isspace example_revoker
      (Some example_token_data) (State tt [])
    = (res, s') /\
    res <> OutOfFuel /\
    trace s' = [] ++ t /\
    forall r, r ∈ executed t ->
      exists items user_mail client_id,
        Some example_token_data = Some items /\
        well_formed_keys str_isspace items /\
        r = tokens_delete client_id user_mail /\
        flagged str_isspace example_revoker items user_mail client_id.
Proof.
  split; [reflexivity|].
  exact (RevokeUnapprovedTokens_revokes_only_flagged accepting draw_0 str_isspace
           example_revoker (Some example_token_data) (State tt []) eq_refl).
Defined.

(** ** C8: the calls and the requests of a batch *)

Section BatchFacts.
Context {W : Type}.
Variable execute : request -> W -> http_result * W.
Variable randint_0_1000 : W -> Z * W.
Variable isspace : ascii -> bool.









End BatchFacts.


(** C8 as stated fails: with the remote API out of service, the example
    sends sixteen delete requests, eight for each of the two pairs, and
    returns; no token is revoked. *)
Lemma RevokeUnapprovedTokens_retries_each_delete :
  let run :=
    RevokeUnapprovedTokens out_of_service draw_0 str_isspace example_revoker
      (Some example_token_data) (State tt []) in
  revoke_calls (trace run.2) = [("u1", "client1"); ("u2", "client1")] /\
  executed (trace run.2)
  = replicate 8 (tokens_delete "client1" "u1")
    ++ replicate 8 (tokens_delete "client1" "u2") /\
  length (executed (trace run.2)) = 16%nat /\
  error_log (trace run.2) = [].
Proof. vm_compute. repeat split. Qed.

(** ** The attempts of a page request *)

Section PageAttemptFacts.
Context {W : Type}.
Variable execute : request -> W -> http_result * W.
Variable randint_0_1000 : W -> Z * W.




End PageAttemptFacts.

(** ** More on the user iterator *)

Section MoreIteratorFacts.
Implicit Types (users : list user) (s : state files) (w : files).

(** What [_ReadLastUserProgress] gives, and where it raises. *)
Lemma _ReadLastUserProgress_run (prefix : string) s :
  exists res,
    _ReadLastUserProgress prefix s = (res, s) /\
    match res with
    | Return (a, b, c) =>
        match world s !! progress_file_name prefix with
        | None => (a, b, c) = (JStr "", JStr "", JInt 0)
        | Some (JsonFile value) => py_iter value = Some [a; b; c]
        | Some (NotJsonFile _) => False
        end
    | Raise e =>
        match world s !! progress_file_name prefix with
        | None => False
        | Some (JsonFile value) =>
            exc_class e ∈ [ValueError; TypeError] /\
            ~ exists a b c, py_iter value = Some [a; b; c]
        | Some (NotJsonFile _) => exc_class e = AdminAPIToolJsonError
        end
    | OutOfFuel => False
    end.
Proof.
  unfold _ReadLastUserProgress.
  destruct (world s !! progress_file_name prefix) as [[why|value]|];
    [by eexists|
    |by eexists].
  unfold unpack3. destruct (py_iter value) as [[|a [|b [|c [|d items]]]]|];
    unfold raise, ret; eexists; (split; [reflexivity|]); cbv beta iota;
    try done; (split; [set_solver|]); by intros (? & ? & ? & ?).
Qed.

(** The checks of [CheckResumable] on the three values read. *)
Lemma CheckResumable_checks users (prefix : string) (fl : flags) s (a b c : json) :
  first_n fl <= 0 ->
  _ReadLastUserProgress prefix s = (Return (a, b, c), s) ->
  exists res,
    CheckResumable users (len users) prefix fl s = (res, s) /\
    match res with
    | Return users_checked =>
        10 <= users_checked <= len users /\ users_checked mod 10 = 0
    | Raise e =>
        exc_class e ∈ [AdminAPIToolResumeError; TypeError] /\
        ((exists n, c = JInt n) -> exc_class e = AdminAPIToolResumeError)
    | OutOfFuel => False
    end.
Proof.
  intros Hn Hread. unfold CheckResumable. rewrite (Zgtb_false _ _ Hn).
  unfold bind at 1. rewrite Hread.
  assert (Hresume : forall msg : message,
             exists res : result Z,
               (Raise (ResumeError msg), s) = (res, s) /\
               match res with
               | Return users_checked =>
                   10 <= users_checked <= len users /\ users_checked mod 10 = 0
               | Raise e =>
                   exc_class e ∈ [AdminAPIToolResumeError; TypeError] /\
                   ((exists n, c = JInt n) -> exc_class e = AdminAPIToolResumeError)
               | OutOfFuel => False
               end).
  { intros msg. eexists. split; [reflexivity|]. cbn. split; [set_solver|done]. }
  destruct (negb (py_bool a) || negb (py_bool b)); [apply Hresume|].
  unfold _USER_PROGRESS_CHECKPOINT_BATCH.
  destruct (py_lt_int c 10) eqn:Hlo; [apply Hresume|].
  destruct (py_gt_int c (len users)) eqn:Hhi; [apply Hresume|].
  destruct c as [|flag|users_checked|f|text|items|members]; try done.
  - by destruct flag.
  - cbn [py_lt_int py_gt_int] in Hlo, Hhi.
    apply Z.ltb_ge in Hlo. rewrite Z.gtb_ltb in Hhi. apply Z.ltb_ge in Hhi.
    assert (HN : len users = Z.of_nat (length users)) by done.
    destruct (lookup_lt_is_Some_2 users (Z.to_nat (users_checked - 1)))
      as [active_user Hactive]; [lia|].
    destruct (lookup_lt_is_Some_2 users (Z.to_nat (users_checked - 2)))
      as [active_prev Hprev]; [lia|].
    unfold bind at 1. unfold as_int, ret at 1.
    unfold bind at 1. unfold getitem at 1.
    rewrite py_index_lookup by lia. rewrite Hactive. unfold ret at 1.
    destruct (negb (py_eq_str b (email active_user))); [apply Hresume|].
    unfold bind at 1. unfold getitem at 1.
    rewrite py_index_lookup by lia. rewrite Hprev. unfold ret at 1.
    destruct (negb (py_eq_str a (email active_prev))); [apply Hresume|].
    eexists. split; [reflexivity|].
    cbv beta. split; [|by rewrite Zminus_mod_idemp_r, Z.sub_diag].
    pose proof (Z.mod_pos_bound users_checked 10 ltac:(lia)).
    pose proof (Z.div_mod users_checked 10 ltac:(lia)).
    assert (1 <= users_checked / 10) by (apply Z.div_le_lower_bound; lia).
    lia.
  - unfold bind at 1. unfold as_int, raise at 1.
    eexists. split; [reflexivity|]. cbn. split; [set_solver|].
    by intros [n ?].
Qed.

(** [CheckResumable], given the length of the list as [user_count],
    changes nothing, and never fails on an index that is out of range.  It
    returns a multiple of 10 between 10 and the number of users, or raises:
    AdminAPIToolResumeError; AdminAPIToolJsonError when the progress file
    is not JSON; ValueError or TypeError when what the file holds does not
    unpack into three values; TypeError when the count it holds is a
    float that passes the two range checks.  With no progress file, or with
    one that holds a list of three values with an int as the third, as
    [_WriteLastUserProgress] writes it, the only exception is
    AdminAPIToolResumeError. *)
Theorem CheckResumable_outcomes users (prefix : string) (fl : flags) s :
  exists res,
    CheckResumable users (len users) prefix fl s = (res, s) /\
    match res with
    | Return users_checked =>
        10 <= users_checked <= len users /\ users_checked mod 10 = 0
    | Raise e =>
        exc_class e ∈ [AdminAPIToolResumeError; AdminAPIToolJsonError;
                       ValueError; TypeError] /\
        (progress_well_formed (world s !! progress_file_name prefix) ->
         exc_class e = AdminAPIToolResumeError) /\
        (exc_class e = AdminAPIToolJsonError ->
         exists why, world s !! progress_file_name prefix = Some (NotJsonFile why))
    | OutOfFuel => False
    end.
Proof.
  destruct (first_n fl >? 0) eqn:Hn.
  { unfold CheckResumable. rewrite Hn. eexists. split; [reflexivity|].
    cbn. split; [set_solver|]. split; done. }
  assert (Hn' : first_n fl <= 0).
  { rewrite Z.gtb_ltb in Hn. apply Z.ltb_ge in Hn. lia. }
  destruct (_ReadLastUserProgress_run prefix s) as (read & Hread & Hshape).
  destruct read as [[[a b] c]|e|]; [| |done].
  - destruct (CheckResumable_checks users prefix fl s a b c Hn' Hread)
      as (res & Hrun & Hres).
    exists res. split; [done|].
    destruct res as [users_checked|e|]; [done| |done].
    destruct Hres as [Hcls Hint]. split; [set_solver|]. split.
    + intros Hwf. apply Hint.
      destruct (world s !! progress_file_name prefix) as [[why|value]|].
      * done.
      * destruct value as [| | | | |items|]; try done.
        destruct items as [|x [|y [|z [|? ?]]]]; try done.
        destruct z; try done. cbn in Hshape. injection Hshape as _ _ <-.
        by eexists.
      * injection Hshape as _ _ ->. by eexists.
    + intros Hjson. rewrite Hjson in Hcls. set_solver.
  - exists (Raise e). unfold CheckResumable. rewrite Hn.
    unfold bind at 1. rewrite Hread. split; [done|].
    destruct (world s !! progress_file_name prefix) as [[why|value]|]; [| |done].
    + rewrite Hshape. split; [set_solver|]. split; [done|]. by exists why.
    + destruct Hshape as [Hcls Hno]. split; [set_solver|]. split.
      * intros Hwf. exfalso. apply Hno.
        destruct value as [| | | | |items|]; try done.
        destruct items as [|x [|y [|z [|? ?]]]]; try done;
          destruct z; try done.
        by eexists _, _, _.
      * intros Hjson. rewrite Hjson in Hcls. set_solver.
Qed.

(** A run with [--resume] that finds no progress file logs the error and
    exits with status 1. *)
Lemma StartUserIterator_resume_no_progress users prefix w :
  w !! progress_file_name prefix = None ->
  exists msg e,
    StartUserIterator users prefix resumed_run (State w [])
    = (Raise sys_exit_1, State w [Log ERROR msg (Some e)]) /\
    exc_class e = AdminAPIToolResumeError.
Proof.
  intros Hfile. unfold StartUserIterator, resumed_run. cbn [resume].
  unfold bind at 1. unfold bind at 1. unfold try_except.
  unfold CheckResumable. cbn [first_n]. change (0 >? 0) with false. cbv iota.
  unfold bind at 1. unfold _ReadLastUserProgress. cbn [world]. rewrite Hfile.
  cbn [py_bool String.eqb negb orb]. unfold raise at 1.
  eexists. eexists. split; [reflexivity|done].
Qed.

(** After a run that went through, the progress file is gone, and a run
    with [--resume] yields no user: it logs that it cannot resume, with the
    AdminAPIToolResumeError, changes no file and exits with status 1. *)
Theorem resume_after_completed_run users (prefix : string) w :
  let full := StartUserIterator users prefix first_run (State w []) in
  let again := StartUserIterator users prefix resumed_run (State (world full.2) []) in
  full.1 = Return tt /\
  yielded (trace full.2) = map user_key users /\
  again.1 = Raise sys_exit_1 /\
  yielded (trace again.2) = [] /\
  world again.2 = world full.2 /\
  exists msg e,
    trace again.2 = [Log ERROR msg (Some e)] /\
    exc_class e = AdminAPIToolResumeError.
Proof.
  cbv zeta.
  destruct (StartUserIterator_first_run users prefix w)
    as (w1 & tail & -> & Htail & Hgone).
  cbn [fst snd world trace].
  destruct (StartUserIterator_resume_no_progress users prefix w1 Hgone)
    as (msg & e & -> & Hcls).
  cbn [fst snd world trace]. split; [done|].
  split; [by rewrite yielded_app, yielded_iterate_events, Htail, app_nil_r|].
  split; [done|]. split; [done|]. split; [done|]. by exists msg, e.
Qed.

Lemma py_slice_take {A} (l : list A) (n : Z) :
  0 <= n -> py_slice l 0 n = take (Z.to_nat n) l.
Proof.
  intros Hn. rewrite py_slice_from_0. unfold slice_bound.
  destruct (Z.ltb_spec n 0); [lia|].
  destruct (Z.le_gt_cases n (len l)).
  - by rewrite Z.min_l.
  - rewrite Z.min_r by lia. unfold len in *.
    by rewrite !take_ge by lia.
Qed.

Lemma checkpoints_app t1 t2 : checkpoints (t1 ++ t2) = checkpoints t1 ++ checkpoints t2.
Proof. apply omap_app. Qed.

(** The checkpoint flag of the loop: set on every tenth user and on the
    user that reaches [user_count]. *)
Lemma checkpoints_iterate_events prefix (user_count : Z) users (users_checked : Z)
    (prev_user : option string) (i : nat) (c : bool) :
  checkpoints (iterate_events prefix user_count users users_checked prev_user) !! i
  = Some c ->
  c = ((users_checked + Z.of_nat i + 1) mod 10 =? 0)
      || (users_checked + Z.of_nat i + 1 =? user_count).
Proof.
  revert users_checked prev_user i.
  induction users as [|[[user_email uid] full_name] users IH];
    intros users_checked prev_user i Hi; [done|].
  cbn [iterate_events] in Hi.
  rewrite checkpoints_app, checkpoints_app in Hi.
  assert (Hflag : forall b : bool,
             checkpoints (if b then
                            [Stdout (Msg "%80s\r" [AStr ""]);
                             Stdout (Msg "Checked %d of %d users.\n"
                                       [AInt (users_checked + 1); AInt user_count])]
                          else []) = []) by (by intros []).
  rewrite Hflag in Hi. cbn [app] in Hi.
  destruct i as [|i].
  - cbn in Hi. injection Hi as <-. unfold _USER_PROGRESS_CHECKPOINT_BATCH.
    by rewrite Z.add_0_r.
  - cbn [checkpoints omap app lookup list_lookup] in Hi.
    apply IH in Hi. rewrite Hi. do 3 f_equal; lia.
Qed.

(** A run without [--resume]: [--first_n], when given, takes the place of
    the number of users.  The run returns, yields the first [first_n] users
    (all of them without [--first_n], or when there are fewer), each once
    and in order, and removes the progress file.  The checkpoint flag is set
    on every tenth user and on the user number [first_n], or the last one
    without [--first_n]: when [--first_n] exceeds the number of users, the
    last user is no checkpoint unless its number is a multiple of 10. *)
Theorem StartUserIterator_first_n users (prefix : string) (fl : flags) w :
  resume fl = false ->
  0 <= first_n fl ->
  let user_count := if decide (first_n fl = 0) then len users else first_n fl in
  let run := StartUserIterator users prefix fl (State w []) in
  run.1 = Return tt /\
  yielded (trace run.2) = map user_key (take (Z.to_nat user_count) users) /\
  (forall (i : nat) (c : bool),
      checkpoints (trace run.2) !! i = Some c ->
      (c = true <-> (Z.of_nat i + 1) mod 10 = 0 \/ Z.of_nat i + 1 = user_count)) /\
  world run.2 !! progress_file_name prefix = None.
Proof.
  intros Hresume Hn. cbv zeta.
  set (user_count := if decide (first_n fl = 0) then len users else first_n fl).
  assert (Hcount : 0 <= user_count).
  { unfold user_count. destruct (decide _); unfold len; lia. }
  set (events := iterate_events prefix user_count (take (Z.to_nat user_count) users) 0 None).
  assert (Hrun : exists w' tail,
             StartUserIterator users prefix fl (State w [])
             = (Return tt, State w' (events ++ tail)) /\
             checkpoints tail = [] /\ yielded tail = [] /\
             w' !! progress_file_name prefix = None).
  { unfold StartUserIterator. rewrite Hresume. fold user_count.
    unfold bind at 1. unfold ret at 1.
    rewrite py_slice_take by done.
    unfold bind. rewrite iterate_run. cbn [world trace app]. fold events.
    unfold _RemoveLastUserProgress. cbn [world trace].
    destruct (replay events w !! progress_file_name prefix) as [p|] eqn:Hfile.
    - eexists. exists [RemoveFile (progress_file_name prefix)].
      split; [done|]. split; [done|]. split; [done|]. apply lookup_delete_eq.
    - eexists. exists []. rewrite app_nil_r. by repeat split. }
  destruct Hrun as (w' & tail & -> & Hcp & Hy & Hgone). cbn [fst snd world trace].
  split; [done|]. split; [|split; [|done]].
  - rewrite yielded_app, Hy, app_nil_r. unfold events.
    by rewrite yielded_iterate_events.
  - intros i c Hi. rewrite checkpoints_app, Hcp, app_nil_r in Hi.
    apply checkpoints_iterate_events in Hi. subst c.
    rewrite orb_true_iff, !Z.eqb_eq. by rewrite Z.add_0_l.
Qed.

(** A run with [--resume] on a progress file written after [K] users: it
    starts again after the last full batch of 10. *)
Lemma StartUserIterator_resumed_from users prefix w (K : Z)
    (u_prev u_last u_before u_next : user) :
  10 <= K <= len users ->
  K - K mod 10 < len users ->
  users !! Z.to_nat (K - 2) = Some u_prev ->
  users !! Z.to_nat (K - 1) = Some u_last ->
  users !! Z.to_nat (K - K mod 10 - 1) = Some u_before ->
  users !! Z.to_nat (K - K mod 10) = Some u_next ->
  email u_prev <> "" -> email u_last <> "" ->
  w !! progress_file_name prefix = Some (progress_file (Some (email u_prev), email u_last, K)) ->
  exists w' tail,
    StartUserIterator users prefix resumed_run (State w [])
    = (Return tt,
       State w'
         (resuming_line (K - K mod 10) (len users) u_next
          :: iterate_events prefix (len users)
               (drop (Z.to_nat (K - K mod 10)) users) (K - K mod 10)
               (Some (email u_before))
          ++ tail)) /\
    yielded tail = [] /\
    w' !! progress_file_name prefix = None.
Proof.
  intros [Hlo Hhi] Hstart Hprev Hlast Hbefore Hnext Heprev Helast Hfile.
  pose proof (Z.mod_pos_bound K 10 ltac:(lia)) as Hmod.
  assert (10 <= K - K mod 10).
  { pose proof (Z.div_mod K 10 ltac:(lia)).
    assert (1 <= K / 10) by (apply Z.div_le_lower_bound; lia). lia. }
  unfold StartUserIterator, resumed_run. cbn [resume].
  unfold bind at 1. unfold bind at 1. unfold try_except.
  rewrite (CheckResumable_accepts users (len users) prefix _ (State w [])
             (email u_prev) (email u_last) K);
    [|done|done|done|done|lia| |].
  2: { rewrite py_index_lookup by lia. by rewrite Hlast. }
  2: { rewrite py_index_lookup by lia. by rewrite Hprev. }
  unfold bind at 1. unfold getitem at 1.
  rewrite py_index_lookup by lia. rewrite Hbefore. unfold ret at 1.
  unfold bind at 1. unfold getitem at 1.
  rewrite py_index_lookup by lia. rewrite Hnext. unfold ret at 1.
  unfold bind at 1. unfold emit, ret. cbn [world trace app].
  rewrite py_slice_to_end by lia.
  unfold bind. rewrite iterate_run. cbn [world trace].
  unfold _RemoveLastUserProgress. cbn [world trace].
  destruct (replay _ w !! progress_file_name prefix) as [p|] eqn:Hfile'.
  - eexists. exists [RemoveFile (progress_file_name prefix)].
    split; [done|]. split; [done|]. apply lookup_delete_eq.
  - eexists. exists []. rewrite app_nil_r. by split.
Qed.

(** Resume after an interrupt at any user.  A first run over a cached list
    of users with non-empty e-mail addresses is interrupted right after it
    has written its [k]-th progress, 10 <= k; a run with [--resume] follows
    on the files the first run left.  When the last full batch of 10 ends
    before the end of the list, the resumed run returns, yields the users
    from the end of that batch on, and removes the progress file: the up to
    9 users after the batch that the interrupted run had yielded are
    yielded again, and no user is left out. *)
Theorem resume_redoes_unsaved_users users (prefix : string) w (k : Z) :
  10 <= k <= len users ->
  k - k mod 10 < len users ->
  Forall (fun u => email u <> "") users ->
  let full := StartUserIterator users prefix first_run (State w []) in
  let cut := interrupted_after (trace full.2) (Z.to_nat k) in
  let resumed := StartUserIterator users prefix resumed_run (State (replay cut w) []) in
  yielded cut = map user_key (take (Z.to_nat k) users) /\
  resumed.1 = Return tt /\
  yielded (trace resumed.2) = map user_key (drop (Z.to_nat (k - k mod 10)) users) /\
  0 <= k mod 10 <= 9 /\
  world resumed.2 !! progress_file_name prefix = None.
Proof.
  intros [Hlo Hhi] Hstart Hemails full cut resumed.
  pose proof (Z.mod_pos_bound k 10 ltac:(lia)) as Hmod.
  assert (Hk0 : 10 <= k - k mod 10).
  { pose proof (Z.div_mod k 10 ltac:(lia)).
    assert (1 <= k / 10) by (apply Z.div_le_lower_bound; lia). lia. }
  assert (HN : len users = Z.of_nat (length users)) by done.
  destruct (lookup_lt_is_Some_2 users (Z.to_nat (k - 2))) as [u_prev Hprev]; [lia|].
  destruct (lookup_lt_is_Some_2 users (Z.to_nat (k - 1))) as [u_last Hlast]; [lia|].
  destruct (lookup_lt_is_Some_2 users (Z.to_nat (k - k mod 10 - 1)))
    as [u_before Hbefore]; [lia|].
  destruct (lookup_lt_is_Some_2 users (Z.to_nat (k - k mod 10)))
    as [u_next Hnext]; [lia|].
  assert (Heprev : email u_prev <> "").
  { rewrite Forall_forall in Hemails. apply Hemails.
    apply list_elem_of_lookup. by eexists. }
  assert (Helast : email u_last <> "").
  { rewrite Forall_forall in Hemails. apply Hemails.
    apply list_elem_of_lookup. by eexists. }
  set (users1 := take (Z.to_nat (k - 1)) users).
  set (users2 := drop (S (Z.to_nat (k - 1))) users).
  assert (Husers : users = users1 ++ u_last :: users2)
    by (symmetry; by apply take_drop_middle).
  assert (Hlen1 : length users1 = Z.to_nat (k - 1))
    by (unfold users1; rewrite length_take; lia).
  assert (Hlast1 : last users1 = Some u_prev).
  { rewrite last_lookup, Hlen1. unfold users1.
    rewrite lookup_take_lt by lia.
    replace (Init.Nat.pred (Z.to_nat (k - 1))) with (Z.to_nat (k - 2)) by lia. done. }
  destruct (StartUserIterator_first_run users prefix w)
    as (w1 & tail & Hfull & Htail & _).
  assert (Hcut : cut = iterate_events prefix (len users) users1 0 None
                       ++ yield_and_write prefix (len users) u_last (k - 1)
                            (Some (email u_prev))).
  { unfold cut, full. rewrite Hfull. cbn [snd trace].
    rewrite Husers at 2.
    replace (Z.to_nat k) with (S (length users1)) by lia.
    rewrite interrupted_after_user, Hlast1. cbn [fmap option_fmap option_map from_option].
    do 3 f_equal. unfold len. lia. }
  assert (Hfile : replay cut w !! progress_file_name prefix
                  = Some (progress_file (Some (email u_prev), email u_last, k))).
  { rewrite Hcut, replay_app. unfold yield_and_write. cbn [replay foldl].
    rewrite lookup_insert_eq. do 3 f_equal. lia. }
  destruct (StartUserIterator_resumed_from users prefix (replay cut w) k
              u_prev u_last u_before u_next)
    as (w2 & tail2 & Hresumed & Htail2 & Hgone); try done.
  split.
  { rewrite Hcut, yielded_app, yielded_iterate_events.
    replace (Z.to_nat k) with (S (Z.to_nat (k - 1))) by lia.
    rewrite (take_S_r _ _ _ Hlast), map_app. done. }
  split; [unfold resumed; by rewrite Hresumed|].
  split.
  { unfold resumed. rewrite Hresumed. cbn [snd trace].
    change (resuming_line ?a ?b ?c :: ?t) with ([resuming_line a b c] ++ t).
    rewrite !yielded_app, yielded_iterate_events, Htail2. cbn. by rewrite app_nil_r. }
  split; [lia|].
  unfold resumed. by rewrite Hresumed.
Qed.

End MoreIteratorFacts.

(** The witness: thirteen cached users and [--first_n 25]. *)
Lemma StartUserIterator_first_n_witness :
  let fl := {| resume := false; first_n := 25 |} in
  let user_count := if decide (first_n fl = 0) then len (example_users 13) else first_n fl in
  let run := StartUserIterator (example_users 13) "collection" fl (State ∅ []) in
  resume fl = false /\
  0 <= first_n fl /\
  run.1 = Return tt /\
  yielded (trace run.2) = map user_key (take (Z.to_nat user_count) (example_users 13)) /\
  (forall (i : nat) (c : bool),
      checkpoints (trace run.2) !! i = Some c ->
      (c = true <-> (Z.of_nat i + 1) mod 10 = 0 \/ Z.of_nat i + 1 = user_count)) /\
  world run.2 !! progress_file_name "collection" = None.
Proof.
  cbv zeta. split; [reflexivity|]. split; [cbn; lia|].
  exact (StartUserIterator_first_n (example_users 13) "collection"
           {| resume := false; first_n := 25 |} ∅ eq_refl ltac:(cbn; lia)).
Defined.

(** The witness: twenty cached users, and the first run interrupted after
    its thirteenth write of the progress. *)
Lemma resume_redoes_unsaved_users_witness :
  let users := example_users 20 in
  let full := StartUserIterator users "collection" first_run (State ∅ []) in
  let cut := interrupted_after (trace full.2) (Z.to_nat 13) in
  let resumed :=
    StartUserIterator users "collection" resumed_run (State (replay cut ∅) []) in
  10 <= 13 <= len users /\
  13 - 13 mod 10 < len users /\
  Forall (fun u => email u <> "") users /\
  yielded cut = map user_key (take (Z.to_nat 13) users) /\
  resumed.1 = Return tt /\
  yielded (trace resumed.2) = map user_key (drop (Z.to_nat (13 - 13 mod 10)) users) /\
  0 <= 13 mod 10 <= 9 /\
  world resumed.2 !! progress_file_name "collection" = None.
Proof.
  cbv zeta.
  assert (H1 : 10 <= 13 <= len (example_users 20)) by (vm_compute; split; discriminate).
  assert (H2 : 13 - 13 mod 10 < len (example_users 20)) by (vm_compute; reflexivity).
  assert (H3 : Forall (fun u => email u <> "") (example_users 20)).
  { apply Forall_forall. intros u Hu.
    apply list_elem_of_In, in_map_iff in Hu as (n & <- & _). done. }
  split; [exact H1|]. split; [exact H2|]. split; [exact H3|].
  exact (resume_redoes_unsaved_users (example_users 20) "collection" ∅ 13 H1 H2 H3).
Defined.

(** ** A request that goes through after retries *)

Section ScriptedFacts.

(** The answers that make the loop try again. *)
Lemma scripted_loop_retries (r : request) (doc : document)
    (rest : list http_result) (failures : list http_result) :
  Forall (fun answer => exists status uri body,
            answer = HttpError status uri body /\ status ∈ RETRY_RESPONSE_CODES)
         failures ->
  forall (fuel : nat) (b : Backoff) (t0 : list event),
    (length failures < attempts_left b)%nat ->
    (length failures < fuel)%nat ->
    exists t,
      _IssueTokensRequestForUser_loop scripted scripted_draw_0 fuel r b
        (State (failures ++ HttpOk doc :: rest) t0)
      = (Return (Some doc), State rest (t0 ++ t)) /\
      executed t = replicate (S (length failures)) r /\
      sleeps t = backoff_waits (retry b) (replicate (length failures) 0) /\
      error_log t = [].
Proof.
  induction 1 as [|answer failures (status & uri & body & -> & Hretry) _ IH];
    intros fuel b t0 Hleft Hfuel.
  - destruct fuel as [|fuel]; [cbn in Hfuel; lia|].
    assert (Hloop : Loop b = true).
    { unfold Loop, attempts_left in *. apply Z.ltb_lt. cbn in Hleft. lia. }
    rewrite (_IssueTokensRequestForUser_loop_ok _ _ _ _ _ _ doc Hloop) by done.
    exists [Execute r]. by repeat split.
  - destruct fuel as [|fuel]; [cbn in Hfuel; lia|].
    assert (Hloop : Loop b = true).
    { unfold Loop, attempts_left in *. apply Z.ltb_lt. cbn in Hleft. lia. }
    rewrite (_IssueTokensRequestForUser_loop_retry _ _ _ _ _ _ status uri body Hloop)
      by done.
    unfold after_retry. cbn [world trace app scripted scripted_draw_0 fst snd].
    rewrite (Loop_true_attempts_left _ Hloop) in Hleft. cbn [length] in *.
    edestruct (IH fuel (failed_once b)) as (t & -> & Hexec & Hsleeps & Herr);
      [lia|lia|].
    eexists. rewrite <- app_assoc. split; [reflexivity|].
    unfold executed, sleeps, error_log in *.
    rewrite !omap_app, List.filter_app, Hexec, Hsleeps, Herr.
    by repeat split.
Qed.

(** When the remote API answers a request fewer than 8 times with a status
    of [RETRY_RESPONSE_CODES] and then with a document,
    [_IssueTokensRequestForUser] returns that document: it has sent the
    request once more than it failed, waited 2, 4, 8, ... seconds between
    the attempts (with every number drawn below 1000), and logged no
    error. *)
Theorem _IssueTokensRequestForUser_retries_then_returns (r : request)
    (failures : list http_result) (doc : document) (rest : list http_result)
    (t0 : list event) :
  Forall (fun answer => exists status uri body,
            answer = HttpError status uri body /\ status ∈ RETRY_RESPONSE_CODES)
         failures ->
  (length failures < 8)%nat ->
  exists t,
    _IssueTokensRequestForUser scripted scripted_draw_0 r
      (State (failures ++ HttpOk doc :: rest) t0)
    = (Return (Some doc), State rest (t0 ++ t)) /\
    executed t = replicate (S (length failures)) r /\
    sleeps t = map (fun i => 2 ^ Z.of_nat i) (seq 1 (length failures)) /\
    error_log t = [].
Proof.
  intros Hfailures Hlen. unfold _IssueTokensRequestForUser.
  destruct (scripted_loop_retries r doc rest failures Hfailures default_fuel
              (Backoff_init BACKOFF_MAX_RETRIES) t0) as (t & -> & Hexec & Hsleeps & Herr).
  { exact Hlen. }
  { exact Hlen. }
  exists t. split; [done|]. split; [done|]. split; [|done].
  rewrite Hsleeps. change (retry (Backoff_init BACKOFF_MAX_RETRIES)) with 0.
  assert (H : forall (n j : nat),
             backoff_waits (Z.of_nat j - 1) (replicate n 0)
             = map (fun i => 2 ^ Z.of_nat i) (seq j n)).
  { induction n as [|n IH]; intros j; [done|].
    cbn [replicate backoff_waits seq map]. f_equal.
    - unfold delay_s. change (0 / 1000) with 0.
      replace (Z.of_nat j - 1 + 1) with (Z.of_nat j) by lia. lia.
    - rewrite <- IH. f_equal. lia. }
  exact (H (length failures) 1%nat).
Qed.

End ScriptedFacts.

(** The witness: a token looked up while the remote API is busy twice. *)
Lemma _IssueTokensRequestForUser_retries_then_returns_witness :
  let busy :=
    HttpError 503 "https://www.googleapis.com/admin/directory/v1/users/u1/tokens/client1"
      (ErrorText "Service Unavailable" "ERROR: status=503.") in
  let doc := Dict [("clientId", "client1")] in
  Forall (fun answer => exists status uri body,
            answer = HttpError status uri body /\ status ∈ RETRY_RESPONSE_CODES)
         [busy; busy] /\
  (length [busy; busy] < 8)%nat /\
  exists t,
    _IssueTokensRequestForUser scripted scripted_draw_0 (tokens_get "client1" "u1")
      (State ([busy; busy] ++ HttpOk doc :: []) [])
    = (Return (Some doc), State [] ([] ++ t)) /\
    executed t = replicate (S (length [busy; busy])) (tokens_get "client1" "u1") /\
    sleeps t = map (fun i => 2 ^ Z.of_nat i) (seq 1 (length [busy; busy])) /\
    error_log t = [].
Proof.
  cbv zeta.
  set (busy := HttpError 503
                 "https://www.googleapis.com/admin/directory/v1/users/u1/tokens/client1"
                 (ErrorText "Service Unavailable" "ERROR: status=503.")).
  assert (H1 : Forall (fun answer => exists status uri body,
                         answer = HttpError status uri body /\
                         status ∈ RETRY_RESPONSE_CODES) [busy; busy]).
  { repeat (constructor;
            [eexists _, _, _; split;
             [reflexivity|unfold RETRY_RESPONSE_CODES; set_solver]|]).
    constructor. }
  assert (H2 : (length [busy; busy] < 8)%nat) by (cbn; lia).
  split; [exact H1|]. split; [exact H2|].
  exact (_IssueTokensRequestForUser_retries_then_returns (tokens_get "client1" "u1")
           [busy; busy] (Dict [("clientId", "client1")]) [] [] H1 H2).
Defined.

(** ** The keys that unpack *)

Section UnpackFacts.
Variable isspace : ascii -> bool.

Lemma lstrip_space_split s :
  exists lead, all_whitespace isspace lead = true /\
               s = lead +:+ lstrip_space isspace s.
Proof.
  induction s as [|a s (lead & Hlead & IH)]; [by exists ""|].
  cbn [lstrip_space]. destruct (isspace a) eqn:Ha.
  - exists (String a lead). split; [cbn; by rewrite Ha, Hlead|].
    change (String a lead +:+ ?x) with (String a (lead +:+ x)). by f_equal.
  - by exists "".
Qed.

Lemma lstrip_space_all_whitespace lead s :
  all_whitespace isspace lead = true ->
  lstrip_space isspace (lead +:+ s) = lstrip_space isspace s.
Proof.
  induction lead as [|a lead IH]; [done|].
  change (String a lead +:+ s) with (String a (lead +:+ s)).
  cbn [all_whitespace lstrip_space].
  intros [Ha Hlead]%andb_true_iff. rewrite Ha. by apply IH.
Qed.

(** What [span_word] returns: the word has no white space, and what
    follows it is empty or begins with white space. *)
Lemma span_word_split s :
  let '(w, r) := span_word isspace s in
  s = w +:+ r /\ no_whitespace isspace w = true /\
  starts_with_word isspace r = false.
Proof.
  induction s as [|a s IH]; [done|]. cbn [span_word].
  destruct (isspace a) eqn:Ha.
  - cbn. by rewrite Ha.
  - destruct (span_word isspace s) as [w r]. destruct IH as (-> & Hw & Hr).
    change (String a w +:+ r) with (String a (w +:+ r)).
    cbn [no_whitespace]. by rewrite Ha.
Qed.

Lemma span_word_before_space w r :
  no_whitespace isspace w = true ->
  starts_with_word isspace r = false ->
  span_word isspace (w +:+ r) = (w, r).
Proof.
  intros Hw Hr. induction w as [|a w IH].
  - change ("" +:+ r) with r. destruct r as [|b r]; [done|].
    cbn [starts_with_word span_word] in *.
    apply negb_false_iff in Hr. by rewrite Hr.
  - change (String a w +:+ r) with (String a (w +:+ r)).
    cbn [no_whitespace span_word] in *. apply andb_true_iff in Hw as [Ha Hw].
    apply negb_true_iff in Ha. by rewrite Ha, (IH Hw).
Qed.

Lemma starts_with_word_lstrip s :
  lstrip_space isspace s <> "" ->
  starts_with_word isspace (lstrip_space isspace s) = true.
Proof.
  induction s as [|a s IH]; [done|]. cbn [lstrip_space].
  destruct (isspace a) eqn:Ha; [done|]. intros _. cbn. by rewrite Ha.
Qed.

(** [UnpackStatKey] gives the two parts [scope; client_id] exactly for the
    keys that read: white space or nothing, then the scope, which is not
    empty and holds no white space, then some white space, and then the
    client id, which begins with a character that is not white space and
    goes to the end of the key. *)
Theorem UnpackStatKey_two_parts_iff (stat_key scope client_id : string) :
  UnpackStatKey isspace stat_key = [scope; client_id]
  <-> exists lead sep,
        stat_key = lead +:+ scope +:+ sep +:+ client_id /\
        all_whitespace isspace lead = true /\
        all_whitespace isspace sep = true /\ sep <> "" /\
        scope <> "" /\ no_whitespace isspace scope = true /\
        starts_with_word isspace client_id = true.
Proof.
  unfold UnpackStatKey, split_None_1. split.
  - destruct (lstrip_space_split stat_key) as (lead & Hlead & Hkey).
    destruct (lstrip_space isspace stat_key) as [|a s1] eqn:Hs1; [done|].
    pose proof (span_word_split (String a s1)) as Hspan.
    destruct (span_word isspace (String a s1)) as [w r].
    destruct Hspan as (Hs & Hw & Hr).
    destruct (lstrip_space_split r) as (sep & Hsep & Hrest).
    pose proof (starts_with_word_lstrip r) as Hstart.
    destruct (lstrip_space isspace r) as [|b r'] eqn:Hr'; [done|].
    intros [= <- <-]. exists lead, sep.
    split; [by rewrite Hkey, Hs, Hrest at 1|].
    split; [done|]. split; [done|].
    split.
    { intros ->. change ("" +:+ ?x) with x in Hrest. rewrite Hrest in Hr.
      rewrite Hstart in Hr; done. }
    split.
    { intros ->. change ("" +:+ ?x) with x in Hs. rewrite <- Hs in Hr.
      assert (Ha : isspace a = false) by (by eapply lstrip_space_head).
      cbn in Hr. by rewrite Ha in Hr. }
    split; [done|]. by apply Hstart.
  - intros (lead & sep & -> & Hlead & Hsep & Hne_sep & Hne & Hscope & Hclient).
    rewrite (lstrip_space_all_whitespace _ _ Hlead).
    assert (Hw : starts_with_word isspace (scope +:+ sep +:+ client_id) = true).
    { destruct scope as [|a scope]; [done|]. cbn in *.
      by apply andb_true_iff in Hscope as [? _]. }
    rewrite (lstrip_space_word _ _ Hw).
    destruct (scope +:+ sep +:+ client_id) as [|a rest] eqn:Hkey; [done|].
    rewrite <- Hkey.
    rewrite (span_word_before_space scope (sep +:+ client_id) Hscope).
    2: { destruct sep as [|b sep]; [done|].
         change (String b sep +:+ client_id) with (String b (sep +:+ client_id)).
         cbn [starts_with_word all_whitespace] in *.
         apply andb_true_iff in Hsep as [-> _]. done. }
    rewrite (lstrip_space_all_whitespace _ _ Hsep), (lstrip_space_word _ _ Hclient).
    by destruct client_id.
Qed.

End UnpackFacts.
